(** * Quick Ride shareholder backend ([backend/server.js])

    A shallow embedding of the Express routes of [server.js] that carry
    business rules: the running-stage helper, registration, login, the
    agreement status update and deletion, the stage routes, the two
    dividend routes and the pagination of the agreement PDF.

    - The SQLite tables are lists of rows in rowid order; a route is a
      function from the database (and the request) to the new database
      and the HTTP response.
    - JavaScript numbers are kept abstract behind the class [JsNumber];
      the routes are written once against it.  Two instances are given:
      [B64], IEEE 754 binary64 as specified by [SpecFloat] (what Node
      runs), and [Exact], rationals extended with NaN and the
      infinities (arithmetic without binary rounding error), on which the
      numeric bounds of the dividend allocator are proved.
    - [bcrypt], the clock and PDFKit's text measurement are parameters. *)

From Stdlib Require Import ZArith QArith Qround Qabs List Bool String Ascii.
From Stdlib Require Import Lia Lqa SpecFloat DecimalString.
Import ListNotations.

Open Scope string_scope.
Open Scope Z_scope.

(** ** JavaScript numbers *)

(** The operations of a JS number that [server.js] uses. *)
Class JsNumber (num : Type) : Type := {
  num_of_Z : Z -> num;                 (* an integer literal *)
  NaN : num;
  js_add : num -> num -> num;          (* x + y *)
  js_sub : num -> num -> num;          (* x - y *)
  js_mul : num -> num -> num;          (* x * y *)
  js_div : num -> num -> num;          (* x / y *)
  js_lt : num -> num -> bool;          (* x < y *)
  js_le : num -> num -> bool;          (* x <= y *)
  js_eq : num -> num -> bool;          (* x === y *)
  ToBoolean : num -> bool;             (* truthiness: false for 0, -0, NaN *)
  Math_round : num -> num;
  Math_max : num -> num -> num
}.

Declare Scope js_scope.
Delimit Scope js_scope with js.
Notation "x + y" := (js_add x y) : js_scope.
Notation "x - y" := (js_sub x y) : js_scope.
Notation "x * y" := (js_mul x y) : js_scope.
Notation "x / y" := (js_div x y) : js_scope.
Notation "x <= y" := (js_le x y) : js_scope.
Notation "x < y" := (js_lt x y) : js_scope.

(** [x || d] on numbers. *)
Definition num_or {num} `{JsNumber num} (x d : num) : num :=
  if ToBoolean x then x else d.

(** [Number(v) || 0] (and [Number(v || 0)]) for a numeric request field
    that may be missing: [undefined], 0 and NaN all give 0. *)
Definition Number_or_0 {num} `{JsNumber num} (v : option num) : num :=
  match v with
  | Some x => num_or x (num_of_Z 0)
  | None => num_of_Z 0
  end.

(** [s || d] on strings: the empty string is falsy. *)
Definition str_or (v : option string) (d : string) : string :=
  match v with
  | Some s => if String.eqb s "" then d else s
  | None => d
  end.

(** [s || null]; also the value of a required field, [None] when [!s]. *)
Definition str_or_null (v : option string) : option string :=
  match v with
  | Some s => if String.eqb s "" then None else Some s
  | None => None
  end.

(** The rounding idiom [Math.round(x * 100) / 100] that the dividend
    routes write out at each step. *)
Definition round2 {num} `{JsNumber num} (x : num) : num :=
  (Math_round (x * num_of_Z 100) / num_of_Z 100)%js.

(** Facts about the operations that the proofs of the routes rely on;
    both instances below satisfy them. *)
Class JsNumberLaws (num : Type) `{JsNumber num} : Prop := {
  positive_check :
    forall x, ToBoolean x && negb (x <= num_of_Z 0)%js = (num_of_Z 0 < x)%js;
  zero_falsy : ToBoolean (num_of_Z 0) = false;
  add_zero_zero : (num_of_Z 0 + num_of_Z 0)%js = num_of_Z 0;
  div_zero_zero : (num_of_Z 0 / num_of_Z 0)%js = NaN;
  mul_NaN_r : forall x, (x * NaN)%js = NaN;
  mul_NaN_l : forall x, (NaN * x)%js = NaN;
  div_NaN_l : forall x, (NaN / x)%js = NaN;
  sub_NaN_l : forall x, (NaN - x)%js = NaN;
  round_NaN : Math_round NaN = NaN
}.

(** *** Binary64 *)

Module B64.

Definition prec : Z := 53.
Definition emax : Z := 1024.

Definition of_Z (z : Z) : spec_float := binary_normalize prec emax z 0 false.

Definition is_nan (x : spec_float) : bool :=
  match x with S754_nan => true | _ => false end.

Definition is_zero (x : spec_float) : bool :=
  match x with S754_zero _ => true | _ => false end.

(** [Math.round]: infinities, NaN, zeros and integral values are
    returned as they are; otherwise the nearest integer, ties towards
    +infinity; a result of zero keeps the sign of the argument. *)
Definition round (x : spec_float) : spec_float :=
  match x with
  | S754_finite s m e =>
      if 0 <=? e then x
      else
        let d := 2 ^ (- e) in
        let n := (2 * (if s then Z.neg m else Z.pos m) + d) / (2 * d) in
        if n =? 0 then S754_zero s else of_Z n
  | _ => x
  end.

(** [Math.max] of two numbers: NaN if either is NaN, and +0 is larger
    than -0. *)
Definition max (x y : spec_float) : spec_float :=
  if is_nan x || is_nan y then S754_nan
  else if SFltb x y then y
  else if SFltb y x then x
  else match x, y with
       | S754_zero sx, S754_zero sy => S754_zero (sx && sy)
       | _, _ => x
       end.

Definition truthy (x : spec_float) : bool := negb (is_zero x || is_nan x).

#[global] Instance number : JsNumber spec_float := {|
  num_of_Z := of_Z;
  NaN := S754_nan;
  js_add := SFadd prec emax;
  js_sub := SFsub prec emax;
  js_mul := SFmul prec emax;
  js_div := SFdiv prec emax;
  js_lt := SFltb;
  js_le := SFleb;
  js_eq := SFeqb;
  ToBoolean := truthy;
  Math_round := round;
  Math_max := max
|}.

(** The double that the decimal literal [n/100] denotes: the correctly
    rounded quotient. *)
Definition cents (n : Z) : spec_float := SFdiv prec emax (of_Z n) (of_Z 100).

(** Likewise for a literal with three decimals. *)
Definition mills (n : Z) : spec_float := SFdiv prec emax (of_Z n) (of_Z 1000).

End B64.

(** *** Exact arithmetic *)

Module Exact.

Inductive xnum : Type :=
| XFin (q : Q)
| XInf (negative : bool)
| XNaN.

Definition is_zero (q : Q) : bool := Qeq_bool q 0.
Definition is_neg (q : Q) : bool := negb (Qle_bool 0 q).

Definition add (x y : xnum) : xnum :=
  match x, y with
  | XNaN, _ | _, XNaN => XNaN
  | XInf a, XInf b => if Bool.eqb a b then XInf a else XNaN
  | XInf a, XFin _ => XInf a
  | XFin _, XInf b => XInf b
  | XFin p, XFin q => XFin (p + q)
  end.

Definition sub (x y : xnum) : xnum :=
  match x, y with
  | XNaN, _ | _, XNaN => XNaN
  | XInf a, XInf b => if Bool.eqb a b then XNaN else XInf a
  | XInf a, XFin _ => XInf a
  | XFin _, XInf b => XInf (negb b)
  | XFin p, XFin q => XFin (p - q)
  end.

Definition mul (x y : xnum) : xnum :=
  match x, y with
  | XNaN, _ | _, XNaN => XNaN
  | XInf a, XInf b => XInf (xorb a b)
  | XInf a, XFin q => if is_zero q then XNaN else XInf (xorb a (is_neg q))
  | XFin p, XInf b => if is_zero p then XNaN else XInf (xorb (is_neg p) b)
  | XFin p, XFin q => XFin (p * q)
  end.

Definition div (x y : xnum) : xnum :=
  match x, y with
  | XNaN, _ | _, XNaN => XNaN
  | XInf _, XInf _ => XNaN
  | XInf a, XFin q => XInf (xorb a (is_neg q))
  | XFin _, XInf _ => XFin 0
  | XFin p, XFin q =>
      if is_zero q then (if is_zero p then XNaN else XInf (is_neg p))
      else XFin (p / q)
  end.

Definition lt (x y : xnum) : bool :=
  match x, y with
  | XNaN, _ | _, XNaN => false
  | XInf a, XInf b => a && negb b
  | XInf a, XFin _ => a
  | XFin _, XInf b => negb b
  | XFin p, XFin q => negb (Qle_bool q p)
  end.

Definition le (x y : xnum) : bool :=
  match x, y with
  | XNaN, _ | _, XNaN => false
  | XInf a, XInf b => a || negb b
  | XInf a, XFin _ => a
  | XFin _, XInf b => negb b
  | XFin p, XFin q => Qle_bool p q
  end.

Definition eq (x y : xnum) : bool :=
  match x, y with
  | XFin p, XFin q => Qeq_bool p q
  | XInf a, XInf b => Bool.eqb a b
  | _, _ => false
  end.

Definition truthy (x : xnum) : bool :=
  match x with
  | XNaN => false
  | XInf _ => true
  | XFin q => negb (is_zero q)
  end.

(** Nearest integer, ties towards +infinity: [floor (q + 1/2)]. *)
Definition round_half_up (q : Q) : Q := inject_Z (Qfloor (q + (1 # 2))).

Definition round (x : xnum) : xnum :=
  match x with
  | XFin q => XFin (round_half_up q)
  | _ => x
  end.

Definition max (x y : xnum) : xnum :=
  match x, y with
  | XNaN, _ | _, XNaN => XNaN
  | _, _ => if lt x y then y else x
  end.

#[global] Instance number : JsNumber xnum := {|
  num_of_Z := fun z => XFin (inject_Z z);
  NaN := XNaN;
  js_add := add;
  js_sub := sub;
  js_mul := mul;
  js_div := div;
  js_lt := lt;
  js_le := le;
  js_eq := eq;
  ToBoolean := truthy;
  Math_round := round;
  Math_max := max
|}.

(** Half-up rounding to two decimals, as the specification words it:
    the multiple of 0.01 nearest to [q], ties upwards. *)
Definition half_up_2dp (q : Q) : Q := inject_Z (Qfloor (q * 100 + (1 # 2))) / 100.

(** [max(0, gstRate)] for a rate that is a rational or missing. *)
Definition clamp0 (rate : option Q) : Q :=
  match rate with
  | Some r => if Qle_bool r 0 then 0 else r
  | None => 0
  end.

(** Sum of a list of rationals. *)
Definition Qsum (l : list Q) : Q := fold_right Qplus 0%Q l.

End Exact.

(** A stand-in for [bcrypt.hash] and [bcrypt.compare] in the examples. *)
Definition sample_hash (password : string) : string := "$2a$10$" ++ password.
Definition sample_compare (password hash : string) : bool :=
  String.eqb (sample_hash password) hash.

(** ** The database and the routes *)

Section Backend.

Context {num : Type} `{JsNumber num}.

(** [bcrypt.hash(password, 10)] and [bcrypt.compare]. *)
Variable bcrypt_hash : string -> string.
Variable bcrypt_compare : string -> string -> bool.

(** *** Tables *)

(** A row of [shareholders]. *)
Record shareholder : Type := mkShareholder {
  sh_id : positive;
  sh_full_name : string;
  sh_father_name : string;
  sh_address : string;
  sh_pin_code : string;
  sh_phone : string;
  sh_email : string;
  sh_business_role : string;
  sh_num_shares : num;
  sh_username : string;
  sh_password_hash : string;
  sh_photo_data : option string;
  sh_signature_data : option string;
  sh_total_investment : num;
  sh_price_per_share : num;
  sh_stage : num;
  sh_status : string;
  sh_created_at : string;
  sh_approved_at : option string
}.

(** A row of [dividend_history]. *)
Record dividend : Type := mkDividend {
  dv_id : positive;
  dv_shareholder_id : Z;
  dv_month : string;
  dv_gross_amount : num;
  dv_gst_rate : num;
  dv_amount : num;
  dv_payment_method : string;
  dv_status : string;
  dv_paid_at : string
}.

(** A row of [investment_stages]. *)
Record investment_stage : Type := mkStage {
  st_id : positive;
  st_stage : num;
  st_name : string;
  st_price_per_share : num;
  st_min_subscribers : num;
  st_max_subscribers : num;
  st_status : string;
  st_shares_available : num
}.

(** The tables, rows in rowid order, and the AUTOINCREMENT counters. *)
Record database : Type := mkDatabase {
  shareholders : list shareholder;
  dividend_history : list dividend;
  investment_stages : list investment_stage;
  next_shareholder_id : positive;
  next_dividend_id : positive;
  next_stage_id : positive
}.

(** *** Responses *)

(** The JSON bodies the routes send. *)
Inductive payload : Type :=
| Failure (message : string)
| Success (message : string)
| SuccessId (message : string) (id : positive)
| SuccessUser (id : positive) (name role username : string)
| SuccessDividend (message : string) (net gross gstAmt : num)
| SuccessCount (count : nat) (message : string).

Record response : Type := mkResponse {
  http_status : Z;
  json : payload
}.

(** [res.json(b)] and [res.status(c).json(b)]. *)
Definition res_json (b : payload) : response := mkResponse 200 b.
Definition res_status_json (c : Z) (b : payload) : response := mkResponse c b.

(** [${n}] for an array length. *)
Definition show_nat (n : nat) : string := NilEmpty.string_of_uint (Nat.to_uint n).

(** *** Helpers *)

(** What [getRunningStage] returns: a row of [investment_stages] or the
    object literal of the fallback. *)
Inductive stage_object : Type :=
| StageRow (r : investment_stage)
| StageLiteral (price_per_share stage : num) (name : string).

Definition obj_price_per_share (o : stage_object) : num :=
  match o with
  | StageRow r => st_price_per_share r
  | StageLiteral p _ _ => p
  end.

Definition obj_stage (o : stage_object) : num :=
  match o with
  | StageRow r => st_stage r
  | StageLiteral _ s _ => s
  end.

Definition obj_name (o : stage_object) : string :=
  match o with
  | StageRow r => st_name r
  | StageLiteral _ _ n => n
  end.

(** [SELECT * FROM investment_stages WHERE status = 'RUNNING'] *)
Definition running_rows (db : database) : list investment_stage :=
  filter (fun r => String.eqb (st_status r) "RUNNING") (investment_stages db).

(** [r.rows[0] || { price_per_share: 1200, stage: 2, name: 'Current Price' }] *)
Definition getRunningStage (db : database) : stage_object :=
  match running_rows db with
  | r :: _ => StageRow r
  | [] => StageLiteral (num_of_Z 1200) (num_of_Z 2) "Current Price"
  end.

(** [WHERE id = ?] on a table whose ids are rowids. *)
Definition id_is (rid : Z) (id : positive) : bool := Z.eqb (Z.pos id) rid.

(** *** POST /api/agreements *)

Record agreement_body : Type := mkAgreementBody {
  ag_fullName : option string;
  ag_fatherName : option string;
  ag_address : option string;
  ag_phone : option string;
  ag_email : option string;
  ag_businessRole : option string;
  ag_numShares : option num;
  ag_username : option string;
  ag_password : option string;
  ag_photoData : option string;
  ag_investorSignature : option string
}.

(** A required numeric field: [Some] when it is truthy. *)
Definition num_given (v : option num) : option num :=
  match v with
  | Some x => if ToBoolean x then Some x else None
  | None => None
  end.

Definition insert_shareholder (db : database) (row : positive -> shareholder)
  : database :=
  mkDatabase (shareholders db ++ [row (next_shareholder_id db)])
             (dividend_history db) (investment_stages db)
             (Pos.succ (next_shareholder_id db))
             (next_dividend_id db) (next_stage_id db).

Definition post_agreements (now : string) (body : agreement_body) (db : database)
  : database * response :=
  match str_or_null (ag_fullName body), str_or_null (ag_address body),
        str_or_null (ag_phone body), str_or_null (ag_email body),
        str_or_null (ag_username body), str_or_null (ag_password body),
        num_given (ag_numShares body) with
  | Some fullName, Some address, Some phone, Some email,
    Some username, Some password, Some numShares =>
      if existsb (fun r => String.eqb (sh_username r) username) (shareholders db)
      then (db, res_status_json 400 (Failure "Username already taken"))
      else if existsb (fun r => String.eqb (sh_email r) email) (shareholders db)
      then (db, res_status_json 400 (Failure "Email already registered"))
      else
        let currentStage := getRunningStage db in
        let pricePerShare := obj_price_per_share currentStage in
        let totalInvestment := (numShares * pricePerShare)%js in
        let passwordHash := bcrypt_hash password in
        let db' := insert_shareholder db (fun id =>
          mkShareholder id fullName (str_or (ag_fatherName body) "") address ""
            phone email (str_or (ag_businessRole body) "DRIVER") numShares
            username passwordHash (str_or_null (ag_photoData body))
            (str_or_null (ag_investorSignature body)) totalInvestment
            pricePerShare (obj_stage currentStage) "PENDING" now None) in
        (db', res_json (SuccessId "Agreement submitted successfully"
                                  (next_shareholder_id db)))
  | _, _, _, _, _, _, _ =>
      (db, res_status_json 400 (Failure "Missing required fields"))
  end.

(** *** POST /api/auth/login *)

Record login_body : Type := mkLoginBody {
  lg_username : option string;
  lg_password : option string
}.

Definition post_auth_login (body : login_body) (db : database) : response :=
  match str_or_null (lg_username body), str_or_null (lg_password body) with
  | Some username, Some password =>
      match filter (fun r => String.eqb (sh_username r) username)
                   (shareholders db) with
      | row :: _ =>
          if negb (bcrypt_compare password (sh_password_hash row))
          then res_json (Failure "Invalid credentials.")
          else if negb (String.eqb (sh_business_role row) "ADMIN")
                  && negb (String.eqb (sh_status row) "APPROVED")
          then res_json (Failure
                 "Account pending approval. Please wait for admin to approve.")
          else
            let role := if String.eqb (sh_business_role row) "ADMIN"
                        then "ADMIN" else "SHAREHOLDER" in
            res_json (SuccessUser (sh_id row) (sh_full_name row) role
                                  (sh_username row))
      | [] => res_json (Failure "Invalid credentials.")
      end
  | _, _ => res_status_json 400 (Failure "Username and password required")
  end.

(** *** PUT /api/admin/agreements/:id *)

(** [UPDATE shareholders SET status = ?, approved_at = ?] on one row. *)
Definition set_status (status : string) (approvedAt : option string)
  (r : shareholder) : shareholder :=
  mkShareholder (sh_id r) (sh_full_name r) (sh_father_name r) (sh_address r)
    (sh_pin_code r) (sh_phone r) (sh_email r) (sh_business_role r)
    (sh_num_shares r) (sh_username r) (sh_password_hash r) (sh_photo_data r)
    (sh_signature_data r) (sh_total_investment r) (sh_price_per_share r)
    (sh_stage r) status (sh_created_at r) approvedAt.

Definition with_shareholders (db : database) (l : list shareholder) : database :=
  mkDatabase l (dividend_history db) (investment_stages db)
             (next_shareholder_id db) (next_dividend_id db) (next_stage_id db).

Definition put_admin_agreement (now : string) (id : Z) (status : string)
  (db : database) : database * response :=
  let approvedAt := if String.eqb status "APPROVED" then Some now else None in
  let db' := with_shareholders db
    (map (fun r => if id_is id (sh_id r) then set_status status approvedAt r else r)
         (shareholders db)) in
  (db', res_json (Success ("Status updated to " ++ status))).

(** *** DELETE /api/admin/agreements/:id *)

(** [DELETE FROM dividend_history WHERE shareholder_id = ?] *)
Definition delete_dividends_of (id : Z) (db : database) : database :=
  mkDatabase (shareholders db)
             (filter (fun d => negb (Z.eqb (dv_shareholder_id d) id))
                     (dividend_history db))
             (investment_stages db)
             (next_shareholder_id db) (next_dividend_id db) (next_stage_id db).

(** [DELETE FROM shareholders WHERE id = ?] *)
Definition delete_shareholder (id : Z) (db : database) : database :=
  with_shareholders db
    (filter (fun r => negb (id_is id (sh_id r))) (shareholders db)).

Definition delete_admin_agreement (id : Z) (db : database)
  : database * response :=
  match filter (fun r => id_is id (sh_id r)) (shareholders db) with
  | [] => (db, res_status_json 404 (Failure "Shareholder not found"))
  | sh :: _ =>
      if String.eqb (sh_business_role sh) "ADMIN"
      then (db, res_status_json 403 (Failure "Cannot delete admin account"))
      else
        let db1 := delete_dividends_of id db in
        let db2 := delete_shareholder id db1 in
        (db2, res_json (Success
                ("Agreement for " ++ sh_full_name sh ++ " deleted")))
  end.

(** *** PUT /api/admin/stages/:id *)

Record stage_update_body : Type := mkStageUpdateBody {
  su_status : option string;
  su_price_per_share : option num;
  su_name : option string;
  su_shares_available : option num
}.

(** One [column = ?] of the SET clause with its argument. *)
Inductive assignment : Type :=
| SetStatus (v : string)
| SetPricePerShare (v : num)
| SetName (v : string)
| SetSharesAvailable (v : num).

(** The [fields]/[args] arrays: one entry per field that is not
    [undefined], in the order of the four tests. *)
Definition stage_fields (body : stage_update_body) : list assignment :=
  (match su_status body with Some v => [SetStatus v] | None => [] end) ++
  (match su_price_per_share body with Some v => [SetPricePerShare v] | None => [] end) ++
  (match su_name body with Some v => [SetName v] | None => [] end) ++
  (match su_shares_available body with Some v => [SetSharesAvailable v] | None => [] end).

Definition assign (r : investment_stage) (a : assignment) : investment_stage :=
  match a with
  | SetStatus v =>
      mkStage (st_id r) (st_stage r) (st_name r) (st_price_per_share r)
              (st_min_subscribers r) (st_max_subscribers r) v (st_shares_available r)
  | SetPricePerShare v =>
      mkStage (st_id r) (st_stage r) (st_name r) v
              (st_min_subscribers r) (st_max_subscribers r) (st_status r)
              (st_shares_available r)
  | SetName v =>
      mkStage (st_id r) (st_stage r) v (st_price_per_share r)
              (st_min_subscribers r) (st_max_subscribers r) (st_status r)
              (st_shares_available r)
  | SetSharesAvailable v =>
      mkStage (st_id r) (st_stage r) (st_name r) (st_price_per_share r)
              (st_min_subscribers r) (st_max_subscribers r) (st_status r) v
  end.

Definition with_stages (db : database) (l : list investment_stage) : database :=
  mkDatabase (shareholders db) (dividend_history db) l
             (next_shareholder_id db) (next_dividend_id db) (next_stage_id db).

(** [UPDATE investment_stages SET <fields> WHERE id = ?] *)
Definition update_stage (id : Z) (fields : list assignment) (db : database)
  : database :=
  with_stages db
    (map (fun r => if id_is id (st_id r) then fold_left assign fields r else r)
         (investment_stages db)).

Definition put_admin_stage (id : Z) (body : stage_update_body) (db : database)
  : database * response :=
  let fields := stage_fields body in
  if (List.length fields =? 0)%nat
  then (db, res_status_json 400 (Failure "Nothing to update"))
  else (update_stage id fields db, res_json (Success "Stage updated")).

(** *** POST /api/admin/stages *)

Record stage_create_body : Type := mkStageCreateBody {
  sc_stage : option num;
  sc_name : option string;
  sc_price_per_share : option num;
  sc_min_subscribers : option num;
  sc_max_subscribers : option num;
  sc_status : option string;
  sc_shares_available : option num
}.

Definition insert_stage (db : database) (row : positive -> investment_stage)
  : database :=
  mkDatabase (shareholders db) (dividend_history db)
             (investment_stages db ++ [row (next_stage_id db)])
             (next_shareholder_id db) (next_dividend_id db)
             (Pos.succ (next_stage_id db)).

Definition post_admin_stages (body : stage_create_body) (db : database)
  : database * response :=
  match num_given (sc_stage body), str_or_null (sc_name body),
        num_given (sc_price_per_share body) with
  | Some stage, Some name, Some price_per_share =>
      let db' := insert_stage db (fun id =>
        mkStage id stage name price_per_share
                (Number_or_0 (sc_min_subscribers body))
                (Number_or_0 (sc_max_subscribers body))
                (str_or (sc_status body) "UPCOMING")
                (Number_or_0 (sc_shares_available body))) in
      (db', res_json (SuccessId "Stage added" (next_stage_id db)))
  | _, _, _ =>
      (db, res_status_json 400 (Failure "stage, name, price_per_share required"))
  end.

(** *** POST /api/admin/dividends *)

Record dividend_body : Type := mkDividendBody {
  dq_shareholderId : option Z;
  dq_month : option string;
  dq_amount : option num;
  dq_gstRate : option num;
  dq_paymentMethod : option string
}.

(** [INSERT INTO dividend_history (...) VALUES (?, ?, ?, ?, ?, ?, 'PAID',
    datetime('now'))] *)
Definition insert_dividend (now : string) (shareholder_id : Z) (month : string)
  (gross gst net : num) (paymentMethod : string) (db : database) : database :=
  mkDatabase (shareholders db)
             (dividend_history db ++
                [mkDividend (next_dividend_id db) shareholder_id month gross gst
                            net paymentMethod "PAID" now])
             (investment_stages db)
             (next_shareholder_id db) (Pos.succ (next_dividend_id db))
             (next_stage_id db).

(** [!shareholderId]: a missing id and the id 0 are falsy. *)
Definition id_given (v : option Z) : option Z :=
  match v with
  | Some i => if Z.eqb i 0 then None else Some i
  | None => None
  end.

(** [!amount || amount <= 0] negated: the amount when it passes the check. *)
Definition amount_given (v : option num) : option num :=
  match v with
  | Some x => if negb (ToBoolean x) || (x <= num_of_Z 0)%js then None else Some x
  | None => None
  end.

Definition post_admin_dividends (now : string) (body : dividend_body)
  (db : database) : database * response :=
  match id_given (dq_shareholderId body), str_or_null (dq_month body),
        amount_given (dq_amount body) with
  | Some shareholderId, Some month, Some amount =>
      match filter (fun r => id_is shareholderId (sh_id r)
                             && String.eqb (sh_status r) "APPROVED")
                   (shareholders db) with
      | [] => (db, res_json (Failure "Shareholder not found or not approved"))
      | _ :: _ =>
          let gst := Math_max (num_of_Z 0) (Number_or_0 (dq_gstRate body)) in
          let gross := amount in
          let gstAmt :=
            (Math_round (gross * gst / num_of_Z 100 * num_of_Z 100)
               / num_of_Z 100)%js in
          let net :=
            (Math_round ((gross - gstAmt) * num_of_Z 100) / num_of_Z 100)%js in
          (insert_dividend now shareholderId month gross gst net
             (str_or (dq_paymentMethod body) "Bank Transfer") db,
           res_json (SuccessDividend "Dividend recorded successfully"
                                     net gross gstAmt))
      end
  | _, _, _ =>
      (db, res_json (Failure "shareholderId, month, and amount are required"))
  end.

(** *** POST /api/admin/dividends/all *)

(** [SELECT id, num_shares FROM shareholders WHERE status = 'APPROVED'] *)
Definition approved_shareholders (db : database) : list shareholder :=
  filter (fun r => String.eqb (sh_status r) "APPROVED") (shareholders db).

(** [shareholders.reduce((s, sh) => s + (sh.num_shares || 0), 0)] *)
Definition total_shares (shs : list shareholder) : num :=
  fold_left (fun s sh => (s + num_or (sh_num_shares sh) (num_of_Z 0))%js)
            shs (num_of_Z 0).

(** The body of the [for (const sh of shareholders)] loop. *)
Definition pay_share (now month : string) (totalGross totalShares gst : num)
  (paymentMethod : string) (db : database) (sh : shareholder) : database :=
  let shareRatio := (num_or (sh_num_shares sh) (num_of_Z 0) / totalShares)%js in
  let gross :=
    (Math_round (totalGross * shareRatio * num_of_Z 100) / num_of_Z 100)%js in
  let gstAmt :=
    (Math_round (gross * gst / num_of_Z 100 * num_of_Z 100) / num_of_Z 100)%js in
  let net :=
    (Math_round ((gross - gstAmt) * num_of_Z 100) / num_of_Z 100)%js in
  insert_dividend now (Z.pos (sh_id sh)) month gross gst net paymentMethod db.

Definition post_admin_dividends_all (now : string) (body : dividend_body)
  (db : database) : database * response :=
  match str_or_null (dq_month body), amount_given (dq_amount body) with
  | Some month, Some amount =>
      let shareholders := approved_shareholders db in
      if (List.length shareholders =? 0)%nat
      then (db, res_json (Failure "No approved shareholders found"))
      else
        let totalShares := total_shares shareholders in
        let gst := Math_max (num_of_Z 0) (Number_or_0 (dq_gstRate body)) in
        let totalGross := amount in
        (fold_left (pay_share now month totalGross totalShares gst
                      (str_or (dq_paymentMethod body) "Bank Transfer"))
                   shareholders db,
         res_json (SuccessCount (List.length shareholders)
                     ("Dividend paid to " ++ show_nat (List.length shareholders)
                        ++ " shareholders")))
  | _, _ => (db, res_json (Failure "month and amount are required"))
  end.

(** *** The database after [initializeDatabase] *)

(** The three seeded stages and the administrator, on an empty file;
    [now] is SQLite's [datetime('now')]. *)
Definition seeded_database (now : string) : database :=
  mkDatabase
    [mkShareholder 1 "Administrator" "" "Quick Ride HQ" "000000"
       "+91 00000 00000" "admin@quickride.com" "ADMIN" (num_of_Z 0) "admin"
       (bcrypt_hash "Qc@242526") None None (num_of_Z 0) (num_of_Z 1200)
       (num_of_Z 2) "APPROVED" now None]
    []
    [mkStage 1 (num_of_Z 1) "Base Price" (num_of_Z 1000) (num_of_Z 0)
       (num_of_Z 1500) "SOLD_OUT" (num_of_Z 0);
     mkStage 2 (num_of_Z 2) "Current Price" (num_of_Z 1200) (num_of_Z 1501)
       (num_of_Z 5000) "RUNNING" (num_of_Z 100);
     mkStage 3 (num_of_Z 3) "Next Price" (num_of_Z 1440) (num_of_Z 5001)
       (num_of_Z 15000) "UPCOMING" (num_of_Z 100)]
    2 1 4.

(** A row as a registration at stage 2 stores it, with the given status. *)
Definition investor (id : positive) (name : string) (numShares : num)
  (status : string) : shareholder :=
  mkShareholder id name "" "Gangtok" "" "+91 00000 00001" (name ++ "@example.com")
    "DRIVER" numShares name (bcrypt_hash name) None None
    (numShares * num_of_Z 1200)%js (num_of_Z 1200) (num_of_Z 2) status
    "2026-01-05T10:00:00.000Z" None.

(** A database whose approved shareholders are three investors holding
    [a], [b] and [c] shares. *)
Definition three_holders (a b c : Z) : database :=
  mkDatabase
    [investor 2 "asha" (num_of_Z a) "APPROVED";
     investor 3 "bina" (num_of_Z b) "APPROVED";
     investor 4 "chand" (num_of_Z c) "APPROVED"]
    [] (investment_stages (seeded_database "2026-01-01 00:00:00")) 5 1 4.

(** *** Invariants and frame conditions used in the statements *)

(** [id INTEGER PRIMARY KEY]: no two rows of [shareholders] share an id. *)
Definition primary_key (db : database) : Prop :=
  NoDup (map sh_id (shareholders db)).

(** Every dividend row belongs to a row of [shareholders]. *)
Definition dividends_have_owner (db : database) : Prop :=
  forall d, In d (dividend_history db) ->
    exists sh, In sh (shareholders db) /\ Z.pos (sh_id sh) = dv_shareholder_id d.

(** [r'] is [r] up to [status] and [approved_at]. *)
Definition same_but_status (r r' : shareholder) : Prop :=
  sh_id r' = sh_id r /\ sh_full_name r' = sh_full_name r
  /\ sh_father_name r' = sh_father_name r /\ sh_address r' = sh_address r
  /\ sh_pin_code r' = sh_pin_code r /\ sh_phone r' = sh_phone r
  /\ sh_email r' = sh_email r /\ sh_business_role r' = sh_business_role r
  /\ sh_num_shares r' = sh_num_shares r /\ sh_username r' = sh_username r
  /\ sh_password_hash r' = sh_password_hash r
  /\ sh_photo_data r' = sh_photo_data r
  /\ sh_signature_data r' = sh_signature_data r
  /\ sh_total_investment r' = sh_total_investment r
  /\ sh_price_per_share r' = sh_price_per_share r /\ sh_stage r' = sh_stage r
  /\ sh_created_at r' = sh_created_at r.

(** The dividend row [d] is the payout of shareholder [sh] in a bulk
    payout of [totalGross] over [totalShares] shares, in the words of the
    specification: ratio, gross, GST amount and net, each rounded by
    [round2]. *)
Definition share_payout (now month paymentMethod : string)
  (totalGross totalShares gst : num) (sh : shareholder) (d : dividend) : Prop :=
  let ratio := (num_or (sh_num_shares sh) (num_of_Z 0) / totalShares)%js in
  let gross := round2 (totalGross * ratio)%js in
  let gstAmt := round2 (gross * gst / num_of_Z 100)%js in
  let net := round2 (gross - gstAmt)%js in
  dv_shareholder_id d = Z.pos (sh_id sh) /\ dv_month d = month
  /\ dv_gross_amount d = gross /\ dv_gst_rate d = gst /\ dv_amount d = net
  /\ dv_payment_method d = paymentMethod /\ dv_status d = "PAID"
  /\ dv_paid_at d = now.

(** [sum] lies within 0.01 times [count] of [target], as a test on numbers
    of the program. *)
Definition drift_within (target sum : num) (count : nat) : bool :=
  let slack :=
    (num_of_Z 1 / num_of_Z 100 * num_of_Z (Z.of_nat count))%js in
  ((target - slack <= sum) && (sum <= target + slack))%js.

(** The sum of a list of numbers, added left to right. *)
Definition js_sum (l : list num) : num := fold_left js_add l (num_of_Z 0).

(** A field after a partial update: the supplied value, else the old one. *)
Definition supplied {A : Type} (v : option A) (old : A) : A :=
  match v with
  | Some x => x
  | None => old
  end.

End Backend.

(** ** The agreement PDF (POST /api/admin/agreements/:id/pdf) *)

(** The fixed texts of the agreement. *)

Definition term1_body : string :=
  "The Company shall be governed by a core management team comprising the CEO, Managing Director (MD), and Chief Operating Officer (COO). They serve as the primary decision-making authority for all matters including operations, finance, expansion, recruitment, partnerships, and overall business strategy. Their decisions are final and binding on all shareholders. Investors acknowledge and accept this governance structure as a condition of their investment.".

Definition term2_body : string :=
  "Investors are strictly financial stakeholders and not operational managers of the Company. Investors shall not interfere in the day-to-day operations, staff decisions, or any business function of Quick Ride. Voting rights, if any, shall be exercised strictly as defined in this shareholder agreement and only on matters expressly reserved for shareholder vote. Any attempt to interfere in operations beyond these defined rights shall be deemed a breach of this agreement.".

Definition term3_body : string :=
  "After deduction of the mandatory twenty-five percent (25%) operational and growth reserve from gross monthly earnings, the remaining seventy-five percent (75%) of gross earnings shall be classified as the Net Profit of the Company. Only this Net Profit (i.e., 75% of gross revenue) is eligible for distribution among shareholders. Gross revenue includes all subscription fees, service charges, and platform commissions collected by the Company during the applicable period.".

Definition term4_body : string :=
  "Net Profit shall be distributed strictly in proportion to each investor's shareholding percentage. All shares of the same class carry equal and identical rights to profit distribution. Profit distributions may be made on a quarterly or annual basis, entirely at the discretion of the management team, based on the financial health and growth priorities of the Company. There shall be no guaranteed, fixed, or minimum returns on investment under any circumstances. The Company makes no representation regarding future profits or distributions.".

Definition term5_body : string :=
  "The Company shall retain twenty-five percent (25%) of total gross monthly earnings as a mandatory operational and growth reserve. This retention is essential to ensure long-term sustainability, operational stability, legal compliance, and strategic expansion. This retained amount is not considered profit and is expressly non-distributable. Permitted uses include: (a) App development, upgrades, and security; (b) Cloud hosting, server infrastructure, and technical utilities; (c) Legal advisors, statutory compliance, audits, and financial reviews; (d) Operational staff salaries, regional expansion teams, and performance bonuses; (e) Expansion into new states/regions, onboarding costs, and strategic partnerships.".

Definition term6_body : string :=
  "This investment carries significant financial risk. Returns, profits, and dividends are not guaranteed. Dividends depend entirely on business performance, subscriber growth, and market conditions. Share value may fluctuate. This is a long-term investment and early exit may not be possible. Investors may lose part or all of their invested capital. Startup and early-stage investments are inherently high-risk. The Company and its representatives shall not be liable for any financial loss arising from this investment. By signing this agreement, the investor confirms independent due diligence and voluntary participation at their own risk.".

Definition term7_body : string :=
  "The Company shall maintain transparent accounting practices and provide periodic financial summaries to shareholders. Clear reporting of revenue, expenses, and net profit shall be shared; however, full management discretion shall prevail in all operational and strategic decisions. Financial reports shall be made available to shareholders at least once per financial year or upon reasonable written request, subject to confidentiality obligations of the Company.".

Definition declaration_text : string :=
  "I, the undersigned, hereby confirm that I have read, understood, and voluntarily agree to all the terms and conditions set forth in this Shareholder Investment Agreement. I confirm that all information provided by me in this application is true, complete, and accurate to the best of my knowledge. I acknowledge that this is a high-risk investment with no guarantee of returns, profits, dividends, or capital protection. I understand that startup and early-stage investments may result in partial or total loss of invested capital. I expressly agree that the Company and its representatives shall not be liable for any financial loss arising from this investment. I have conducted independent due diligence and, where required, consulted qualified financial and legal advisors before making this investment decision. This investment is made freely, voluntarily, and entirely at my own risk.".

Definition contact_line : string :=
  "Quick Ride Office: Burtuk, Helipad Gangtok, 737101, East District, Sikkim  |  Phone: +91 9932369890  |  Email: quickridesk@gmail.com".

(** The em dash of the source, one UTF-16 code unit. *)
Definition em_dash : string := String "151"%char EmptyString.

Module Pdf.

(** What the route draws on a page.  Colours, fonts and horizontal
    positions are left out; a content block keeps its vertical position
    and height. *)
Inductive drawing : Type :=
| Header (badge : string)
| Footer (year agreementId : string) (page : nat)
| Block (what : string) (y h : Q)
| TextAt (text : string) (y : Q).

(** The PDFKit document (finished pages and the page being drawn)
    together with the local variables [cy], [pageNum] and [rowIdx] of the
    route. *)
Record pdf_state : Type := mkPdf {
  finished : list (list drawing);
  page : list drawing;
  cy : Q;
  pageNum : nat;
  rowIdx : nat
}.

(** All pages of the document, first page first. *)
Definition pages (st : pdf_state) : list (list drawing) :=
  finished st ++ [page st].

(** [Math.ceil(len / k)] for a string length. *)
Definition ceil_div (len k : nat) : nat := ((len + (k - 1)) / k)%nat.

Notation "st |> f" := (f st) (at level 45, left associativity, only parsing).

Section Route.

Local Open Scope Q_scope.

Context {num : Type} `{JsNumber num}.

(** [doc.page.width] and [doc.page.height] of an A4 page. *)
Variables pageW pageH : Q.

(** [doc.y] after [doc.text(text, x, y, {width, lineGap})] at the given
    font size: arguments are size, line gap, width, text and [y]. *)
Variable doc_y_after_text : Q -> Q -> Q -> string -> Q -> Q.

(** Whether [Buffer.from(...)] and [doc.image(...)] succeed on a data URL. *)
Variable buffer_ok : string -> bool.
Variable image_ok : string -> bool.

(** [String(n)], [n.toLocaleString('en-IN')], [n.toFixed(3)] and
    [new Date(s).toLocaleDateString('en-IN')]. *)
Variable String_of_num : num -> string.
Variable toLocaleString : num -> string.
Variable toFixed3 : num -> string.
Variable toLocaleDateString : string -> string.

(** [now.getFullYear()] and [String(s.id).padStart(5,'0')]. *)
Variable year : string.
Variable padded_id : positive -> string.

Variable s : @shareholder num.

Definition M : Q := 45.
Definition CW : Q := pageW - M * 2.
Definition HEADER_H : Q := 72.
Definition FOOTER_H : Q := 22.
Definition BODY_TOP : Q := HEADER_H + 8.
Definition BODY_BOT : Q := pageH - FOOTER_H - 8.

Definition agreementId : string := "QR-" ++ padded_id (sh_id s).

Definition draw (d : drawing) (st : pdf_state) : pdf_state :=
  mkPdf (finished st) (page st ++ [d]) (cy st) (pageNum st) (rowIdx st).

(** [doc.addPage(...)] *)
Definition addPage (st : pdf_state) : pdf_state :=
  mkPdf (finished st ++ [page st]) [] (cy st) (pageNum st) (rowIdx st).

Definition set_cy (y : Q) (st : pdf_state) : pdf_state :=
  mkPdf (finished st) (page st) y (pageNum st) (rowIdx st).

(** [cy += n] *)
Definition advance (n : Q) (st : pdf_state) : pdf_state :=
  set_cy (cy st + n) st.

Definition set_rowIdx (n : nat) (st : pdf_state) : pdf_state :=
  mkPdf (finished st) (page st) (cy st) (pageNum st) n.

Definition drawHeader (st : pdf_state) : pdf_state :=
  draw (Header (sh_status s)) st.

Definition drawFooter (st : pdf_state) : pdf_state :=
  draw (Footer year agreementId (pageNum st)) st.

Definition newPage (st : pdf_state) : pdf_state :=
  let st := drawFooter st in
  let st := addPage st in
  let st := mkPdf (finished st) (page st) (cy st) (S (pageNum st)) (rowIdx st) in
  let st := drawHeader st in
  let st := drawFooter st in
  set_cy BODY_TOP st.

(** [if (cy + n > BODY_BOT) newPage()] *)
Definition ensureSpace (n : Q) (st : pdf_state) : pdf_state :=
  if Qle_bool (cy st + n) BODY_BOT then st else newPage st.

Definition section (title : string) (st : pdf_state) : pdf_state :=
  let st := ensureSpace 22 st in
  let st := draw (Block "section" (cy st) 20) st in
  let st := draw (TextAt title (cy st + 6)) st in
  advance 24 st.

(** [String(value || '—')] *)
Definition valStr (value : string) : string :=
  if String.eqb value "" then em_dash else value.

(** [actualH] of [field], with the default [rowH = 17]. *)
Definition actualH (value : string) : Q :=
  let rowH : Q := 17 in
  let extraLines := ceil_div (String.length (valStr value)) 55 in
  rowH + (if (1 <? extraLines)%nat
          then inject_Z (Z.of_nat (extraLines - 1)) * 11 else 0).

(** [field(label, value)] *)
Definition field (label value : string) (st : pdf_state) : pdf_state :=
  let st := ensureSpace (actualH value) st in
  let st := if Nat.even (rowIdx st)
            then draw (Block "row" (cy st) (actualH value)) st else st in
  let st := draw (TextAt label (cy st + 4)) st in
  let st := draw (TextAt (valStr value) (cy st + 4)) st in
  let st := advance (actualH value) st in
  set_rowIdx (S (rowIdx st)) st.

(** [totalH] of [termBlock]. *)
Definition totalH (body : string) : Q :=
  let titleH : Q := 16 in
  let bodyLines := (ceil_div (String.length body) 90 + 1)%nat in
  titleH + inject_Z (Z.of_nat bodyLines) * 11 + 10.

Definition termBlock (n title body : string) (st : pdf_state) : pdf_state :=
  let titleH : Q := 16 in
  let st := ensureSpace (totalH body) st in
  let st := draw (Block "term" (cy st) titleH) st in
  let st := draw (TextAt (n ++ ". " ++ title) (cy st + 4)) st in
  let st := advance titleH st in
  let st := draw (TextAt body (cy st)) st in
  set_cy (doc_y_after_text (15 # 2) (3 # 2) (CW - 20) body (cy st) + 5) st.

(** The photo block: drawn when [photo_data] is an image data URL. *)
Definition photo (st : pdf_state) : pdf_state :=
  match sh_photo_data s with
  | Some data =>
      if negb (String.eqb data "") && String.prefix "data:image" data
      then
        if buffer_ok data
        then
          let st := draw (Block "photo frame" (cy st - 2) (90 + 8)) st in
          if image_ok data
          then advance (90 + 18) (draw (Block "photo" (cy st) 90) st)
          else advance 6 st
        else advance 6 st
      else advance 6 st
  | None => advance 6 st
  end.

(** The investor's signature inside the left panel. *)
Definition investor_signature (st : pdf_state) : pdf_state :=
  match str_or_null (sh_signature_data s) with
  | Some data =>
      if negb (String.prefix "data:image" data)
      then draw (TextAt data (cy st + 50)) st
      else if buffer_ok data && image_ok data
           then draw (Block "signature" (cy st + 46) 22) st
           else st
  | None => draw (TextAt "(Investor Signature)" (cy st + 56)) st
  end.

Definition stage_label : string :=
  if js_eq (sh_stage s) (num_of_Z 2) then "Current Price"
  else if js_eq (sh_stage s) (num_of_Z 1) then "Base Price"
  else "Next Price".

(** The strip with the agreement id, the submission date and the stage. *)
Definition meta_strip (st : pdf_state) : pdf_state :=
  let st := draw (Block "meta" (cy st) 26) st in
  advance 32 st.

(** [if (s.approved_at) field('Approved On', ...)] *)
Definition approved_on (st : pdf_state) : pdf_state :=
  match str_or_null (sh_approved_at s) with
  | Some d => field "Approved On" (toLocaleDateString d) st
  | None => st
  end.

(** The declaration paragraph. *)
Definition declaration (st : pdf_state) : pdf_state :=
  let st := ensureSpace 52 st in
  let st := draw (TextAt declaration_text (cy st)) st in
  set_cy (doc_y_after_text 8 2 CW declaration_text (cy st) + 8) st.

(** The notice bar. *)
Definition notice (st : pdf_state) : pdf_state :=
  let st := ensureSpace 22 st in
  let st := draw (Block "notice" (cy st) 20) st in
  advance 26 st.

(** The signature section with its two panels of height 90. *)
Definition signatures (st : pdf_state) : pdf_state :=
  let st := ensureSpace 110 st in
  let st := section "5. Manual Signatures" st in
  let st := advance 6 st in
  let st := draw (Block "investor panel" (cy st) 90) st in
  let st := investor_signature st in
  let st := draw (Block "authority panel" (cy st) 90) st in
  advance (90 + 10) st.

(** The office address line. *)
Definition contact (st : pdf_state) : pdf_state :=
  let st := ensureSpace 16 st in
  let st := draw (TextAt contact_line (cy st)) st in
  advance 14 st.

(** The start of page 1: header, footer, and the two blocks that are
    drawn without a call of [ensureSpace]. *)
Definition first_blocks : pdf_state :=
  mkPdf [] [] BODY_TOP 1 0
  |> drawHeader |> drawFooter
  |> meta_strip
  |> photo.

(** The body of the route once the shareholder row [s] is loaded. *)
Definition render_agreement : pdf_state :=
  let rs (p : num) := "Rs. " ++ toLocaleString p in
  first_blocks
  |> section "1. Personal Information" |> set_rowIdx 0
  |> field "Full Name" (sh_full_name s)
  |> field "Father / Husband Name" (str_or (Some (sh_father_name s)) em_dash)
  |> field "Residential Address" (sh_address s)
  |> field "Pin Code" (str_or (Some (sh_pin_code s)) em_dash)
  |> field "Mobile Number" (sh_phone s)
  |> field "Email Address" (sh_email s)
  |> section "2. Investment Details" |> set_rowIdx 0
  |> field "Number of Shares Purchased" (String_of_num (sh_num_shares s))
  |> field "Price per Share"
       (rs (num_or (sh_price_per_share s) (num_of_Z 1200)))
  |> field "Total Investment Amount" (rs (sh_total_investment s))
  |> field "Investment Stage"
       ("Stage " ++ String_of_num (sh_stage s) ++ " " ++ em_dash ++ " "
          ++ stage_label)
  |> field "Ownership Percentage"
       (toFixed3 (sh_num_shares s / num_of_Z 1000 * num_of_Z 100)%js
          ++ "% of total 1,000 shares")
  |> field "Portal Login Username" (sh_username s)
  |> approved_on
  |> section "3. Terms & Conditions" |> advance 4
  |> termBlock "1" "Company Governance & Decision Authority" term1_body
  |> termBlock "2" "Investor Rights & Limitations" term2_body
  |> termBlock "3" ("Net Profit Definition " ++ em_dash
                      ++ " The 75% Distribution Threshold") term3_body
  |> termBlock "4" "Profit Distribution Policy" term4_body
  |> termBlock "5" "Purpose & Use of the 25% Retained Amount" term5_body
  |> termBlock "6" "Investment Risks & Acknowledgement" term6_body
  |> termBlock "7" "Transparency & Reporting" term7_body
  |> section "4. Investor Declaration" |> advance 4
  |> declaration
  |> notice
  |> signatures
  |> contact
  |> drawFooter.

(** *** Statements about the pages *)

(** A drawing that is neither a header nor a footer, or the footer of
    page [k]. *)
Definition body_or_footer (k : nat) (d : drawing) : Prop :=
  match d with
  | Header _ => False
  | Footer y a n => y = year /\ a = agreementId /\ n = k
  | _ => True
  end.

(** Page [k] starts with the header and its own footer, and carries no
    other header and no footer with another number. *)
Definition page_ok (k : nat) (pg : list drawing) : Prop :=
  exists rest,
    pg = Header (sh_status s) :: Footer year agreementId k :: rest
    /\ Forall (body_or_footer k) rest.

(** The pages drawn so far are well formed and [pageNum] counts them. *)
Definition pages_ok (st : pdf_state) : Prop :=
  pageNum st = S (List.length (finished st))
  /\ (forall k pg, nth_error (finished st) k = Some pg -> page_ok (S k) pg)
  /\ page_ok (pageNum st) (page st).

(** Either a page break has happened or the cursor is at least at [b]. *)
Definition below (b : Q) (st : pdf_state) : Prop :=
  (1 <= pageNum st)%nat /\ ((2 <= pageNum st)%nat \/ b <= cy st).

(** PDFKit moves [doc.y] down by at least one line of the font size when
    it lays out a non-empty text. *)
Definition text_takes_a_line : Prop :=
  forall size gap width text y,
    text <> "" -> y + size <= doc_y_after_text size gap width text y.

End Route.

End Pdf.

(** A shareholder with a 300-character address, and a text measure that
    gives every paragraph one line. *)
Definition long_address : string :=
  String.concat "" (repeat "Burtuk Rd " 30).

Definition one_line (size gap width : Q) (text : string) (y : Q) : Q :=
  (y + size)%Q.

(** ** Sample data *)

(** The seeded database on doubles, and the same once stage 2 is sold out. *)
Definition seeded : @database spec_float :=
  seeded_database sample_hash "2026-01-01 00:00:00".

Definition sold_out : @database spec_float :=
  fst (put_admin_stage 2 (mkStageUpdateBody (Some "SOLD_OUT") None None None)
         seeded).

(** A registration for 100 shares. *)
Definition registration : @agreement_body spec_float :=
  mkAgreementBody (Some "Asha Rai") None (Some "Gangtok") (Some "+91 00000 00001")
    (Some "asha@example.com") None (Some (B64.of_Z 100)) (Some "asha")
    (Some "secret") None None.

(** The seeded database with one investor waiting for approval. *)
Definition with_pending : @database spec_float :=
  fst (post_agreements sample_hash "2026-01-05T10:00:00.000Z" registration seeded).

(** A payout request for a month and an amount. *)
Definition payout {num : Type} (shareholderId : option Z) (amount : num)
  (gstRate : option num) : @dividend_body num :=
  mkDividendBody shareholderId (Some "January 2026") (Some amount) gstRate None.

(** Three approved investors, the first one paid 50 once. *)
Definition paid_once : @database spec_float :=
  fst (post_admin_dividends "2026-02-01 09:00:00"
         (payout (Some 2) (B64.of_Z 50) None) (three_holders sample_hash 1 3 6)).

(** The administrator set back to PENDING. *)
Definition admin_pending : @database spec_float :=
  fst (put_admin_agreement "2026-01-06T08:00:00.000Z" 1 "PENDING" seeded).

(** An investor whose address has 300 characters. *)
Definition long_address_holder : @shareholder spec_float :=
  mkShareholder 7 "Dawa Lepcha" "" long_address "" "+91 00000 00007"
    "dawa@example.com" "DRIVER" (B64.of_Z 10) "dawa" (sample_hash "secret")
    None None (B64.of_Z 12000) (B64.of_Z 1200) (B64.of_Z 2) "APPROVED"
    "2026-01-05T10:00:00.000Z" (Some "2026-01-06T08:00:00.000Z").

(** The agreement of that investor on an A4 page of PDFKit. *)
Definition long_address_agreement : Pdf.pdf_state :=
  Pdf.render_agreement (59528 # 100) (84189 # 100) one_line
    (fun _ => true) (fun _ => true)
    (fun _ => "10") (fun _ => "12,000") (fun _ => "1.000") (fun _ => "5/1/2026")
    "2026" (fun _ => "00007") long_address_holder.

(** ** Checks on doubles by evaluation *)

(** The integers 1 to [n]. *)
Definition upto (n : nat) : list Z := map Z.of_nat (seq 1 n).

(** On doubles, a single payout of [c] cents at a GST rate of [rate]
    percent: the net does not exceed the gross and the GST amount is not
    negative. *)
Definition single_payout_ok (c rate : Z) : bool :=
  match snd (post_admin_dividends "2026-02-01 09:00:00"
               (payout (Some 2) (B64.cents c) (Some (B64.of_Z rate)))
               (three_holders sample_hash 1 3 6)) with
  | mkResponse _ (SuccessDividend _ net gross gstAmt) =>
      ((net <= gross) && (num_of_Z 0 <= gstAmt))%js
  | _ => false
  end.

(** On doubles, a bulk payout of [t] cents over shares [a], [b], [c]: the
    grosses add up to within 0.03 of the total. *)
Definition bulk_payout_ok (a b c t : Z) : bool :=
  let grosses :=
    map dv_gross_amount
      (dividend_history
         (fst (post_admin_dividends_all "2026-02-01 09:00:00"
                 (payout None (B64.cents t) None)
                 (three_holders sample_hash a b c)))) in
  drift_within (B64.cents t) (js_sum grosses) 3.

(** ** The administration routes, the price tables and the start-up *)

Section Administration.

Context {num : Type} `{JsNumber num}.

Variable bcrypt_hash : string -> string.
Variable bcrypt_compare : string -> string -> bool.

(** *** PUT /api/admin/shareholders/:id/credentials *)

Record credentials_body : Type := mkCredentialsBody {
  cr_username : option string;
  cr_password : option string
}.

(** One [column = ?] of the SET clause with its argument. *)
Inductive credential_assignment : Type :=
| SetUsername (v : string)
| SetPasswordHash (v : string).

(** The [updates]/[args] arrays: the username when it is truthy, then the
    hash of the password when it is truthy. *)
Definition credential_updates (body : credentials_body)
  : list credential_assignment :=
  (match str_or_null (cr_username body) with
   | Some username => [SetUsername username]
   | None => []
   end) ++
  (match str_or_null (cr_password body) with
   | Some password => [SetPasswordHash (bcrypt_hash password)]
   | None => []
   end).

Definition assign_credential (r : @shareholder num) (a : credential_assignment)
  : @shareholder num :=
  match a with
  | SetUsername v =>
      mkShareholder (sh_id r) (sh_full_name r) (sh_father_name r) (sh_address r)
        (sh_pin_code r) (sh_phone r) (sh_email r) (sh_business_role r)
        (sh_num_shares r) v (sh_password_hash r) (sh_photo_data r)
        (sh_signature_data r) (sh_total_investment r) (sh_price_per_share r)
        (sh_stage r) (sh_status r) (sh_created_at r) (sh_approved_at r)
  | SetPasswordHash v =>
      mkShareholder (sh_id r) (sh_full_name r) (sh_father_name r) (sh_address r)
        (sh_pin_code r) (sh_phone r) (sh_email r) (sh_business_role r)
        (sh_num_shares r) (sh_username r) v (sh_photo_data r)
        (sh_signature_data r) (sh_total_investment r) (sh_price_per_share r)
        (sh_stage r) (sh_status r) (sh_created_at r) (sh_approved_at r)
  end.

(** [username && username !== sh.username] followed by the query
    [SELECT id FROM shareholders WHERE username = ? AND id != ?]: whether
    the route answers 'Username already taken'. *)
Definition username_taken (id : Z) (username : option string) (sh : @shareholder num)
  (db : @database num) : bool :=
  match username with
  | Some u =>
      negb (String.eqb u (sh_username sh))
      && existsb (fun r => String.eqb (sh_username r) u
                           && negb (id_is id (sh_id r)))
                 (shareholders db)
  | None => false
  end.

Definition put_admin_credentials (id : Z) (body : credentials_body)
  (db : @database num) : @database num * @response num :=
  match str_or_null (cr_username body), str_or_null (cr_password body) with
  | None, None =>
      (db, res_status_json 400 (Failure "username or password required"))
  | username, _ =>
      match filter (fun r => id_is id (sh_id r)) (shareholders db) with
      | [] => (db, res_status_json 404 (Failure "Shareholder not found"))
      | sh :: _ =>
          if String.eqb (sh_business_role sh) "ADMIN"
          then (db, res_status_json 403
                      (Failure "Cannot modify admin credentials here"))
          else if username_taken id username sh db
          then (db, res_status_json 400 (Failure "Username already taken"))
          else
            let updates := credential_updates body in
            (with_shareholders db
               (map (fun r => if id_is id (sh_id r)
                              then fold_left assign_credential updates r
                              else r)
                    (shareholders db)),
             res_json (Success "Credentials updated successfully"))
      end
  end.

(** *** The tables [subscriber_counts] and [role_prices] *)

Record subscriber_count : Type := mkSubscriberCount {
  sub_id : positive;
  sub_business_role : string;
  sub_count : num;
  sub_updated_at : string
}.

Record role_price : Type := mkRolePrice {
  rp_business_role : string;
  rp_price : num;
  rp_updated_at : string
}.

(** The two tables, rows in rowid order, and the AUTOINCREMENT counter of
    [subscriber_counts]. *)
Record catalogue : Type := mkCatalogue {
  subscriber_counts : list subscriber_count;
  role_prices : list role_price;
  next_subscriber_count_id : positive
}.

(** A JS object with string keys, as its entries in insertion order;
    [o[k] = v] overwrites the entry of [k] in place or adds one at the end. *)
Fixpoint set_property {A : Type} (k : string) (v : A) (o : list (string * A))
  : list (string * A) :=
  match o with
  | [] => [(k, v)]
  | (k', v') :: o' =>
      if String.eqb k' k then (k', v) :: o' else (k', v') :: set_property k v o'
  end.

(** [o[k]], [None] for [undefined]. *)
Fixpoint get_property {A : Type} (k : string) (o : list (string * A)) : option A :=
  match o with
  | [] => None
  | (k', v') :: o' => if String.eqb k' k then Some v' else get_property k o'
  end.

(** *** GET /api/prices *)

(** The [prices] object of the answer:
    [rows.rows.forEach(r => { prices[r.business_role] = r.price; })]. *)
Definition get_prices (cat : catalogue) : list (string * num) :=
  fold_left (fun prices r => set_property (rp_business_role r) (rp_price r) prices)
            (role_prices cat) [].

(** *** PUT /api/admin/prices *)

Definition with_role_prices (cat : catalogue) (l : list role_price) : catalogue :=
  mkCatalogue (subscriber_counts cat) l (next_subscriber_count_id cat).

(** [INSERT INTO role_prices (business_role, price, updated_at) VALUES (?, ?,
    datetime('now')) ON CONFLICT(business_role) DO UPDATE SET price =
    excluded.price, updated_at = excluded.updated_at] *)
Definition upsert_price (now : string) (cat : catalogue) (entry : string * num)
  : catalogue :=
  let (role, price) := entry in
  if existsb (fun r => String.eqb (rp_business_role r) role) (role_prices cat)
  then with_role_prices cat
         (map (fun r => if String.eqb (rp_business_role r) role
                        then mkRolePrice (rp_business_role r) price now
                        else r)
              (role_prices cat))
  else with_role_prices cat (role_prices cat ++ [mkRolePrice role price now])%list.

(** The body carries [prices], an object whose values have been through
    [Number]; [Object.entries(prices)] is its list of entries. *)
Definition put_admin_prices (now : string) (prices : option (list (string * num)))
  (cat : catalogue) : catalogue * @response num :=
  match prices with
  | None => (cat, res_status_json 400 (Failure "prices required"))
  | Some entries =>
      (fold_left (upsert_price now) entries cat,
       res_json (Success "Prices updated"))
  end.

(** *** PUT /api/admin/subscribers *)

(** The body carries both fields; [sb_count] is [Number(count)]. *)
Record subscribers_body : Type := mkSubscribersBody {
  sb_businessRole : string;
  sb_count : num
}.

(** [UPDATE subscriber_counts SET count = ?, updated_at = datetime('now')
    WHERE business_role = ?] *)
Definition put_admin_subscribers (now : string) (body : subscribers_body)
  (cat : catalogue) : catalogue * @response num :=
  (mkCatalogue
     (map (fun r =>
             if String.eqb (sub_business_role r) (sb_businessRole body)
             then mkSubscriberCount (sub_id r) (sub_business_role r)
                    (sb_count body) now
             else r)
          (subscriber_counts cat))
     (role_prices cat) (next_subscriber_count_id cat),
   res_json (Success "Subscriber count updated")).

(** *** initializeDatabase *)

(** A database file that has just been created: [CREATE TABLE IF NOT
    EXISTS] gives empty tables. *)
Definition empty_database : @database num := mkDatabase [] [] [] 1 1 1.
Definition empty_catalogue : catalogue := mkCatalogue [] [] 1.

(** [INSERT OR IGNORE INTO subscriber_counts (business_role, count) VALUES
    (role, 0)] *)
Definition seed_subscriber_count (now role : string) (cat : catalogue)
  : catalogue :=
  if existsb (fun r => String.eqb (sub_business_role r) role)
             (subscriber_counts cat)
  then cat
  else mkCatalogue
         (subscriber_counts cat ++
            [mkSubscriberCount (next_subscriber_count_id cat) role
                               (num_of_Z 0) now])%list
         (role_prices cat) (Pos.succ (next_subscriber_count_id cat)).

(** [INSERT OR IGNORE INTO role_prices (business_role, price) VALUES (role,
    price)] *)
Definition seed_role_price (now role : string) (price : Z) (cat : catalogue)
  : catalogue :=
  if existsb (fun r => String.eqb (rp_business_role r) role) (role_prices cat)
  then cat
  else with_role_prices cat
         (role_prices cat ++ [mkRolePrice role (num_of_Z price) now])%list.

(** The three stages, inserted when [investment_stages] has no row. *)
Definition seed_stages (db : @database num) : @database num :=
  if (List.length (investment_stages db) =? 0)%nat
  then
    let db1 := insert_stage db (fun id =>
      mkStage id (num_of_Z 1) "Base Price" (num_of_Z 1000) (num_of_Z 0)
              (num_of_Z 1500) "SOLD_OUT" (num_of_Z 0)) in
    let db2 := insert_stage db1 (fun id =>
      mkStage id (num_of_Z 2) "Current Price" (num_of_Z 1200) (num_of_Z 1501)
              (num_of_Z 5000) "RUNNING" (num_of_Z 100)) in
    insert_stage db2 (fun id =>
      mkStage id (num_of_Z 3) "Next Price" (num_of_Z 1440) (num_of_Z 5001)
              (num_of_Z 15000) "UPCOMING" (num_of_Z 100))
  else db.

(** [UPDATE shareholders SET password_hash = ?, status = 'APPROVED'] on one
    row. *)
Definition set_password_approved (hash : string) (r : @shareholder num) : @shareholder num :=
  mkShareholder (sh_id r) (sh_full_name r) (sh_father_name r) (sh_address r)
    (sh_pin_code r) (sh_phone r) (sh_email r) (sh_business_role r)
    (sh_num_shares r) (sh_username r) hash (sh_photo_data r)
    (sh_signature_data r) (sh_total_investment r) (sh_price_per_share r)
    (sh_stage r) "APPROVED" (sh_created_at r) (sh_approved_at r).

(** The administrator: inserted when no row has the username 'admin', and
    otherwise given the start-up password and the status APPROVED again.
    The INSERT fails on [email UNIQUE] when another row has the
    administrator's email; [initializeDatabase] then rejects and the
    process exits ([None]). *)
Definition seed_admin (now : string) (db : @database num) : option (@database num) :=
  let hash := bcrypt_hash "Qc@242526" in
  if (List.length (filter (fun r => String.eqb (sh_username r) "admin")
                          (shareholders db)) =? 0)%nat
  then
    if existsb (fun r => String.eqb (sh_email r) "admin@quickride.com")
               (shareholders db)
    then None
    else Some (insert_shareholder db (fun id =>
      mkShareholder id "Administrator" "" "Quick Ride HQ" "000000"
        "+91 00000 00000" "admin@quickride.com" "ADMIN" (num_of_Z 0) "admin"
        hash None None (num_of_Z 0) (num_of_Z 1200) (num_of_Z 2) "APPROVED"
        now None))
  else
    Some (with_shareholders db
            (map (fun r => if String.eqb (sh_username r) "admin"
                           then set_password_approved hash r else r)
                 (shareholders db))).

(** The seeds of the two price tables, in the order of the six INSERTs. *)
Definition seed_catalogue (now : string) (cat : catalogue) : catalogue :=
  seed_role_price now "SHOPS_HOTELS" 700
    (seed_role_price now "TRAVEL_AGENT" 500
       (seed_role_price now "DRIVER" 350
          (seed_subscriber_count now "SHOPS_HOTELS"
             (seed_subscriber_count now "TRAVEL_AGENT"
                (seed_subscriber_count now "DRIVER" cat))))).

Definition initializeDatabase (now : string) (st : @database num * catalogue)
  : option (@database num * catalogue) :=
  let cat := seed_catalogue now (snd st) in
  match seed_admin now (seed_stages (fst st)) with
  | Some db => Some (db, cat)
  | None => None
  end.

(** *** The routes that write, and the login *)

Inductive request : Type :=
| POST_agreements (now : string) (body : @agreement_body num)
| POST_auth_login (body : login_body)
| PUT_admin_prices (now : string) (prices : option (list (string * num)))
| PUT_admin_subscribers (now : string) (body : subscribers_body)
| PUT_admin_agreements (now : string) (id : Z) (status : string)
| DELETE_admin_agreements (id : Z)
| PUT_admin_credentials (id : Z) (body : credentials_body)
| PUT_admin_stages (id : Z) (body : @stage_update_body num)
| POST_admin_stages (body : @stage_create_body num)
| POST_admin_dividends (now : string) (body : @dividend_body num)
| POST_admin_dividends_all (now : string) (body : @dividend_body num).

(** Express hands the request to the handler registered for its method
    and path. *)
Definition serve (rq : request) (st : @database num * catalogue)
  : (@database num * catalogue) * @response num :=
  let (db, cat) := st in
  let on_db (r : @database num * @response num) := ((fst r, cat), snd r) in
  let on_cat (r : catalogue * @response num) := ((db, fst r), snd r) in
  match rq with
  | POST_agreements now body => on_db (post_agreements bcrypt_hash now body db)
  | POST_auth_login body => ((db, cat), post_auth_login bcrypt_compare body db)
  | PUT_admin_prices now prices => on_cat (put_admin_prices now prices cat)
  | PUT_admin_subscribers now body => on_cat (put_admin_subscribers now body cat)
  | PUT_admin_agreements now id status => on_db (put_admin_agreement now id status db)
  | DELETE_admin_agreements id => on_db (delete_admin_agreement id db)
  | PUT_admin_credentials id body => on_db (put_admin_credentials id body db)
  | PUT_admin_stages id body => on_db (put_admin_stage id body db)
  | POST_admin_stages body => on_db (post_admin_stages body db)
  | POST_admin_dividends now body => on_db (post_admin_dividends now body db)
  | POST_admin_dividends_all now body => on_db (post_admin_dividends_all now body db)
  end.

(** *** What the tables keep *)

(** The constraints of the schema on the three tables of [database]: the
    primary keys, [username UNIQUE] and [email UNIQUE], the AUTOINCREMENT
    counters ahead of every id, and [shareholder_id REFERENCES
    shareholders(id)]. *)
Definition schema_holds (db : @database num) : Prop :=
  NoDup (map sh_id (shareholders db))
  /\ NoDup (map sh_username (shareholders db))
  /\ NoDup (map sh_email (shareholders db))
  /\ NoDup (map dv_id (dividend_history db))
  /\ NoDup (map st_id (investment_stages db))
  /\ Forall (fun r => (sh_id r < next_shareholder_id db)%positive) (shareholders db)
  /\ Forall (fun d => (dv_id d < next_dividend_id db)%positive) (dividend_history db)
  /\ Forall (fun r => (st_id r < next_stage_id db)%positive) (investment_stages db)
  /\ dividends_have_owner db.

(** [business_role UNIQUE] and [business_role PRIMARY KEY] on the two price
    tables. *)
Definition roles_unique (cat : catalogue) : Prop :=
  NoDup (map sub_business_role (subscriber_counts cat))
  /\ NoDup (map rp_business_role (role_prices cat)).

(** [r'] is [r] up to [username] and [password_hash]. *)
Definition same_but_credentials (r r' : @shareholder num) : Prop :=
  sh_id r' = sh_id r /\ sh_full_name r' = sh_full_name r
  /\ sh_father_name r' = sh_father_name r /\ sh_address r' = sh_address r
  /\ sh_pin_code r' = sh_pin_code r /\ sh_phone r' = sh_phone r
  /\ sh_email r' = sh_email r /\ sh_business_role r' = sh_business_role r
  /\ sh_num_shares r' = sh_num_shares r
  /\ sh_photo_data r' = sh_photo_data r
  /\ sh_signature_data r' = sh_signature_data r
  /\ sh_total_investment r' = sh_total_investment r
  /\ sh_price_per_share r' = sh_price_per_share r /\ sh_stage r' = sh_stage r
  /\ sh_status r' = sh_status r /\ sh_created_at r' = sh_created_at r
  /\ sh_approved_at r' = sh_approved_at r.

(** A row with the role ADMIN and the username 'admin'. *)
Definition has_admin (db : @database num) : Prop :=
  exists r, In r (shareholders db)
            /\ sh_username r = "admin" /\ sh_business_role r = "ADMIN".

(** The states of a deployment: the tables after the first start on an
    empty file, after a request, and after a restart. *)
Inductive reachable : @database num * catalogue -> Prop :=
| reach_start (now : string) (st : @database num * catalogue) :
    initializeDatabase now (empty_database, empty_catalogue) = Some st ->
    reachable st
| reach_serve (rq : request) (st : @database num * catalogue) :
    reachable st -> reachable (fst (serve rq st))
| reach_restart (now : string) (st st' : @database num * catalogue) :
    reachable st -> initializeDatabase now st = Some st' -> reachable st'.

(** The last value given for [k] in a list of entries. *)
Definition last_entry {A : Type} (k : string) (entries : list (string * A))
  : option A :=
  get_property k (rev entries).

(** The price of the last row of [role_prices] with the role [k]. *)
Definition shown_price (k : string) (rows : list role_price) : option num :=
  last_entry k (map (fun r => (rp_business_role r, rp_price r)) rows).

End Administration.

(** *** Sample data for the administration routes *)

(** The price tables after the first start, and the tables of a
    deployment that has just been started. *)
Definition seeded_catalogue : @catalogue spec_float :=
  mkCatalogue
    [mkSubscriberCount 1 "DRIVER" (B64.of_Z 0) "2026-01-01 00:00:00";
     mkSubscriberCount 2 "TRAVEL_AGENT" (B64.of_Z 0) "2026-01-01 00:00:00";
     mkSubscriberCount 3 "SHOPS_HOTELS" (B64.of_Z 0) "2026-01-01 00:00:00"]
    [mkRolePrice "DRIVER" (B64.of_Z 350) "2026-01-01 00:00:00";
     mkRolePrice "TRAVEL_AGENT" (B64.of_Z 500) "2026-01-01 00:00:00";
     mkRolePrice "SHOPS_HOTELS" (B64.of_Z 700) "2026-01-01 00:00:00"]
    4.

Definition started : @database spec_float * @catalogue spec_float :=
  (seeded, seeded_catalogue).

(** A registration that asks for the role ADMIN. *)
Definition admin_registration : @agreement_body spec_float :=
  mkAgreementBody (Some "Bina Rai") None (Some "Gangtok") (Some "+91 00000 00002")
    (Some "bina@example.com") (Some "ADMIN") (Some (B64.of_Z 1)) (Some "bina")
    (Some "secret") None None.

(** New credentials, a fourth stage, and a new price for a stage. *)
Definition new_credentials : credentials_body :=
  mkCredentialsBody (Some "asha.rai") (Some "changed").

Definition fourth_stage : @stage_create_body spec_float :=
  mkStageCreateBody (Some (B64.of_Z 4)) (Some "Later Price")
    (Some (B64.of_Z 1728)) None None None None.

Definition raise_price : @stage_update_body spec_float :=
  mkStageUpdateBody None (Some (B64.of_Z 1500)) None None.

(** A page of the agreement with 110.89 points left above the body
    limit of an A4 page. *)
Definition near_bottom : Pdf.pdf_state := Pdf.mkPdf [] [] 701 1 0.

(** * Properties *)

(** ** The two number models satisfy the laws *)

#[global] Instance B64_laws : JsNumberLaws spec_float.
Proof.
  split; try reflexivity;
    intros [[|]|[|]| |[|] m e]; reflexivity.
Qed.

(** Boolean comparisons of rationals as propositions. *)
Ltac q_reflect :=
  repeat match goal with
  | H : Qle_bool _ _ = true |- _ => apply Qle_bool_iff in H
  | H : Qle_bool ?a ?b = false |- _ =>
      assert (~ (a <= b)%Q) by (rewrite <- Qle_bool_iff, H; discriminate);
      clear H
  | H : Qeq_bool _ _ = true |- _ => apply Qeq_bool_iff in H
  | H : Qeq_bool ?a ?b = false |- _ =>
      assert (~ (a == b)%Q) by (rewrite <- Qeq_bool_iff, H; discriminate);
      clear H
  end.

#[global] Instance Exact_laws : JsNumberLaws Exact.xnum.
Proof.
  split; try reflexivity; intros [q|b|]; simpl; try reflexivity.
  unfold Exact.is_zero. change (inject_Z 0) with 0%Q.
  destruct (Qeq_bool q 0) eqn:E0; destruct (Qle_bool q 0) eqn:E1;
    destruct (Qle_bool 0 q) eqn:E2; simpl; try reflexivity;
    exfalso; q_reflect; lra.
Qed.

(** ** Lists as tables *)

Lemma filter_head_In {A : Type} (f : A -> bool) (l : list A) (x : A) (rest : list A) :
  filter f l = x :: rest -> In x l /\ f x = true.
Proof.
  intro E. apply filter_In. rewrite E. left. reflexivity.
Qed.

Lemma filter_none {A : Type} (f : A -> bool) (l : list A) :
  (forall x, In x l -> f x = false) -> filter f l = [].
Proof.
  induction l as [|a l IH]; intro Hall; simpl.
  - reflexivity.
  - rewrite (Hall a (or_introl eq_refl)). apply IH.
    intros x Hx. apply Hall. right. exact Hx.
Qed.

Lemma filter_nonempty {A : Type} (f : A -> bool) (l : list A) (x : A) :
  In x l -> f x = true -> filter f l <> [].
Proof.
  intros Hin Hf E.
  assert (In x (filter f l)) as Hx by (apply filter_In; split; assumption).
  rewrite E in Hx. exact Hx.
Qed.

Lemma id_is_true (k : Z) (p : positive) : id_is k p = true <-> Z.pos p = k.
Proof. unfold id_is. apply Z.eqb_eq. Qed.

Lemma id_is_false (k : Z) (p : positive) : id_is k p = false <-> Z.pos p <> k.
Proof. unfold id_is. apply Z.eqb_neq. Qed.

(** With a key that identifies rows, a lookup by key finds the row. *)
Lemma filter_unique_key {A : Type} (key : A -> positive) (k : Z) (l : list A) (x : A) :
  NoDup (map key l) -> In x l -> id_is k (key x) = true ->
  filter (fun r => id_is k (key r)) l = [x].
Proof.
  induction l as [|a l IH]; intros Hnd Hin Hk; cbn [filter map In] in *.
  - contradiction.
  - inversion Hnd as [|? ? Hnotin Hnd']; subst.
    apply id_is_true in Hk.
    destruct Hin as [->|Hin].
    + replace (id_is k (key x)) with true by (symmetry; apply id_is_true; exact Hk).
      f_equal. apply filter_none.
      intros y Hy. apply id_is_false. intro Ey.
      apply Hnotin.
      assert (key y = key x) as <- by (apply Pos2Z.inj; congruence).
      apply in_map. exact Hy.
    + destruct (id_is k (key a)) eqn:Ea.
      * exfalso. apply Hnotin. apply id_is_true in Ea.
        assert (key a = key x) as -> by (apply Pos2Z.inj; congruence).
        apply in_map. exact Hin.
      * apply IH; [assumption|assumption|apply id_is_true; exact Hk].
Qed.

Section BackendFacts.

Context {num : Type} `{JsNumber num}.
Variable bcrypt_hash : string -> string.
Variable bcrypt_compare : string -> string -> bool.

(** ** Stage registry *)


(** ** Shareholder lifecycle *)

(** C5: on a status update of the shareholder with the given id, whatever
    its previous status, the row gets the incoming status and
    [approved_at] becomes the current time when the incoming status is
    APPROVED and null for every other status; its other columns, the other
    rows and the other tables are unchanged. *)
Theorem put_admin_agreement_sets_approved_at :
  forall (now : string) (id : Z) (status : string) (db : @database num)
         (k : nat) (r : shareholder),
    nth_error (shareholders db) k = Some r -> Z.pos (sh_id r) = id ->
    let db' := fst (put_admin_agreement now id status db) in
    snd (put_admin_agreement now id status db)
      = res_json (Success ("Status updated to " ++ status))
    /\ (exists r',
          nth_error (shareholders db') k = Some r'
          /\ sh_status r' = status
          /\ (status = "APPROVED" -> sh_approved_at r' = Some now)
          /\ (status <> "APPROVED" -> sh_approved_at r' = None)
          /\ same_but_status r r')
    /\ List.length (shareholders db') = List.length (shareholders db)
    /\ (forall j r0, nth_error (shareholders db) j = Some r0 ->
                     Z.pos (sh_id r0) <> id ->
                     nth_error (shareholders db') j = Some r0)
    /\ dividend_history db' = dividend_history db
    /\ investment_stages db' = investment_stages db.
Proof.
  intros now id status db k r Hk Hid. cbv zeta. unfold put_admin_agreement.
  cbn [fst snd with_shareholders shareholders dividend_history investment_stages].
  split; [reflexivity|]. split; [|split; [apply length_map|split; [|split; reflexivity]]].
  - rewrite nth_error_map, Hk. cbn [option_map].
    apply id_is_true in Hid. rewrite Hid.
    eexists. split; [reflexivity|]. cbn. split; [reflexivity|].
    destruct (String.eqb_spec status "APPROVED") as [Es|Es].
    + split; [reflexivity|]. split; [contradiction|].
      unfold same_but_status; cbn; repeat split.
    + split; [contradiction|]. split; [reflexivity|].
      unfold same_but_status; cbn; repeat split.
  - intros j r0 Hj Hne. rewrite nth_error_map, Hj. cbn [option_map].
    apply id_is_false in Hne. rewrite Hne. reflexivity.
Qed.



(** ** Stage updates *)

(** C8: an update that supplies none of the four fields is answered 400
    "Nothing to update" and changes nothing; a creation without stage
    number, name or price is answered 400 and changes nothing; an update
    that supplies some fields sets exactly those on the stage with the
    given id and leaves its other columns, the other stages and the other
    tables as they were. *)
Theorem put_admin_stage_partial_update :
  forall (id : Z) (body : stage_update_body) (create : stage_create_body)
         (db : @database num),
    (su_status body = None -> su_price_per_share body = None ->
     su_name body = None -> su_shares_available body = None ->
       put_admin_stage id body db
         = (db, res_status_json 400 (Failure "Nothing to update")))
    /\ (sc_stage create = None \/ sc_name create = None
        \/ sc_price_per_share create = None ->
          post_admin_stages create db
            = (db, res_status_json 400
                     (Failure "stage, name, price_per_share required")))
    /\ (su_status body <> None \/ su_price_per_share body <> None
        \/ su_name body <> None \/ su_shares_available body <> None ->
          let db' := fst (put_admin_stage id body db) in
          snd (put_admin_stage id body db) = res_json (Success "Stage updated")
          /\ (forall k r,
                nth_error (investment_stages db) k = Some r ->
                Z.pos (st_id r) = id ->
                exists r',
                  nth_error (investment_stages db') k = Some r'
                  /\ st_status r' = supplied (su_status body) (st_status r)
                  /\ st_price_per_share r'
                     = supplied (su_price_per_share body) (st_price_per_share r)
                  /\ st_name r' = supplied (su_name body) (st_name r)
                  /\ st_shares_available r'
                     = supplied (su_shares_available body) (st_shares_available r)
                  /\ st_id r' = st_id r /\ st_stage r' = st_stage r
                  /\ st_min_subscribers r' = st_min_subscribers r
                  /\ st_max_subscribers r' = st_max_subscribers r)
          /\ (forall k r,
                nth_error (investment_stages db) k = Some r ->
                Z.pos (st_id r) <> id ->
                nth_error (investment_stages db') k = Some r)
          /\ List.length (investment_stages db') = List.length (investment_stages db)
          /\ shareholders db' = shareholders db
          /\ dividend_history db' = dividend_history db).
Proof.
  intros id body create db. split; [|split].
  - intros E1 E2 E3 E4. unfold put_admin_stage, stage_fields.
    rewrite E1, E2, E3, E4. reflexivity.
  - intro Hmiss. unfold post_admin_stages.
    destruct Hmiss as [E|[E|E]]; rewrite E; cbn.
    + reflexivity.
    + destruct (num_given (sc_stage create)); reflexivity.
    + destruct (num_given (sc_stage create));
        [destruct (str_or_null (sc_name create))|]; reflexivity.
  - intro Hsome. cbn zeta. unfold put_admin_stage.
    assert ((List.length (stage_fields body) =? 0)%nat = false) as Hlen.
    { apply Nat.eqb_neq. unfold stage_fields.
      destruct (su_status body), (su_price_per_share body), (su_name body),
        (su_shares_available body); cbn; try discriminate.
      exfalso. destruct Hsome as [E|[E|[E|E]]]; apply E; reflexivity. }
    rewrite Hlen. cbn [fst snd]. split; [reflexivity|].
    cbn [update_stage with_stages investment_stages shareholders dividend_history].
    split; [|split; [|split; [apply length_map|split; reflexivity]]].
    + intros k r Hk Hid. rewrite nth_error_map, Hk. cbn [option_map].
      apply id_is_true in Hid. rewrite Hid.
      eexists. split; [reflexivity|]. unfold stage_fields.
      destruct (su_status body), (su_price_per_share body), (su_name body),
        (su_shares_available body); cbn; repeat split.
    + intros k r Hk Hne. rewrite nth_error_map, Hk. cbn [option_map].
      apply id_is_false in Hne. rewrite Hne. reflexivity.
Qed.

End BackendFacts.

(** ** Dividend allocator: what the routes store and answer *)

Section DividendFacts.

Context {num : Type} `{JsNumberLaws num}.

Lemma amount_given_positive (x : num) :
  (num_of_Z 0 < x)%js = true -> amount_given (Some x) = Some x.
Proof.
  intro Hpos. unfold amount_given.
  rewrite <- positive_check in Hpos. apply andb_true_iff in Hpos.
  destruct Hpos as [Ht Hle]. rewrite Ht. apply negb_true_iff in Hle.
  rewrite Hle. reflexivity.
Qed.

Lemma amount_given_not_positive (v : option num) :
  (forall x, v = Some x -> (num_of_Z 0 < x)%js = false) -> amount_given v = None.
Proof.
  intro Hno. destruct v as [x|]; [|reflexivity].
  specialize (Hno x eq_refl). unfold amount_given.
  rewrite <- positive_check in Hno.
  destruct (ToBoolean x); [|reflexivity].
  destruct (x <= num_of_Z 0)%js; [reflexivity|discriminate].
Qed.

Lemma str_or_null_given (v : string) : v <> "" -> str_or_null (Some v) = Some v.
Proof.
  intro Hne. unfold str_or_null. apply String.eqb_neq in Hne. rewrite Hne.
  reflexivity.
Qed.

(** The loop of the bulk payout appends one row per shareholder, in
    order, and touches nothing else. *)
Lemma pay_share_loop (now month pm : string) (T S gst : num) :
  forall (shs : list shareholder) (db : @database num),
    exists new,
      dividend_history (fold_left (pay_share now month T S gst pm) shs db)
        = (dividend_history db ++ new)%list
      /\ Forall2 (share_payout now month pm T S gst) shs new
      /\ shareholders (fold_left (pay_share now month T S gst pm) shs db)
         = shareholders db
      /\ investment_stages (fold_left (pay_share now month T S gst pm) shs db)
         = investment_stages db.
Proof.
  induction shs as [|sh shs IH]; intro db.
  - exists []. cbn. rewrite app_nil_r. repeat split. constructor.
  - destruct (IH (pay_share now month T S gst pm db sh)) as [new [Hh [Hf [Hs Hi]]]].
    eexists (_ :: new). cbn [fold_left]. rewrite Hh, Hs, Hi.
    cbn [pay_share insert_dividend dividend_history shareholders investment_stages].
    rewrite <- app_assoc. cbn [app]. split; [reflexivity|].
    split; [|split; reflexivity].
    constructor; [|exact Hf].
    unfold share_payout, round2. cbn. repeat split.
Qed.

(** The bulk payout under its two preconditions. *)
Lemma post_admin_dividends_all_paid (now : string) (body : dividend_body)
  (db : @database num) (month : string) (T : num) :
  dq_month body = Some month -> month <> "" ->
  dq_amount body = Some T -> (num_of_Z 0 < T)%js = true ->
  approved_shareholders db <> [] ->
  let shs := approved_shareholders db in
  exists db' new,
    post_admin_dividends_all now body db
      = (db', res_json (SuccessCount (List.length shs)
                          ("Dividend paid to " ++ show_nat (List.length shs)
                             ++ " shareholders")))
    /\ dividend_history db' = (dividend_history db ++ new)%list
    /\ Forall2 (share_payout now month
                  (str_or (dq_paymentMethod body) "Bank Transfer") T
                  (total_shares shs)
                  (Math_max (num_of_Z 0) (Number_or_0 (dq_gstRate body))))
               shs new
    /\ shareholders db' = shareholders db
    /\ investment_stages db' = investment_stages db.
Proof.
  intros Hm Hne Ha Hpos Hsome shs.
  unfold post_admin_dividends_all.
  rewrite Hm, Ha, (str_or_null_given _ Hne), (amount_given_positive _ Hpos).
  fold shs.
  destruct shs as [|sh0 shs0] eqn:Eshs; [contradiction|].
  cbn [List.length Nat.eqb].
  destruct (pay_share_loop now month
              (str_or (dq_paymentMethod body) "Bank Transfer") T
              (total_shares (sh0 :: shs0))
              (Math_max (num_of_Z 0) (Number_or_0 (dq_gstRate body)))
              (sh0 :: shs0) db) as [new [Hh [Hf [Hs Hi]]]].
  eexists. exists new. split; [reflexivity|]. auto.
Qed.


(** The single payout under its preconditions. *)
Lemma post_admin_dividends_paid (now : string) (body : dividend_body)
  (db : @database num) (sh : shareholder) (month : string) (gross : num) :
  In sh (shareholders db) -> sh_status sh = "APPROVED" ->
  dq_shareholderId body = Some (Z.pos (sh_id sh)) ->
  dq_month body = Some month -> month <> "" ->
  dq_amount body = Some gross -> (num_of_Z 0 < gross)%js = true ->
  let gst := Math_max (num_of_Z 0) (Number_or_0 (dq_gstRate body)) in
  let gstAmt := round2 (gross * gst / num_of_Z 100)%js in
  let net := round2 (gross - gstAmt)%js in
  exists db' d,
    post_admin_dividends now body db
      = (db', res_json (SuccessDividend "Dividend recorded successfully"
                                        net gross gstAmt))
    /\ dividend_history db' = (dividend_history db ++ [d])%list
    /\ dv_shareholder_id d = Z.pos (sh_id sh) /\ dv_month d = month
    /\ dv_gross_amount d = gross /\ dv_gst_rate d = gst /\ dv_amount d = net
    /\ dv_payment_method d = str_or (dq_paymentMethod body) "Bank Transfer"
    /\ dv_status d = "PAID"
    /\ shareholders db' = shareholders db
    /\ investment_stages db' = investment_stages db.
Proof.
  intros Hin Hst Hid Hm Hne Ha Hpos gst gstAmt net.
  unfold post_admin_dividends.
  rewrite Hid, Hm, Ha, (str_or_null_given _ Hne), (amount_given_positive _ Hpos).
  cbn [id_given Z.eqb].
  destruct (filter _ (shareholders db)) as [|r rest] eqn:Ef.
  - exfalso. revert Ef. apply (filter_nonempty _ _ sh Hin).
    apply andb_true_iff. split.
    + apply id_is_true. reflexivity.
    + apply String.eqb_eq. exact Hst.
  - eexists. eexists. split; [reflexivity|].
    cbn [insert_dividend dividend_history shareholders investment_stages].
    split; [reflexivity|]. cbn. repeat split.
Qed.

(** The single payout when a precondition fails: a decline with status
    200, and nothing is stored. *)
Lemma post_admin_dividends_declined (now : string) (body : dividend_body)
  (db : @database num) :
  (forall g, dq_amount body = Some g -> (num_of_Z 0 < g)%js = false)
  \/ dq_month body = None \/ dq_month body = Some ""
  \/ (forall sh, In sh (shareholders db) ->
        dq_shareholderId body = Some (Z.pos (sh_id sh)) ->
        sh_status sh <> "APPROVED") ->
  exists message,
    post_admin_dividends now body db = (db, res_json (Failure message)).
Proof.
  intro Hbad. unfold post_admin_dividends.
  destruct (id_given (dq_shareholderId body)) as [sid|] eqn:Eid;
    [|eexists; reflexivity].
  destruct (str_or_null (dq_month body)) as [month|] eqn:Em;
    [|eexists; reflexivity].
  destruct (amount_given (dq_amount body)) as [amount|] eqn:Ea;
    [|eexists; reflexivity].
  destruct (filter _ (shareholders db)) as [|r rest] eqn:Ef;
    [eexists; reflexivity|].
  exfalso. destruct Hbad as [Hg|[Hmn|[Hme|Hsh]]].
  - rewrite (amount_given_not_positive _ Hg) in Ea. discriminate.
  - rewrite Hmn in Em. discriminate.
  - rewrite Hme in Em. discriminate.
  - apply filter_head_In in Ef. destruct Ef as [Hin Hr].
    apply andb_true_iff in Hr. destruct Hr as [Hr1 Hr2].
    apply id_is_true in Hr1. apply String.eqb_eq in Hr2.
    apply (Hsh r Hin); [|exact Hr2].
    unfold id_given in Eid. destruct (dq_shareholderId body) as [i|]; [|discriminate].
    destruct (i =? 0); [discriminate|]. congruence.
Qed.

End DividendFacts.

(** ** Exact arithmetic: rounding to cents *)

Section ExactFacts.

Import Exact.
Local Open Scope Q_scope.

(** [Qfloor] is the only integer [k] with [k <= x < k + 1]. *)
Lemma Qfloor_unique (x : Q) (k : Z) :
  inject_Z k <= x -> x < inject_Z k + 1 -> Qfloor x = k.
Proof.
  intros Hle Hlt.
  pose proof (Qfloor_le x) as F1. pose proof (Qlt_floor x) as F2.
  rewrite inject_Z_plus in F2. change (inject_Z 1) with 1 in F2.
  assert (inject_Z k < inject_Z (Qfloor x) + 1) as A by lra.
  assert (inject_Z (Qfloor x) < inject_Z k + 1) as B by lra.
  change 1 with (inject_Z 1) in A, B. rewrite <- inject_Z_plus in A, B.
  rewrite <- Zlt_Qlt in A, B. lia.
Qed.

(** [half_up_2dp q] is a whole number of cents, at most half a cent away
    from [q], a tie going up. *)
Lemma half_up_2dp_spec (q : Q) :
  exists k : Z,
    half_up_2dp q = inject_Z k / 100
    /\ q * 100 - (1 # 2) < inject_Z k /\ inject_Z k <= q * 100 + (1 # 2).
Proof.
  exists (Qfloor (q * 100 + (1 # 2))). split; [reflexivity|].
  pose proof (Qfloor_le (q * 100 + (1 # 2))) as F1.
  pose proof (Qlt_floor (q * 100 + (1 # 2))) as F2.
  rewrite inject_Z_plus in F2. change (inject_Z 1) with 1 in F2.
  split; lra.
Qed.

Lemma half_up_2dp_bounds (q : Q) :
  q - (1 # 200) < half_up_2dp q /\ half_up_2dp q <= q + (1 # 200).
Proof.
  destruct (half_up_2dp_spec q) as [k [E [H1 H2]]]. rewrite E.
  split.
  - apply Qlt_shift_div_l; lra.
  - apply Qle_shift_div_r; lra.
Qed.

Lemma half_up_2dp_comp (p q : Q) : p == q -> half_up_2dp p = half_up_2dp q.
Proof.
  intro E. unfold half_up_2dp.
  assert (Qfloor (p * 100 + (1 # 2)) = Qfloor (q * 100 + (1 # 2))) as ->.
  { apply Qfloor_comp. rewrite E. reflexivity. }
  reflexivity.
Qed.

Lemma half_up_2dp_mono (p q : Q) : p <= q -> half_up_2dp p <= half_up_2dp q.
Proof.
  intro Hle. unfold half_up_2dp.
  apply Qle_shift_div_r; [lra|].
  assert (inject_Z (Qfloor (p * 100 + (1 # 2))) <= inject_Z (Qfloor (q * 100 + (1 # 2))))
    as Hf.
  { rewrite <- Zle_Qle. apply Qfloor_resp_le. lra. }
  field_simplify. field_simplify in Hf. lra.
Qed.

(** A whole number of cents is its own rounding. *)
Lemma half_up_2dp_cents (q : Q) (k : Z) :
  q == inject_Z k / 100 -> half_up_2dp q == q.
Proof.
  intro E. unfold half_up_2dp.
  assert (Qfloor (q * 100 + (1 # 2)) = k) as ->.
  { apply Qfloor_unique; rewrite E; field_simplify; lra. }
  rewrite E. reflexivity.
Qed.

(** On a finite number the rounding idiom of the routes is half-up
    rounding to two decimals. *)
Lemma round2_exact (q : Q) : round2 (XFin q) = XFin (half_up_2dp q).
Proof. reflexivity. Qed.

Lemma Qsum_cons (a : Q) (l : list Q) : Qsum (a :: l) = a + Qsum l.
Proof. reflexivity. Qed.

Lemma Qsum_scaled (c : Q) (l : list Q) :
  Qsum (map (fun n => c * n) l) == c * Qsum l.
Proof.
  induction l as [|a l IH].
  - cbn. lra.
  - cbn [map]. rewrite !Qsum_cons, IH. lra.
Qed.

(** Rounding each term moves a sum by at most half a cent per term. *)
Lemma Qsum_rounded (xs gs : list Q) :
  Forall2 (fun x g => g == half_up_2dp x) xs gs ->
  Qabs (Qsum gs - Qsum xs) <= (1 # 200) * inject_Z (Z.of_nat (List.length xs)).
Proof.
  intro Hall. apply Qabs_Qle_condition.
  induction Hall as [|x g xs gs Hg Hall IH].
  - unfold Qsum. cbn [fold_right List.length Z.of_nat].
    change (inject_Z 0) with 0. split; lra.
  - rewrite !Qsum_cons. cbn [List.length].
    rewrite Nat2Z.inj_succ. unfold Z.succ. rewrite inject_Z_plus.
    change (inject_Z 1) with 1.
    destruct (half_up_2dp_bounds x) as [B1 B2]. rewrite Hg.
    destruct IH as [I1 I2]. split; lra.
Qed.

Lemma Qsum_ratio (t d : Q) (l : list Q) :
  ~ d == 0 -> Qsum (map (fun n => t * (n / d)) l) == t * (Qsum l / d).
Proof.
  intro Hd. induction l as [|a l IH].
  - cbn. field. exact Hd.
  - cbn [map]. rewrite !Qsum_cons, IH. field. exact Hd.
Qed.

(** [n || 0] on a finite number keeps its value. *)
Lemma exact_num_or (n : Q) :
  exists n', num_or (XFin n) (num_of_Z 0) = XFin n' /\ n' == n.
Proof.
  unfold num_or. cbn. unfold is_zero.
  destruct (Qeq_bool n 0) eqn:E; cbn.
  - exists (inject_Z 0). split; [reflexivity|].
    apply Qeq_bool_iff in E. rewrite E. reflexivity.
  - exists n. split; reflexivity.
Qed.

(** The [reduce] over finite share counts is their sum. *)
Lemma exact_total_shares (shs : list (@shareholder xnum)) :
  forall (shares : list Q) (a : Q),
    map sh_num_shares shs = map XFin shares ->
    exists s,
      fold_left (fun acc sh =>
                   (acc + num_or (sh_num_shares sh) (num_of_Z 0))%js)
                shs (XFin a) = XFin s
      /\ s == a + Qsum shares.
Proof.
  induction shs as [|sh shs IH]; intros [|n shares] a E; try discriminate.
  - exists a. split; [reflexivity|]. cbn. lra.
  - cbn [map] in E. injection E as En E.
    cbn [fold_left]. rewrite En.
    destruct (exact_num_or n) as [n' [-> Hn']].
    cbn [js_add number add].
    destruct (IH shares (a + n') E) as [s [Hs Es]].
    exists s. split; [exact Hs|]. rewrite Es, Qsum_cons, Hn'. lra.
Qed.

(** One gross amount of the bulk payout, on finite numbers. *)
Lemma exact_share_gross (t n d : Q) :
  ~ d == 0 ->
  exists g,
    round2 (XFin t * (num_or (XFin n) (num_of_Z 0) / XFin d))%js = XFin g
    /\ g == half_up_2dp (t * (n / d)).
Proof.
  intro Hd. destruct (exact_num_or n) as [n' [-> Hn']].
  assert (is_zero d = false) as Hz.
  { unfold is_zero. destruct (Qeq_bool d 0) eqn:E; [|reflexivity].
    apply Qeq_bool_iff in E. contradiction. }
  cbn [js_div js_mul number div mul]. rewrite Hz.
  rewrite round2_exact. eexists. split; [reflexivity|].
  rewrite (half_up_2dp_comp (t * (n' / d)) (t * (n / d))); [reflexivity|].
  rewrite Hn'. reflexivity.
Qed.

Lemma exact_gross_list (now month pm : string) (t d : Q) (gst : xnum) :
  ~ d == 0 ->
  forall (shs : list (@shareholder xnum)) (new : list dividend) (shares : list Q),
    Forall2 (share_payout now month pm (XFin t) (XFin d) gst) shs new ->
    map sh_num_shares shs = map XFin shares ->
    exists gs,
      map dv_gross_amount new = map XFin gs
      /\ Forall2 (fun x g => g == half_up_2dp x)
                 (map (fun n => t * (n / d)) shares) gs.
Proof.
  intros Hd shs new shares Hall. revert shares.
  induction Hall as [|sh dv shs new Hp Hall IH]; intros [|n shares] E;
    try discriminate.
  - exists []. split; [reflexivity|constructor].
  - cbn [map] in E. injection E as En E.
    destruct (IH shares E) as [gs [Hgs Hf]].
    destruct Hp as [_ [_ [Hg _]]]. rewrite En in Hg.
    destruct (exact_share_gross t n d Hd) as [g [Eg Hg']].
    exists (g :: gs). cbn [map]. split.
    + rewrite Hg, Eg, Hgs. reflexivity.
    + constructor; assumption.
Qed.

Lemma rounded_shares (t d d' : Q) (shares gs : list Q) :
  d == d' ->
  Forall2 (fun x g => g == half_up_2dp x) (map (fun n => t * (n / d)) shares) gs ->
  Forall2 (fun n g => g == half_up_2dp (t * (n / d'))) shares gs.
Proof.
  intro E. revert gs.
  induction shares as [|n shares IH]; intros gs Hr; cbn [map] in Hr;
    inversion Hr as [|x g xs gs' Hg Hrest]; subst; constructor.
  - rewrite Hg.
    rewrite (half_up_2dp_comp (t * (n / d)) (t * (n / d'))); [reflexivity|].
    rewrite E. reflexivity.
  - apply IH. exact Hrest.
Qed.

End ExactFacts.

(** ** Dividend allocator: the claims *)

Section AllocatorClaims.

Import Exact.



Lemma exact_gst (rate : option Q) :
  Math_max (num_of_Z 0) (Number_or_0 (option_map XFin rate)) = XFin (clamp0 rate).
Proof.
  destruct rate as [r|]; [|reflexivity].
  cbn [option_map Number_or_0 clamp0]. unfold num_or.
  cbn [ToBoolean number truthy]. unfold is_zero.
  destruct (Qeq_bool r 0) eqn:E0; cbn [negb].
  - apply Qeq_bool_iff in E0.
    assert (Qle_bool r 0 = true) as -> by (apply Qle_bool_iff; rewrite E0; apply Qle_refl).
    reflexivity.
  - cbn [Math_max number max lt num_of_Z].
    change (inject_Z 0) with 0%Q.
    destruct (Qle_bool r 0); reflexivity.
Qed.

Lemma clamp0_nonneg (rate : option Q) : (0 <= clamp0 rate)%Q.
Proof.
  destruct rate as [r|]; cbn; [|apply Qle_refl].
  destruct (Qle_bool r 0) eqn:E; [apply Qle_refl|].
  q_reflect. lra.
Qed.





(** On doubles the two bounds hold on a grid of everyday inputs: every
    gross from 0.01 to 20.00 at the GST rates 0, 5, 12, 18 and 28, and
    every choice of 1 to 6 shares for three shareholders at the totals
    0.01, 100.00, 999.99, 1234.57 and 1000000.00. *)
Lemma bounds_on_doubles_grid :
  forallb (fun c => forallb (single_payout_ok c) [0; 5; 12; 18; 28]) (upto 2000)
    = true
  /\ forallb (fun a => forallb (fun b => forallb (fun c =>
       forallb (bulk_payout_ok a b c) [1; 10000; 99999; 123457; 100000000])
       (upto 6)) (upto 6)) (upto 6)
     = true.
Proof.
  split; vm_compute; reflexivity.
Qed.

End AllocatorClaims.

(** ** Pagination of the agreement PDF *)

Section PdfFacts.

Import Pdf.
Local Open Scope Q_scope.

Context {num : Type} `{JsNumber num}.
Variables pageW pageH : Q.
Variable doc_y_after_text : Q -> Q -> Q -> string -> Q -> Q.
Variable buffer_ok : string -> bool.
Variable image_ok : string -> bool.
Variable String_of_num : num -> string.
Variable toLocaleString : num -> string.
Variable toFixed3 : num -> string.
Variable toLocaleDateString : string -> string.
Variable year : string.
Variable padded_id : positive -> string.
Variable s : @shareholder num.

Local Abbreviation ensureSpace := (ensureSpace pageH year padded_id s).
Local Abbreviation newPage := (newPage year padded_id s).
Local Abbreviation drawFooter := (drawFooter year padded_id s).
Local Abbreviation drawHeader := (drawHeader s).
Local Abbreviation section := (section pageH year padded_id s).
Local Abbreviation field := (field pageH year padded_id s).
Local Abbreviation termBlock :=
  (termBlock pageW pageH doc_y_after_text year padded_id s).
Local Abbreviation photo := (photo buffer_ok image_ok s).
Local Abbreviation investor_signature := (investor_signature buffer_ok image_ok s).
Local Abbreviation pages_ok := (pages_ok year padded_id s).
Local Abbreviation page_ok := (page_ok year padded_id s).
Local Abbreviation body_or_footer := (body_or_footer year padded_id s).
Local Abbreviation render :=
  (render_agreement pageW pageH doc_y_after_text buffer_ok image_ok
     String_of_num toLocaleString toFixed3 toLocaleDateString year padded_id s).
Local Abbreviation BODY_BOT := (BODY_BOT pageH).
Local Abbreviation agreementId := (agreementId padded_id s).

(** *** What [ensureSpace] does *)

Lemma ensureSpace_fits (n : Q) (st : pdf_state) :
  cy st + n <= BODY_BOT -> ensureSpace n st = st.
Proof.
  intro Hfit. unfold Pdf.ensureSpace.
  apply Qle_bool_iff in Hfit. rewrite Hfit. reflexivity.
Qed.

Lemma ensureSpace_breaks (n : Q) (st : pdf_state) :
  BODY_BOT < cy st + n -> ensureSpace n st = newPage st.
Proof.
  intro Hover. unfold Pdf.ensureSpace.
  destruct (Qle_bool (cy st + n) BODY_BOT) eqn:E; [|reflexivity].
  apply Qle_bool_iff in E. lra.
Qed.

Lemma ensureSpace_cases (n : Q) (st : pdf_state) :
  ensureSpace n st = st \/ ensureSpace n st = newPage st.
Proof.
  unfold Pdf.ensureSpace. destruct (Qle_bool _ _); auto.
Qed.

(** *** Pages stay well formed *)

Lemma page_ok_snoc (k : nat) (pg : list drawing) (d : drawing) :
  page_ok k pg -> body_or_footer k d -> page_ok k (pg ++ [d])%list.
Proof.
  intros [rest [-> Hrest]] Hd. exists (rest ++ [d])%list. split; [reflexivity|].
  apply Forall_app. split; [exact Hrest|]. constructor; [exact Hd|constructor].
Qed.

(** In a well-formed document [pageNum] is the number of pages and page
    [k] is the [k]-th page. *)
Lemma pages_ok_numbered (st : pdf_state) :
  pages_ok st ->
  List.length (pages st) = pageNum st
  /\ forall k pg, nth_error (pages st) k = Some pg -> page_ok (S k) pg.
Proof.
  intros [Hn [Hf Hp]]. unfold pages. split.
  - rewrite length_app, Hn. cbn [List.length]. lia.
  - intros k pg Hk.
    destruct (Nat.lt_ge_cases k (List.length (finished st))) as [Hlt|Hge].
    + rewrite nth_error_app1 in Hk by exact Hlt. apply Hf. exact Hk.
    + rewrite nth_error_app2 in Hk by exact Hge.
      destruct (k - List.length (finished st))%nat as [|j] eqn:Ej.
      * cbn [nth_error] in Hk. injection Hk as <-.
        replace (S k) with (pageNum st) by lia. exact Hp.
      * cbn [nth_error] in Hk. destruct j; discriminate.
Qed.

Lemma pages_ok_draw (d : drawing) (st : pdf_state) :
  body_or_footer (pageNum st) d -> pages_ok st -> pages_ok (draw d st).
Proof.
  intros Hd [Hn [Hf Hp]]. split; [exact Hn|]. split; [exact Hf|].
  apply page_ok_snoc; assumption.
Qed.

Lemma pages_ok_drawFooter (st : pdf_state) : pages_ok st -> pages_ok (drawFooter st).
Proof. apply pages_ok_draw. cbn. auto. Qed.

Lemma pages_ok_set_cy (y : Q) (st : pdf_state) : pages_ok st -> pages_ok (set_cy y st).
Proof. intro Hp. exact Hp. Qed.

Lemma pages_ok_advance (n : Q) (st : pdf_state) : pages_ok st -> pages_ok (advance n st).
Proof. intro Hp. exact Hp. Qed.

Lemma pages_ok_set_rowIdx (n : nat) (st : pdf_state) :
  pages_ok st -> pages_ok (set_rowIdx n st).
Proof. intro Hp. exact Hp. Qed.

Lemma pages_ok_newPage (st : pdf_state) : pages_ok st -> pages_ok (newPage st).
Proof.
  intros [Hn [Hf Hp]]. unfold Pdf.pages_ok. cbn.
  split; [rewrite length_app; cbn; lia|]. split.
  - intros k pg Hk.
    destruct (Nat.lt_ge_cases k (List.length (finished st))) as [Hlt|Hge].
    + rewrite nth_error_app1 in Hk by exact Hlt. apply Hf. exact Hk.
    + rewrite nth_error_app2 in Hk by exact Hge.
      destruct (k - List.length (finished st))%nat as [|j] eqn:Ej.
      * cbn in Hk. injection Hk as <-.
        replace (S k) with (pageNum st) by lia.
        apply page_ok_snoc; [exact Hp|]. cbn. auto.
      * cbn in Hk. destruct j; discriminate.
  - exists []. split; [reflexivity|constructor].
Qed.

Lemma pages_ok_ensureSpace (n : Q) (st : pdf_state) :
  pages_ok st -> pages_ok (ensureSpace n st).
Proof.
  intro Hp. destruct (ensureSpace_cases n st) as [-> | ->];
    [exact Hp|apply pages_ok_newPage; exact Hp].
Qed.

Lemma pages_ok_block (what : string) (y h : Q) (st : pdf_state) :
  pages_ok st -> pages_ok (draw (Block what y h) st).
Proof. apply pages_ok_draw. exact I. Qed.

Lemma pages_ok_text (text : string) (y : Q) (st : pdf_state) :
  pages_ok st -> pages_ok (draw (TextAt text y) st).
Proof. apply pages_ok_draw. exact I. Qed.

Lemma pages_ok_section (title : string) (st : pdf_state) :
  pages_ok st -> pages_ok (section title st).
Proof.
  intro Hp. unfold Pdf.section.
  apply pages_ok_advance, pages_ok_text, pages_ok_block, pages_ok_ensureSpace.
  exact Hp.
Qed.

Lemma pages_ok_field (label value : string) (st : pdf_state) :
  pages_ok st -> pages_ok (field label value st).
Proof.
  intro Hp. unfold Pdf.field.
  apply pages_ok_set_rowIdx, pages_ok_advance, pages_ok_text, pages_ok_text.
  destruct (Nat.even _);
    [apply pages_ok_block|]; apply pages_ok_ensureSpace; exact Hp.
Qed.

Lemma pages_ok_termBlock (n title body : string) (st : pdf_state) :
  pages_ok st -> pages_ok (termBlock n title body st).
Proof.
  intro Hp. unfold Pdf.termBlock.
  apply pages_ok_set_cy, pages_ok_text, pages_ok_advance, pages_ok_text,
    pages_ok_block, pages_ok_ensureSpace.
  exact Hp.
Qed.

Lemma pages_ok_photo (st : pdf_state) : pages_ok st -> pages_ok (photo st).
Proof.
  intro Hp. unfold Pdf.photo.
  destruct (sh_photo_data s) as [data|]; [|apply pages_ok_advance; exact Hp].
  destruct (_ && _); [|apply pages_ok_advance; exact Hp].
  destruct (buffer_ok data); [|apply pages_ok_advance; exact Hp].
  destruct (image_ok data); apply pages_ok_advance;
    repeat apply pages_ok_block; exact Hp.
Qed.

Lemma pages_ok_investor_signature (st : pdf_state) :
  pages_ok st -> pages_ok (investor_signature st).
Proof.
  intro Hp. unfold Pdf.investor_signature.
  destruct (str_or_null (sh_signature_data s)) as [data|];
    [|apply pages_ok_text; exact Hp].
  destruct (negb _); [apply pages_ok_text; exact Hp|].
  destruct (_ && _); [apply pages_ok_block|]; exact Hp.
Qed.

Local Abbreviation approved_on :=
  (approved_on pageH toLocaleDateString year padded_id s).
Local Abbreviation declaration :=
  (declaration pageW pageH doc_y_after_text year padded_id s).
Local Abbreviation notice := (notice pageH year padded_id s).
Local Abbreviation signatures := (signatures pageH buffer_ok image_ok year padded_id s).
Local Abbreviation contact := (contact pageH year padded_id s).

Lemma pages_ok_meta_strip (st : pdf_state) : pages_ok st -> pages_ok (meta_strip st).
Proof.
  intro Hp. unfold meta_strip. apply pages_ok_advance, pages_ok_block. exact Hp.
Qed.

Lemma pages_ok_approved_on (st : pdf_state) : pages_ok st -> pages_ok (approved_on st).
Proof.
  intro Hp. unfold Pdf.approved_on.
  destruct (str_or_null (sh_approved_at s)); [apply pages_ok_field|]; exact Hp.
Qed.

Lemma pages_ok_declaration (st : pdf_state) : pages_ok st -> pages_ok (declaration st).
Proof.
  intro Hp. unfold Pdf.declaration.
  apply pages_ok_set_cy, pages_ok_text, pages_ok_ensureSpace. exact Hp.
Qed.

Lemma pages_ok_notice (st : pdf_state) : pages_ok st -> pages_ok (notice st).
Proof.
  intro Hp. unfold Pdf.notice.
  apply pages_ok_advance, pages_ok_block, pages_ok_ensureSpace. exact Hp.
Qed.

Lemma pages_ok_signatures (st : pdf_state) : pages_ok st -> pages_ok (signatures st).
Proof.
  intro Hp. unfold Pdf.signatures.
  apply pages_ok_advance, pages_ok_block, pages_ok_investor_signature,
    pages_ok_block, pages_ok_advance, pages_ok_section, pages_ok_ensureSpace.
  exact Hp.
Qed.

Lemma pages_ok_contact (st : pdf_state) : pages_ok st -> pages_ok (contact st).
Proof.
  intro Hp. unfold Pdf.contact.
  apply pages_ok_advance, pages_ok_text, pages_ok_ensureSpace. exact Hp.
Qed.

(** One step back through the route: the property of the state after a
    block follows from the property before it. *)
Ltac pages_ok_step :=
  lazymatch goal with
  | |- Pdf.pages_ok _ _ _ (Pdf.drawFooter _ _ _ _) =>
      apply pages_ok_drawFooter
  | |- Pdf.pages_ok _ _ _ (Pdf.contact _ _ _ _ _) =>
      apply pages_ok_contact
  | |- Pdf.pages_ok _ _ _ (Pdf.signatures _ _ _ _ _ _ _) =>
      apply pages_ok_signatures
  | |- Pdf.pages_ok _ _ _ (Pdf.notice _ _ _ _ _) =>
      apply pages_ok_notice
  | |- Pdf.pages_ok _ _ _ (Pdf.declaration _ _ _ _ _ _ _) =>
      apply pages_ok_declaration
  | |- Pdf.pages_ok _ _ _ (Pdf.advance _ _) =>
      apply pages_ok_advance
  | |- Pdf.pages_ok _ _ _ (Pdf.set_rowIdx _ _) =>
      apply pages_ok_set_rowIdx
  | |- Pdf.pages_ok _ _ _ (Pdf.section _ _ _ _ _ _) =>
      apply pages_ok_section
  | |- Pdf.pages_ok _ _ _ (Pdf.termBlock _ _ _ _ _ _ _ _ _ _) =>
      apply pages_ok_termBlock
  | |- Pdf.pages_ok _ _ _ (Pdf.approved_on _ _ _ _ _ _) =>
      apply pages_ok_approved_on
  | |- Pdf.pages_ok _ _ _ (Pdf.field _ _ _ _ _ _ _) =>
      apply pages_ok_field
  end.

Local Abbreviation first_blocks := (first_blocks buffer_ok image_ok year padded_id s).

Lemma pages_ok_first_blocks : pages_ok first_blocks.
Proof.
  unfold Pdf.first_blocks. apply pages_ok_photo, pages_ok_meta_strip.
  unfold Pdf.pages_ok. cbn. split; [reflexivity|]. split.
  - intros [|k] pg Hk; discriminate.
  - exists []. split; [reflexivity|constructor].
Qed.

Lemma pages_ok_render : pages_ok render.
Proof.
  unfold render_agreement. cbv zeta.
  repeat pages_ok_step.
  apply pages_ok_first_blocks.
Qed.

(** *** A lower bound on the cursor *)

Lemma below_draw (b : Q) (d : drawing) (st : pdf_state) :
  below b st -> below b (draw d st).
Proof. intro Hb. exact Hb. Qed.

Lemma below_set_rowIdx (b : Q) (n : nat) (st : pdf_state) :
  below b st -> below b (set_rowIdx n st).
Proof. intro Hb. exact Hb. Qed.

Lemma below_drawFooter (b : Q) (st : pdf_state) :
  below b st -> below b (drawFooter st).
Proof. intro Hb. exact Hb. Qed.

Lemma below_advance (b n : Q) (st : pdf_state) :
  below b st -> below (b + n) (advance n st).
Proof.
  intros [H1 [H2|Hc]]; split; cbn; auto. right. lra.
Qed.

Lemma below_set_cy (b b' y : Q) (st : pdf_state) :
  below b st -> (b <= cy st -> b' <= y) -> below b' (set_cy y st).
Proof.
  intros [H1 [H2|Hc]] Hy; split; cbn; auto.
Qed.

Lemma below_weaken (b b' : Q) (st : pdf_state) :
  b' <= b -> below b st -> below b' st.
Proof.
  intros Hle [H1 [H2|Hc]]; split; auto. right. lra.
Qed.

Lemma below_newPage (b : Q) (st : pdf_state) :
  (1 <= pageNum st)%nat -> below b (newPage st).
Proof.
  intro H1. split; cbn; [lia|left; lia].
Qed.

Lemma below_ensureSpace (b n : Q) (st : pdf_state) :
  below b st -> below b (ensureSpace n st).
Proof.
  intro Hb. destruct (ensureSpace_cases n st) as [-> | ->]; [exact Hb|].
  apply below_newPage. apply Hb.
Qed.

(** A block that cannot fit below [b] forces a second page. *)
Lemma below_ensureSpace_break (b n : Q) (st : pdf_state) :
  below b st -> BODY_BOT < b + n -> (2 <= pageNum (ensureSpace n st))%nat.
Proof.
  intros [H1 [H2|Hc]] Hover.
  - destruct (ensureSpace_cases n st) as [-> | ->]; [exact H2|]. cbn. lia.
  - rewrite ensureSpace_breaks by lra. cbn. lia.
Qed.

Lemma below_section (b : Q) (title : string) (st : pdf_state) :
  below b st -> below (b + 24) (section title st).
Proof.
  intro Hb. unfold Pdf.section.
  apply below_advance, below_draw, below_draw, below_ensureSpace. exact Hb.
Qed.

Lemma actualH_at_least (value : string) : 17 <= actualH value.
Proof.
  unfold actualH. destruct (1 <? _)%nat; [|lra].
  assert (0 <= inject_Z (Z.of_nat (ceil_div (String.length (valStr value)) 55 - 1)))
    as Hn.
  { change 0 with (inject_Z 0). rewrite <- Zle_Qle. lia. }
  lra.
Qed.

(** A value of 300 characters or more takes at least six lines. *)
Lemma actualH_long (value : string) :
  (300 <= String.length value)%nat -> 72 <= actualH value.
Proof.
  intro Hlen. unfold actualH, valStr.
  destruct (String.eqb_spec value "") as [->|_]; [cbn in Hlen; lia|].
  assert (6 <= ceil_div (String.length value) 55)%nat as H6.
  { unfold ceil_div. change (55 - 1)%nat with 54%nat.
    apply (Nat.div_le_lower_bound _ 55 6); lia. }
  destruct (Nat.ltb_spec 1 (ceil_div (String.length value) 55)) as [_|Hlt]; [|lia].
  assert (5 <= inject_Z (Z.of_nat (ceil_div (String.length value) 55 - 1))) as Hn.
  { change 5 with (inject_Z 5). rewrite <- Zle_Qle. lia. }
  lra.
Qed.

Lemma below_field_by (h b : Q) (label value : string) (st : pdf_state) :
  h <= actualH value -> below b st -> below (b + h) (field label value st).
Proof.
  intros Hh Hb. unfold Pdf.field.
  apply below_set_rowIdx.
  apply (below_weaken (b + actualH value)); [lra|].
  apply below_advance, below_draw, below_draw.
  destruct (Nat.even _); [apply below_draw|]; apply below_ensureSpace; exact Hb.
Qed.

Lemma below_field (b : Q) (label value : string) (st : pdf_state) :
  below b st -> below (b + 17) (field label value st).
Proof. apply below_field_by, actualH_at_least. Qed.

Lemma below_field_long (b : Q) (label value : string) (st : pdf_state) :
  (300 <= String.length value)%nat ->
  below b st -> below (b + 72) (field label value st).
Proof. intro Hlen. apply below_field_by, actualH_long. exact Hlen. Qed.

Lemma below_approved_on (b : Q) (st : pdf_state) :
  below b st -> below b (approved_on st).
Proof.
  intro Hb. unfold Pdf.approved_on.
  destruct (str_or_null (sh_approved_at s)); [|exact Hb].
  apply (below_weaken (b + 17)); [lra|]. apply below_field. exact Hb.
Qed.

Lemma below_meta_strip (b : Q) (st : pdf_state) :
  below b st -> below (b + 32) (meta_strip st).
Proof.
  intro Hb. unfold meta_strip. apply below_advance, below_draw. exact Hb.
Qed.

Lemma below_photo (b : Q) (st : pdf_state) : below b st -> below (b + 6) (photo st).
Proof.
  intro Hb. unfold Pdf.photo.
  destruct (sh_photo_data s) as [data|]; [|apply below_advance; exact Hb].
  destruct (_ && _); [|apply below_advance; exact Hb].
  destruct (buffer_ok data); [|apply below_advance; exact Hb].
  destruct (image_ok data).
  - apply (below_weaken (b + (90 + 18))); [lra|].
    apply below_advance, below_draw, below_draw. exact Hb.
  - apply below_advance, below_draw. exact Hb.
Qed.

Lemma below_investor_signature (b : Q) (st : pdf_state) :
  below b st -> below b (investor_signature st).
Proof.
  intro Hb. unfold Pdf.investor_signature.
  destruct (str_or_null (sh_signature_data s)) as [data|];
    [|apply below_draw; exact Hb].
  destruct (negb _); [apply below_draw; exact Hb|].
  destruct (_ && _); [apply below_draw|]; exact Hb.
Qed.

Lemma below_first_blocks : below (BODY_TOP + 32 + 6) first_blocks.
Proof.
  unfold Pdf.first_blocks. apply below_photo, below_meta_strip.
  split; cbn; [lia|right; lra].
Qed.

(** The strip and the photo are drawn on page 1 and end at 220 points at
    most. *)
Lemma first_blocks_fit :
  pageNum first_blocks = 1%nat /\ finished first_blocks = []
  /\ cy first_blocks <= 220.
Proof.
  unfold Pdf.first_blocks, Pdf.photo, meta_strip.
  destruct (sh_photo_data s) as [data|];
    [destruct (_ && _);
       [destruct (buffer_ok data); [destruct (image_ok data)|]|]|];
    repeat split; apply Qle_bool_imp_le; reflexivity.
Qed.

Section TextTakesALine.

Hypothesis Htext : text_takes_a_line doc_y_after_text.

Lemma below_termBlock (b : Q) (n title body : string) (st : pdf_state) :
  body <> "" ->
  below b st -> below (b + 16 + (15 # 2) + 5) (termBlock n title body st).
Proof.
  intros Hbody Hb. unfold Pdf.termBlock. cbv zeta.
  apply (below_set_cy (b + 16)).
  - apply below_draw, below_advance, below_draw, below_draw, below_ensureSpace.
    exact Hb.
  - intro Hc.
    match goal with
    | |- _ <= doc_y_after_text ?a ?g ?w ?t ?y + _ =>
        pose proof (Htext a g w t y Hbody)
    end.
    lra.
Qed.

Lemma below_declaration (b : Q) (st : pdf_state) :
  below b st -> below (b + 8 + 8) (declaration st).
Proof.
  intro Hb. unfold Pdf.declaration. cbv zeta.
  apply (below_set_cy b).
  - apply below_draw, below_ensureSpace. exact Hb.
  - intro Hc.
    match goal with
    | |- _ <= doc_y_after_text ?a ?g ?w ?t ?y + _ =>
        assert (t <> "") as Hne by (unfold declaration_text; discriminate);
        pose proof (Htext a g w t y Hne)
    end.
    lra.
Qed.

Lemma below_notice (b : Q) (st : pdf_state) :
  below b st -> below (b + 26) (notice st).
Proof.
  intro Hb. unfold Pdf.notice.
  apply below_advance, below_draw, below_ensureSpace. exact Hb.
Qed.

Lemma below_signatures (b : Q) (st : pdf_state) :
  below b st -> below (b + 24 + 6 + (90 + 10)) (signatures st).
Proof.
  intro Hb. unfold Pdf.signatures.
  apply below_advance, below_draw, below_investor_signature, below_draw,
    below_advance, below_section, below_ensureSpace.
  exact Hb.
Qed.

Ltac below_step :=
  lazymatch goal with
  | |- Pdf.below _ (Pdf.signatures _ _ _ _ _ _ _) =>
      eapply below_signatures
  | |- Pdf.below _ (Pdf.notice _ _ _ _ _) =>
      eapply below_notice
  | |- Pdf.below _ (Pdf.declaration _ _ _ _ _ _ _) =>
      eapply below_declaration
  | |- Pdf.below _ (Pdf.advance _ _) =>
      eapply below_advance
  | |- Pdf.below _ (Pdf.set_rowIdx _ _) =>
      eapply below_set_rowIdx
  | |- Pdf.below _ (Pdf.section _ _ _ _ _ _) =>
      eapply below_section
  | |- Pdf.below _ (Pdf.termBlock _ _ _ _ _ _ _ _ _ _) =>
      eapply below_termBlock; [discriminate|]
  | |- Pdf.below _ (Pdf.approved_on _ _ _ _ _ _) =>
      eapply below_approved_on
  | |- Pdf.below _ (Pdf.field _ _ _ _ _ (sh_address _) _) =>
      eapply below_field_long; [eassumption|]
  | |- Pdf.below _ (Pdf.field _ _ _ _ _ _ _) =>
      eapply below_field
  end.

Lemma pageNum_contact (st : pdf_state) :
  pageNum (drawFooter (contact st)) = pageNum (ensureSpace 16 st).
Proof. reflexivity. Qed.

(** With an address of 300 characters the blocks before the office
    line no longer fit on one A4 page. *)
Lemma render_long_address_two_pages :
  pageH <= 842 -> (300 <= String.length (sh_address s))%nat ->
  (2 <= pageNum render)%nat.
Proof.
  intros Hpage Haddr. unfold render_agreement. cbv zeta.
  rewrite pageNum_contact.
  eapply below_ensureSpace_break.
  - repeat below_step. apply below_first_blocks.
  - unfold BODY_BOT, BODY_TOP, FOOTER_H, HEADER_H. lra.
Qed.

End TextTakesALine.


End PdfFacts.

(** ** The statements at concrete inputs *)


Lemma put_admin_agreement_sets_approved_at_witness :
  map sh_status (shareholders with_pending) = ["APPROVED"; "PENDING"]
  /\ exists asha,
       nth_error
         (shareholders
            (fst (put_admin_agreement "2026-01-06T08:00:00.000Z" 2 "APPROVED"
                    with_pending))) 1
       = Some asha
       /\ sh_status asha = "APPROVED"
       /\ sh_approved_at asha = Some "2026-01-06T08:00:00.000Z"
       /\ sh_username asha = "asha".
Proof.
  split; [reflexivity|].
  edestruct (put_admin_agreement_sets_approved_at
               "2026-01-06T08:00:00.000Z" 2 "APPROVED" with_pending 1)
    as [_ [[asha [Hn [Hs [Ha [_ Hsame]]]]] _]].
  - reflexivity.
  - reflexivity.
  - exists asha. split; [exact Hn|]. split; [exact Hs|].
    split; [apply Ha; reflexivity|].
    destruct Hsame as [_ [_ [_ [_ [_ [_ [_ [_ [_ [Hu _]]]]]]]]]].
    rewrite Hu. reflexivity.
Defined.



Lemma put_admin_stage_partial_update_witness :
  put_admin_stage 2 (mkStageUpdateBody None None None None) seeded
    = (seeded, res_status_json 400 (Failure "Nothing to update"))
  /\ post_admin_stages
       (mkStageCreateBody (Some (B64.of_Z 4)) None (Some (B64.of_Z 1728))
          None None None None) seeded
     = (seeded, res_status_json 400
                  (Failure "stage, name, price_per_share required"))
  /\ exists r',
       nth_error (investment_stages sold_out) 1 = Some r'
       /\ st_status r' = "SOLD_OUT"
       /\ st_price_per_share r' = B64.of_Z 1200
       /\ st_name r' = "Current Price"
       /\ st_shares_available r' = B64.of_Z 100.
Proof.
  split; [|split].
  - apply (put_admin_stage_partial_update 2 (mkStageUpdateBody None None None None)
             (mkStageCreateBody None None None None None None None) seeded);
      reflexivity.
  - apply (put_admin_stage_partial_update 2 (mkStageUpdateBody None None None None)
             (mkStageCreateBody (Some (B64.of_Z 4)) None (Some (B64.of_Z 1728))
                None None None None) seeded).
    right. left. reflexivity.
  - destruct (put_admin_stage_partial_update 2
                (mkStageUpdateBody (Some "SOLD_OUT") None None None)
                (mkStageCreateBody None None None None None None None) seeded)
      as [_ [_ Hupd]].
    destruct Hupd as [_ [Hrow _]]; [left; discriminate|].
    edestruct (Hrow 1%nat) as [r' [Hn [Hs [Hp [Hna [Hsa _]]]]]].
    + reflexivity.
    + reflexivity.
    + exists r'. split; [exact Hn|]. split; [exact Hs|]. split; [exact Hp|].
      split; [exact Hna|exact Hsa].
Defined.



Section AllocatorWitnesses.

Import Exact.




End AllocatorWitnesses.

(** ** The routes together: schema, start-up and accounts *)

(** *** Keys of tables kept as lists *)

Lemma NoDup_map_snoc {A B : Type} (f : A -> B) (l : list A) (x : A) :
  NoDup (map f l) -> ~ In (f x) (map f l) -> NoDup (map f (l ++ [x])%list).
Proof.
  intros Hnd Hnew. rewrite map_app. cbn [map].
  induction (map f l) as [|b m IH]; cbn [app].
  - constructor; [intros []|constructor].
  - inversion Hnd as [|? ? Hb Hm]; subst. constructor.
    + intro Hin. apply in_app_or in Hin. destruct Hin as [Hin|[E|[]]].
      * exact (Hb Hin).
      * apply Hnew. left. symmetry. exact E.
    + apply IH; [exact Hm|]. intro Hin. apply Hnew. right. exact Hin.
Qed.

(** Deleting rows keeps a column unique. *)
Lemma NoDup_map_filter {Row Key : Type} (key : Row -> Key) (kept : Row -> bool) :
  forall rows : list Row,
    NoDup (map key rows) -> NoDup (map key (filter kept rows)).
Proof.
  intros rows Hnd. induction rows as [|a rows IH]; cbn [filter map] in *.
  - constructor.
  - inversion Hnd as [|? ? Ha Hl]; subst.
    destruct (kept a); cbn [map]; [|exact (IH Hl)].
    constructor; [|exact (IH Hl)].
    intro Hin. apply Ha. apply in_map_iff in Hin.
    destruct Hin as [y [Ey Hy]]. apply filter_In in Hy.
    apply in_map_iff. exists y. tauto.
Qed.

Lemma existsb_key_false {A : Type} (f : A -> string) (k : string) (l : list A) :
  existsb (fun r => String.eqb (f r) k) l = false -> ~ In k (map f l).
Proof.
  intros Hex Hin. apply in_map_iff in Hin. destruct Hin as [r [Er Hr]].
  assert (existsb (fun r => String.eqb (f r) k) l = true) as Ht.
  { apply existsb_exists. exists r. split; [exact Hr|].
    apply String.eqb_eq. exact Er. }
  congruence.
Qed.

Lemma counter_fresh {A : Type} (key : A -> positive) (next : positive) (l : list A) :
  Forall (fun r => (key r < next)%positive) l -> ~ In next (map key l).
Proof.
  intros Hall Hin. apply in_map_iff in Hin. destruct Hin as [r [Er Hr]].
  rewrite Forall_forall in Hall. specialize (Hall r Hr). lia.
Qed.

Lemma counter_succ {A : Type} (key : A -> positive) (next : positive)
  (l : list A) (x : A) :
  Forall (fun r => (key r < next)%positive) l -> key x = next ->
  Forall (fun r => (key r < Pos.succ next)%positive) (l ++ [x])%list.
Proof.
  intros Hall Hx. apply Forall_app. split.
  - eapply Forall_impl; [|exact Hall]. cbn. intros. lia.
  - constructor; [lia|constructor].
Qed.

Lemma map_update_key {A B : Type} (key : A -> B) (p : A -> bool) (g : A -> A)
  (l : list A) :
  (forall r, key (g r) = key r) ->
  map key (map (fun r => if p r then g r else r) l) = map key l.
Proof.
  intro Hg. rewrite map_map. apply map_ext. intro r.
  destruct (p r); [apply Hg|reflexivity].
Qed.

Lemma map_update_none {A : Type} (p : A -> bool) (g : A -> A) (l : list A) :
  (forall r, In r l -> p r = false) ->
  map (fun r => if p r then g r else r) l = l.
Proof.
  intro Hp. rewrite <- (map_id l) at 2. apply map_ext_in.
  intros r Hr. rewrite (Hp r Hr). reflexivity.
Qed.

Section AdministrationFacts.

Context {num : Type} `{JsNumber num}.
Variable bcrypt_hash : string -> string.
Variable bcrypt_compare : string -> string -> bool.

(** *** The schema is kept by each statement *)

Lemma insert_shareholder_schema (db : @database num) (row : positive -> shareholder) :
  schema_holds db ->
  (forall id, sh_id (row id) = id) ->
  ~ In (sh_username (row (next_shareholder_id db))) (map sh_username (shareholders db)) ->
  ~ In (sh_email (row (next_shareholder_id db))) (map sh_email (shareholders db)) ->
  schema_holds (insert_shareholder db row).
Proof.
  intros (Hid & Hu & He & Hd & Hs & Hn & Hdn & Hsn & Hown) Hrow Hnu Hne.
  unfold schema_holds, insert_shareholder.
  cbn [shareholders dividend_history investment_stages next_shareholder_id
       next_dividend_id next_stage_id].
  repeat split; try assumption.
  - apply NoDup_map_snoc; [exact Hid|]. rewrite Hrow.
    apply counter_fresh. exact Hn.
  - apply NoDup_map_snoc; assumption.
  - apply NoDup_map_snoc; assumption.
  - apply counter_succ; [exact Hn|apply Hrow].
  - intros d Hin. destruct (Hown d Hin) as [sh [Hsh Eid]].
    exists sh. split; [|exact Eid].
    cbn [shareholders]. apply in_or_app. left. exact Hsh.
Qed.

Lemma with_shareholders_schema (db : @database num) (l : list shareholder) :
  schema_holds db ->
  map sh_id l = map sh_id (shareholders db) ->
  NoDup (map sh_username l) -> NoDup (map sh_email l) ->
  schema_holds (with_shareholders db l).
Proof.
  intros (Hid & Hu & He & Hd & Hs & Hn & Hdn & Hsn & Hown) Eid Hu' He'.
  unfold schema_holds, with_shareholders.
  cbn [shareholders dividend_history investment_stages next_shareholder_id
       next_dividend_id next_stage_id].
  repeat split; try assumption.
  - rewrite Eid. exact Hid.
  - apply Forall_forall. intros r Hr.
    assert (In (sh_id r) (map sh_id (shareholders db))) as Hin.
    { rewrite <- Eid. apply in_map. exact Hr. }
    apply in_map_iff in Hin. destruct Hin as [r0 [E0 H0]].
    rewrite Forall_forall in Hn. rewrite <- E0. apply Hn. exact H0.
  - intros d Hin. destruct (Hown d Hin) as [sh [Hsh Esh]].
    assert (In (sh_id sh) (map sh_id l)) as Hl.
    { rewrite Eid. apply in_map. exact Hsh. }
    apply in_map_iff in Hl. destruct Hl as [sh' [E' H']].
    exists sh'. cbn [shareholders]. split; [exact H'|]. rewrite E'. exact Esh.
Qed.

Lemma insert_dividend_schema (now : string) (id : Z) (month : string)
  (gross gst net : num) (pm : string) (db : @database num) :
  schema_holds db ->
  (exists sh, In sh (shareholders db) /\ Z.pos (sh_id sh) = id) ->
  schema_holds (insert_dividend now id month gross gst net pm db).
Proof.
  intros (Hid & Hu & He & Hd & Hs & Hn & Hdn & Hsn & Hown) Hsh.
  unfold schema_holds, insert_dividend.
  cbn [shareholders dividend_history investment_stages next_shareholder_id
       next_dividend_id next_stage_id].
  repeat split; try assumption.
  - apply NoDup_map_snoc; [exact Hd|]. cbn [dv_id].
    apply counter_fresh. exact Hdn.
  - apply counter_succ; [exact Hdn|reflexivity].
  - intros d Hin. cbn [dividend_history] in Hin.
    apply in_app_or in Hin. destruct Hin as [Hin|[<-|[]]].
    + exact (Hown d Hin).
    + exact Hsh.
Qed.

Lemma insert_stage_schema (db : @database num) (row : positive -> investment_stage) :
  schema_holds db -> (forall id, st_id (row id) = id) ->
  schema_holds (insert_stage db row).
Proof.
  intros (Hid & Hu & He & Hd & Hs & Hn & Hdn & Hsn & Hown) Hrow.
  unfold schema_holds, insert_stage.
  cbn [shareholders dividend_history investment_stages next_shareholder_id
       next_dividend_id next_stage_id].
  repeat split; try assumption.
  - apply NoDup_map_snoc; [exact Hs|]. rewrite Hrow.
    apply counter_fresh. exact Hsn.
  - apply counter_succ; [exact Hsn|apply Hrow].
Qed.

Lemma with_stages_schema (db : @database num) (l : list investment_stage) :
  schema_holds db -> map st_id l = map st_id (investment_stages db) ->
  schema_holds (with_stages db l).
Proof.
  intros (Hid & Hu & He & Hd & Hs & Hn & Hdn & Hsn & Hown) Eid.
  unfold schema_holds, with_stages.
  cbn [shareholders dividend_history investment_stages next_shareholder_id
       next_dividend_id next_stage_id].
  repeat split; try assumption.
  - rewrite Eid. exact Hs.
  - apply Forall_forall. intros r Hr.
    assert (In (st_id r) (map st_id (investment_stages db))) as Hin.
    { rewrite <- Eid. apply in_map. exact Hr. }
    apply in_map_iff in Hin. destruct Hin as [r0 [E0 H0]].
    rewrite Forall_forall in Hsn. rewrite <- E0. apply Hsn. exact H0.
Qed.

Lemma delete_schema (id : Z) (db : @database num) :
  schema_holds db ->
  schema_holds (delete_shareholder id (delete_dividends_of id db)).
Proof.
  intros (Hid & Hu & He & Hd & Hs & Hn & Hdn & Hsn & Hown).
  unfold schema_holds, delete_shareholder, delete_dividends_of, with_shareholders.
  cbn [shareholders dividend_history investment_stages next_shareholder_id
       next_dividend_id next_stage_id].
  repeat split; try assumption; try (apply NoDup_map_filter; assumption).
  - apply Forall_forall. intros r Hr. apply filter_In in Hr.
    rewrite Forall_forall in Hn. apply Hn. tauto.
  - apply Forall_forall. intros r Hr. apply filter_In in Hr.
    rewrite Forall_forall in Hdn. apply Hdn. tauto.
  - intros d Hin. cbn [dividend_history] in Hin. apply filter_In in Hin.
    destruct Hin as [Hin Hne]. destruct (Hown d Hin) as [sh [Hsh Esh]].
    exists sh. cbn [shareholders]. split; [|exact Esh].
    apply filter_In. split; [exact Hsh|].
    apply negb_true_iff in Hne. apply Z.eqb_neq in Hne.
    apply negb_true_iff. apply id_is_false. congruence.
Qed.

End AdministrationFacts.

Section RouteFacts.

Context {num : Type} `{JsNumber num}.
Variable bcrypt_hash : string -> string.
Variable bcrypt_compare : string -> string -> bool.

(** *** What each route does to the tables *)

(** A registration is declined with the tables as they were, or it adds
    one row. *)
Lemma post_agreements_cases (now : string) (body : agreement_body)
  (db : @database num) :
  (exists msg, post_agreements bcrypt_hash now body db
               = (db, res_status_json 400 (Failure msg)))
  \/ (exists fullName username password email row,
        str_or_null (ag_fullName body) = Some fullName
        /\ str_or_null (ag_username body) = Some username
        /\ str_or_null (ag_password body) = Some password
        /\ str_or_null (ag_email body) = Some email
        /\ existsb (fun r => String.eqb (sh_username r) username) (shareholders db)
           = false
        /\ existsb (fun r => String.eqb (sh_email r) email) (shareholders db)
           = false
        /\ post_agreements bcrypt_hash now body db
           = (insert_shareholder db row,
              res_json (SuccessId "Agreement submitted successfully"
                                  (next_shareholder_id db)))
        /\ forall id,
             sh_id (row id) = id /\ sh_full_name (row id) = fullName
             /\ sh_username (row id) = username /\ sh_email (row id) = email
             /\ sh_password_hash (row id) = bcrypt_hash password
             /\ sh_business_role (row id) = str_or (ag_businessRole body) "DRIVER"
             /\ sh_status (row id) = "PENDING").
Proof.
  unfold post_agreements.
  destruct (str_or_null (ag_fullName body)) as [fullName|];
    [|left; eexists; reflexivity].
  destruct (str_or_null (ag_address body)) as [address|];
    [|left; eexists; reflexivity].
  destruct (str_or_null (ag_phone body)) as [phone|];
    [|left; eexists; reflexivity].
  destruct (str_or_null (ag_email body)) as [email|];
    [|left; eexists; reflexivity].
  destruct (str_or_null (ag_username body)) as [username|];
    [|left; eexists; reflexivity].
  destruct (str_or_null (ag_password body)) as [password|];
    [|left; eexists; reflexivity].
  destruct (num_given (ag_numShares body)) as [numShares|];
    [|left; eexists; reflexivity].
  destruct (existsb (fun r => String.eqb (sh_username r) username) (shareholders db))
    eqn:Eu; [left; eexists; reflexivity|].
  destruct (existsb (fun r => String.eqb (sh_email r) email) (shareholders db))
    eqn:Ee; [left; eexists; reflexivity|].
  right. exists fullName, username, password, email. eexists.
  do 4 (split; [reflexivity|]).
  split; [exact Eu|]. split; [exact Ee|]. split; [reflexivity|].
  intro id. cbn. repeat split.
Qed.

Lemma post_agreements_schema (now : string) (body : agreement_body)
  (db : @database num) :
  schema_holds db -> schema_holds (fst (post_agreements bcrypt_hash now body db)).
Proof.
  intro Hdb.
  destruct (post_agreements_cases now body db)
    as [[msg ->]|(fn & u & p & e & row & _ & _ & _ & _ & Hu & He & -> & Hrow)].
  - exact Hdb.
  - cbn [fst]. apply insert_shareholder_schema.
    + exact Hdb.
    + intro id. apply (Hrow id).
    + destruct (Hrow (next_shareholder_id db)) as (_ & _ & -> & _).
      apply existsb_key_false. exact Hu.
    + destruct (Hrow (next_shareholder_id db)) as (_ & _ & _ & -> & _).
      apply existsb_key_false. exact He.
Qed.

Lemma put_admin_agreement_schema (now : string) (id : Z) (status : string)
  (db : @database num) :
  schema_holds db -> schema_holds (fst (put_admin_agreement now id status db)).
Proof.
  intro Hdb. unfold put_admin_agreement. cbn [fst].
  pose proof Hdb as (Hid & Hu & He & _).
  apply with_shareholders_schema; [exact Hdb| | |].
  - apply (map_update_key sh_id). reflexivity.
  - rewrite (map_update_key sh_username); [exact Hu|reflexivity].
  - rewrite (map_update_key sh_email); [exact He|reflexivity].
Qed.

Lemma delete_admin_agreement_schema (id : Z) (db : @database num) :
  schema_holds db -> schema_holds (fst (delete_admin_agreement id db)).
Proof.
  intro Hdb. unfold delete_admin_agreement.
  destruct (filter (fun r => id_is id (sh_id r)) (shareholders db)) as [|sh rest];
    [exact Hdb|].
  destruct (String.eqb (sh_business_role sh) "ADMIN"); [exact Hdb|].
  cbn [fst]. apply delete_schema. exact Hdb.
Qed.

(** The fields that the credentials route leaves alone. *)
Lemma assign_credential_keeps (updates : list credential_assignment) :
  forall r : @shareholder num,
    same_but_credentials r (fold_left assign_credential updates r).
Proof.
  induction updates as [|a updates IH]; intro r; cbn [fold_left].
  - unfold same_but_credentials. repeat split.
  - specialize (IH (assign_credential r a)).
    unfold same_but_credentials in *.
    destruct a; cbn in IH; exact IH.
Qed.

(** The username after the credentials route: the one supplied, else the
    old one. *)
Lemma credential_updates_username (body : credentials_body) (r : @shareholder num) :
  sh_username (fold_left assign_credential (credential_updates bcrypt_hash body) r)
  = supplied (str_or_null (cr_username body)) (sh_username r).
Proof.
  unfold credential_updates.
  destruct (str_or_null (cr_username body)) as [u|];
    destruct (str_or_null (cr_password body)) as [p|]; reflexivity.
Qed.

Lemma credential_updates_password_hash (body : credentials_body)
  (r : @shareholder num) :
  sh_password_hash
    (fold_left assign_credential (credential_updates bcrypt_hash body) r)
  = supplied (option_map bcrypt_hash (str_or_null (cr_password body)))
             (sh_password_hash r).
Proof.
  unfold credential_updates.
  destruct (str_or_null (cr_username body)) as [u|];
    destruct (str_or_null (cr_password body)) as [p|]; reflexivity.
Qed.

(** The credentials route is declined with the tables as they were, or it
    rewrites the rows with the id. *)
Lemma put_admin_credentials_cases (id : Z) (body : credentials_body)
  (db : @database num) :
  (exists c msg, put_admin_credentials bcrypt_hash id body db
                 = (db, res_status_json c (Failure msg)))
  \/ (exists sh rest,
        filter (fun r => id_is id (sh_id r)) (shareholders db) = sh :: rest
        /\ String.eqb (sh_business_role sh) "ADMIN" = false
        /\ username_taken id (str_or_null (cr_username body)) sh db = false
        /\ credential_updates bcrypt_hash body <> []
        /\ put_admin_credentials bcrypt_hash id body db
           = (with_shareholders db
                (map (fun r => if id_is id (sh_id r)
                               then fold_left assign_credential
                                      (credential_updates bcrypt_hash body) r
                               else r)
                     (shareholders db)),
              res_json (Success "Credentials updated successfully"))).
Proof.
  unfold put_admin_credentials, credential_updates.
  destruct (str_or_null (cr_username body)) as [u|] eqn:Eu;
    destruct (str_or_null (cr_password body)) as [p|] eqn:Ep;
    try (left; do 2 eexists; reflexivity);
    (destruct (filter (fun r => id_is id (sh_id r)) (shareholders db))
       as [|sh rest]; [left; do 2 eexists; reflexivity|];
     destruct (String.eqb (sh_business_role sh) "ADMIN") eqn:Ea;
       [left; do 2 eexists; reflexivity|];
     destruct (username_taken id _ sh db) eqn:Et;
       [left; do 2 eexists; reflexivity|];
     right; exists sh, rest; repeat split; try reflexivity; try assumption;
     discriminate).
Qed.

End RouteFacts.

Lemma NoDup_map_In_inj {A B : Type} (f : A -> B) (l : list A) (x y : A) :
  NoDup (map f l) -> In x l -> In y l -> f x = f y -> x = y.
Proof.
  induction l as [|a l IH]; intros Hnd Hx Hy E; cbn [map In] in *.
  - contradiction.
  - inversion Hnd as [|? ? Ha Hl]; subst.
    destruct Hx as [->|Hx]; destruct Hy as [->|Hy].
    + reflexivity.
    + exfalso. apply Ha. rewrite E. apply in_map. exact Hy.
    + exfalso. apply Ha. rewrite <- E. apply in_map. exact Hx.
    + apply IH; assumption.
Qed.

(** Rewriting one row of a table keeps a column unique when the new value
    is not the value of another row. *)
Lemma NoDup_map_update {A : Type} (name : A -> string) (p : A -> bool)
  (g : A -> A) (l : list A) :
  NoDup (map name l) ->
  (forall r r', In r l -> In r' l -> p r = true -> p r' = true -> r = r') ->
  (forall r r', In r l -> In r' l -> p r = true -> p r' = false ->
                name (g r) <> name r') ->
  NoDup (map name (map (fun r => if p r then g r else r) l)).
Proof.
  induction l as [|a l IH]; intros Hnd Hone Hnew; cbn [map].
  - constructor.
  - inversion Hnd as [|? ? Ha Hl]; subst.
    assert (NoDup (map name (map (fun r => if p r then g r else r) l))) as Htl.
    { apply IH; [exact Hl| |].
      - intros r r' Hr Hr'. apply Hone; right; assumption.
      - intros r r' Hr Hr'. apply Hnew; right; assumption. }
    constructor; [|exact Htl].
    intro Hin. rewrite map_map in Hin. apply in_map_iff in Hin.
    destruct Hin as [r [Er Hr]].
    assert (a <> r) as Hne.
    { intros ->. apply Ha. apply in_map. exact Hr. }
    destruct (p a) eqn:Epa; destruct (p r) eqn:Epr.
    + apply Hne. apply Hone; [left; reflexivity|right; exact Hr| |]; assumption.
    + apply (Hnew a r); [left; reflexivity|right; exact Hr| | |]; congruence.
    + apply (Hnew r a); [right; exact Hr|left; reflexivity| | |]; congruence.
    + apply Ha. rewrite <- Er. apply in_map. exact Hr.
Qed.

Section SchemaFacts.

Context {num : Type} `{JsNumber num}.
Variable bcrypt_hash : string -> string.
Variable bcrypt_compare : string -> string -> bool.

Lemma put_admin_credentials_schema (id : Z) (body : credentials_body)
  (db : @database num) :
  schema_holds db ->
  schema_holds (fst (put_admin_credentials bcrypt_hash id body db)).
Proof.
  intro Hdb.
  destruct (put_admin_credentials_cases bcrypt_hash id body db)
    as [(c & msg & ->)|(sh & rest & Hsh & Hadm & Htaken & _ & ->)];
    [exact Hdb|].
  cbn [fst]. pose proof Hdb as (Hid & Hu & He & _).
  apply with_shareholders_schema; [exact Hdb| | |].
  - apply (map_update_key sh_id). intro r.
    apply (assign_credential_keeps _ r).
  - apply NoDup_map_update; [exact Hu| |].
    + intros r r' Hr Hr' Er Er'. apply id_is_true in Er, Er'.
      apply (NoDup_map_In_inj sh_id (shareholders db)); try assumption.
      apply Pos2Z.inj. congruence.
    + intros r r' Hr Hr' Er Er'.
      rewrite credential_updates_username.
      assert (r = sh) as ->.
      { apply filter_head_In in Hsh. destruct Hsh as [Hin Esh].
        apply id_is_true in Er, Esh.
        apply (NoDup_map_In_inj sh_id (shareholders db)); try assumption.
        apply Pos2Z.inj. congruence. }
      assert (sh_username sh <> sh_username r') as Hold.
      { intro E. apply (NoDup_map_In_inj sh_username _ _ _ Hu) in E;
          try assumption. congruence. }
      destruct (str_or_null (cr_username body)) as [u|]; cbn [supplied];
        [|exact Hold].
      unfold username_taken in Htaken.
      destruct (String.eqb u (sh_username sh)) eqn:Eu.
      * apply String.eqb_eq in Eu. congruence.
      * cbn [negb andb] in Htaken. intro E.
        assert (existsb (fun r => String.eqb (sh_username r) u
                                  && negb (id_is id (sh_id r)))
                        (shareholders db) = true) as Ht.
        { apply existsb_exists. exists r'. split; [exact Hr'|].
          rewrite Er'. rewrite E, String.eqb_refl. reflexivity. }
        congruence.
  - rewrite (map_update_key sh_email); [exact He|]. intro r.
    apply (assign_credential_keeps _ r).
Qed.

Lemma assign_keeps_id (fields : list assignment) :
  forall r : @investment_stage num, st_id (fold_left assign fields r) = st_id r.
Proof.
  induction fields as [|a fields IH]; intro r; cbn [fold_left].
  - reflexivity.
  - rewrite IH. destruct a; reflexivity.
Qed.

Lemma put_admin_stage_schema (id : Z) (body : stage_update_body)
  (db : @database num) :
  schema_holds db -> schema_holds (fst (put_admin_stage id body db)).
Proof.
  intro Hdb. unfold put_admin_stage.
  destruct (List.length (stage_fields body) =? 0)%nat; [exact Hdb|].
  cbn [fst]. unfold update_stage. apply with_stages_schema; [exact Hdb|].
  apply (map_update_key st_id). apply assign_keeps_id.
Qed.

Lemma post_admin_stages_schema (body : stage_create_body) (db : @database num) :
  schema_holds db -> schema_holds (fst (post_admin_stages body db)).
Proof.
  intro Hdb. unfold post_admin_stages.
  destruct (num_given (sc_stage body)); [|exact Hdb].
  destruct (str_or_null (sc_name body)); [|exact Hdb].
  destruct (num_given (sc_price_per_share body)); [|exact Hdb].
  cbn [fst]. apply insert_stage_schema; [exact Hdb|reflexivity].
Qed.

Lemma post_admin_dividends_schema (now : string) (body : dividend_body)
  (db : @database num) :
  schema_holds db -> schema_holds (fst (post_admin_dividends now body db)).
Proof.
  intro Hdb. unfold post_admin_dividends.
  destruct (id_given (dq_shareholderId body)) as [shareholderId|]; [|exact Hdb].
  destruct (str_or_null (dq_month body)) as [month|]; [|exact Hdb].
  destruct (amount_given (dq_amount body)) as [amount|]; [|exact Hdb].
  destruct (filter _ (shareholders db)) as [|sh rest] eqn:Ef; [exact Hdb|].
  cbn [fst]. apply insert_dividend_schema; [exact Hdb|].
  apply filter_head_In in Ef. destruct Ef as [Hin Hsh].
  apply andb_true_iff in Hsh. destruct Hsh as [Hsh _].
  exists sh. split; [exact Hin|]. apply id_is_true. exact Hsh.
Qed.

(** The loop of the bulk payout keeps the schema: every row it adds
    belongs to a shareholder of the table. *)
Lemma pay_share_loop_schema (now month pm : string) (T S gst : num) :
  forall (shs : list shareholder) (db : @database num),
    schema_holds db ->
    (forall sh, In sh shs -> In sh (shareholders db)) ->
    schema_holds (fold_left (pay_share now month T S gst pm) shs db).
Proof.
  induction shs as [|sh shs IH]; intros db Hdb Hin; cbn [fold_left].
  - exact Hdb.
  - apply IH.
    + unfold pay_share. apply insert_dividend_schema; [exact Hdb|].
      exists sh. split; [apply Hin; left|]; reflexivity.
    + intros sh' Hsh'. unfold pay_share, insert_dividend. cbn [shareholders].
      apply Hin. right. exact Hsh'.
Qed.

Lemma post_admin_dividends_all_schema (now : string) (body : dividend_body)
  (db : @database num) :
  schema_holds db -> schema_holds (fst (post_admin_dividends_all now body db)).
Proof.
  intro Hdb. unfold post_admin_dividends_all.
  destruct (str_or_null (dq_month body)) as [month|]; [|exact Hdb].
  destruct (amount_given (dq_amount body)) as [amount|]; [|exact Hdb].
  destruct (List.length (approved_shareholders db) =? 0)%nat; [exact Hdb|].
  cbn [fst]. apply pay_share_loop_schema; [exact Hdb|].
  intros sh Hsh. unfold approved_shareholders in Hsh.
  apply filter_In in Hsh. tauto.
Qed.

(** *** The price tables keep their keys *)

Lemma upsert_price_roles (now : string) (cat : @catalogue num)
  (entry : string * num) :
  roles_unique cat -> roles_unique (upsert_price now cat entry).
Proof.
  intros [Hs Hp]. destruct entry as [role price]. unfold upsert_price.
  destruct (existsb _ (role_prices cat)) eqn:Ex;
    split; cbn [with_role_prices subscriber_counts role_prices]; try exact Hs.
  - rewrite (map_update_key rp_business_role); [exact Hp|].
    reflexivity.
  - apply NoDup_map_snoc; [exact Hp|]. cbn [rp_business_role].
    apply existsb_key_false. exact Ex.
Qed.

Lemma put_admin_prices_roles (now : string) (prices : option (list (string * num)))
  (cat : @catalogue num) :
  roles_unique cat -> roles_unique (fst (put_admin_prices now prices cat)).
Proof.
  intro Hc. unfold put_admin_prices. destruct prices as [entries|]; [|exact Hc].
  cbn [fst]. revert cat Hc.
  induction entries as [|e entries IH]; intros cat Hc; cbn [fold_left].
  - exact Hc.
  - apply IH. apply upsert_price_roles. exact Hc.
Qed.

Lemma put_admin_subscribers_roles (now : string) (body : subscribers_body)
  (cat : @catalogue num) :
  roles_unique cat -> roles_unique (fst (put_admin_subscribers now body cat)).
Proof.
  intros [Hs Hp]. unfold put_admin_subscribers. cbn [fst].
  split; cbn [subscriber_counts role_prices]; [|exact Hp].
  rewrite (map_update_key sub_business_role); [exact Hs|reflexivity].
Qed.

(** Every route keeps the constraints of the schema. *)
Lemma serve_schema (rq : request) (st : @database num * catalogue) :
  schema_holds (fst st) -> roles_unique (snd st) ->
  schema_holds (fst (fst (serve bcrypt_hash bcrypt_compare rq st)))
  /\ roles_unique (snd (fst (serve bcrypt_hash bcrypt_compare rq st))).
Proof.
  destruct st as [db cat]. cbn [fst snd]. intros Hdb Hcat.
  destruct rq; cbn [serve fst snd]; split; try assumption.
  - apply post_agreements_schema. exact Hdb.
  - apply put_admin_prices_roles. exact Hcat.
  - apply put_admin_subscribers_roles. exact Hcat.
  - apply put_admin_agreement_schema. exact Hdb.
  - apply delete_admin_agreement_schema. exact Hdb.
  - apply put_admin_credentials_schema. exact Hdb.
  - apply put_admin_stage_schema. exact Hdb.
  - apply post_admin_stages_schema. exact Hdb.
  - apply post_admin_dividends_schema. exact Hdb.
  - apply post_admin_dividends_all_schema. exact Hdb.
Qed.

End SchemaFacts.

Section StartupFacts.

Context {num : Type} `{JsNumber num}.
Variable bcrypt_hash : string -> string.
Variable bcrypt_compare : string -> string -> bool.

(** *** The start-up keeps the schema *)

Lemma seed_stages_schema (db : @database num) :
  schema_holds db -> schema_holds (seed_stages db).
Proof.
  intro Hdb. unfold seed_stages.
  destruct (List.length (investment_stages db) =? 0)%nat; [|exact Hdb].
  repeat (apply insert_stage_schema; [|reflexivity]). exact Hdb.
Qed.

Lemma seed_stages_shareholders (db : @database num) :
  shareholders (seed_stages db) = shareholders db
  /\ dividend_history (seed_stages db) = dividend_history db.
Proof.
  unfold seed_stages.
  destruct (List.length (investment_stages db) =? 0)%nat; split; reflexivity.
Qed.

Lemma filter_length_0 {A : Type} (p : A -> bool) (l : list A) :
  (List.length (filter p l) =? 0)%nat = true ->
  forall r, In r l -> p r = false.
Proof.
  intros Hlen r Hr. destruct (p r) eqn:Ep; [|reflexivity].
  assert (In r (filter p l)) as Hin by (apply filter_In; tauto).
  destruct (filter p l); [contradiction|discriminate].
Qed.

Lemma seed_admin_schema (now : string) (db db' : @database num) :
  schema_holds db -> seed_admin bcrypt_hash now db = Some db' -> schema_holds db'.
Proof.
  intros Hdb. unfold seed_admin.
  destruct (List.length (filter _ (shareholders db)) =? 0)%nat eqn:Elen.
  - destruct (existsb _ (shareholders db)) eqn:Eem; [discriminate|].
    intro E. injection E as <-.
    apply insert_shareholder_schema; [exact Hdb|reflexivity| |].
    + cbn [sh_username]. intro Hin. apply in_map_iff in Hin.
      destruct Hin as [r [Er Hr]].
      pose proof (filter_length_0 _ _ Elen r Hr) as Hf. cbn in Hf.
      rewrite Er in Hf. discriminate.
    + cbn [sh_email]. apply existsb_key_false. exact Eem.
  - intro E. injection E as <-.
    pose proof Hdb as (Hid & Hu & He & _).
    apply with_shareholders_schema; [exact Hdb| | |].
    + apply (map_update_key sh_id). reflexivity.
    + rewrite (map_update_key sh_username); [exact Hu|reflexivity].
    + rewrite (map_update_key sh_email); [exact He|reflexivity].
Qed.

Lemma seed_subscriber_count_roles (now role : string) (cat : @catalogue num) :
  roles_unique cat -> roles_unique (seed_subscriber_count now role cat).
Proof.
  intros [Hs Hp]. unfold seed_subscriber_count.
  destruct (existsb _ (subscriber_counts cat)) eqn:Ex; [split; assumption|].
  split; cbn [subscriber_counts role_prices]; [|exact Hp].
  apply NoDup_map_snoc; [exact Hs|]. cbn [sub_business_role].
  apply existsb_key_false. exact Ex.
Qed.

Lemma seed_role_price_roles (now role : string) (price : Z) (cat : @catalogue num) :
  roles_unique cat -> roles_unique (seed_role_price now role price cat).
Proof.
  intros [Hs Hp]. unfold seed_role_price.
  destruct (existsb _ (role_prices cat)) eqn:Ex; [split; assumption|].
  split; cbn [with_role_prices subscriber_counts role_prices]; [exact Hs|].
  apply NoDup_map_snoc; [exact Hp|]. cbn [rp_business_role].
  apply existsb_key_false. exact Ex.
Qed.

Lemma initializeDatabase_schema (now : string) (st st' : @database num * catalogue) :
  schema_holds (fst st) -> roles_unique (snd st) ->
  initializeDatabase bcrypt_hash now st = Some st' ->
  schema_holds (fst st') /\ roles_unique (snd st').
Proof.
  intros Hdb Hcat. unfold initializeDatabase.
  destruct (seed_admin bcrypt_hash now (seed_stages (fst st))) as [db'|] eqn:Ea;
    [|discriminate].
  intro E. injection E as <-. cbn [fst snd]. split.
  - apply (seed_admin_schema now _ _ (seed_stages_schema _ Hdb) Ea).
  - unfold seed_catalogue.
    repeat first [apply seed_role_price_roles|apply seed_subscriber_count_roles].
    exact Hcat.
Qed.

(** *** The administrator's row *)

(** With an administrator in the table the start-up finds the row and
    rewrites it. *)
Lemma seed_admin_found (now : string) (db : @database num) :
  has_admin db ->
  seed_admin bcrypt_hash now db
  = Some (with_shareholders db
            (map (fun r => if String.eqb (sh_username r) "admin"
                           then set_password_approved
                                  (bcrypt_hash "Qc@242526") r
                           else r)
                 (shareholders db))).
Proof.
  intros (r & Hr & Eu & _). unfold seed_admin.
  destruct (List.length (filter _ (shareholders db)) =? 0)%nat eqn:Elen;
    [|reflexivity].
  pose proof (filter_length_0 _ _ Elen r Hr) as Hf. cbn in Hf.
  rewrite Eu in Hf. discriminate.
Qed.

Lemma seed_admin_has_admin (now : string) (db db' : @database num) :
  seed_admin bcrypt_hash now db = Some db' ->
  (List.length (filter (fun r => String.eqb (sh_username r) "admin")
                       (shareholders db)) =? 0)%nat = true
  \/ has_admin db ->
  has_admin db'.
Proof.
  unfold seed_admin. intros E [Hnone|(r & Hr & Eu & Er)].
  - rewrite Hnone in E.
    destruct (existsb _ (shareholders db)); [discriminate|].
    injection E as <-. eexists.
    split; [|split].
    + unfold insert_shareholder. cbn [shareholders]. apply in_or_app.
      right. left. reflexivity.
    + reflexivity.
    + reflexivity.
  - pose proof (seed_admin_found now db
                  (ex_intro _ r (conj Hr (conj Eu Er)))) as Ef.
    unfold seed_admin in Ef. rewrite Ef in E. injection E as <-.
    exists (set_password_approved (bcrypt_hash "Qc@242526") r).
    cbn [with_shareholders shareholders]. split; [|split; assumption].
    apply in_map_iff. exists r. split; [|exact Hr].
    rewrite Eu. reflexivity.
Qed.

(** The first start, on an empty file, gives the seeded tables. *)
Lemma initializeDatabase_fresh (now : string) :
  initializeDatabase bcrypt_hash now (empty_database, empty_catalogue)
  = Some (seeded_database bcrypt_hash now,
          mkCatalogue
            [mkSubscriberCount 1 "DRIVER" (num_of_Z 0) now;
             mkSubscriberCount 2 "TRAVEL_AGENT" (num_of_Z 0) now;
             mkSubscriberCount 3 "SHOPS_HOTELS" (num_of_Z 0) now]
            [mkRolePrice "DRIVER" (num_of_Z 350) now;
             mkRolePrice "TRAVEL_AGENT" (num_of_Z 500) now;
             mkRolePrice "SHOPS_HOTELS" (num_of_Z 700) now]
            4).
Proof. reflexivity. Qed.

Lemma empty_schema :
  schema_holds (@empty_database num) /\ roles_unique (@empty_catalogue num).
Proof.
  unfold schema_holds, roles_unique, dividends_have_owner. cbn.
  repeat split; try constructor. intros d [].
Qed.

(** *** The shareholders table under the routes that do not write it *)

Lemma pay_share_loop_shareholders (now month pm : string) (T S gst : num) :
  forall (shs : list shareholder) (db : @database num),
    shareholders (fold_left (pay_share now month T S gst pm) shs db)
    = shareholders db.
Proof.
  induction shs as [|sh shs IH]; intro db; cbn [fold_left];
    [reflexivity|].
  rewrite IH. reflexivity.
Qed.

Lemma post_admin_dividends_shareholders (now : string) (body : dividend_body)
  (db : @database num) :
  shareholders (fst (post_admin_dividends now body db)) = shareholders db.
Proof.
  unfold post_admin_dividends.
  destruct (id_given (dq_shareholderId body)); [|reflexivity].
  destruct (str_or_null (dq_month body)); [|reflexivity].
  destruct (amount_given (dq_amount body)); [|reflexivity].
  destruct (filter _ (shareholders db)); reflexivity.
Qed.

Lemma post_admin_dividends_all_shareholders (now : string) (body : dividend_body)
  (db : @database num) :
  shareholders (fst (post_admin_dividends_all now body db)) = shareholders db.
Proof.
  unfold post_admin_dividends_all.
  destruct (str_or_null (dq_month body)); [|reflexivity].
  destruct (amount_given (dq_amount body)); [|reflexivity].
  destruct (List.length (approved_shareholders db) =? 0)%nat; [reflexivity|].
  cbn [fst]. apply pay_share_loop_shareholders.
Qed.

Lemma same_but_status_refl (r : @shareholder num) : same_but_status r r.
Proof. unfold same_but_status. repeat split. Qed.

(** No route removes a row whose role is ADMIN, and none changes
    anything of it but the status. *)
Lemma serve_keeps_admin (rq : request) (st : @database num * catalogue)
  (r : shareholder) :
  NoDup (map sh_id (shareholders (fst st))) ->
  In r (shareholders (fst st)) -> sh_business_role r = "ADMIN" ->
  exists r',
    In r' (shareholders (fst (fst (serve bcrypt_hash bcrypt_compare rq st))))
    /\ same_but_status r r'.
Proof.
  destruct st as [db cat]. cbn [fst]. intros Hid Hr Hrole.
  assert (forall sh rest,
            filter (fun x => id_is (Z.pos (sh_id r)) (sh_id x)) (shareholders db)
            = sh :: rest -> sh = r) as Hfound.
  { intros sh rest Ef. apply filter_head_In in Ef. destruct Ef as [Hin Esh].
    apply id_is_true in Esh.
    apply (NoDup_map_In_inj sh_id (shareholders db)); try assumption.
    apply Pos2Z.inj. exact Esh. }
  destruct rq; cbn [serve fst snd];
    try (exists r; split; [exact Hr|apply same_but_status_refl]).
  - destruct (post_agreements_cases bcrypt_hash now body db)
      as [[msg ->]|(fn & u & p & e & row & _ & _ & _ & _ & _ & _ & -> & _)];
      exists r; (split; [|apply same_but_status_refl]); [exact Hr|].
    unfold insert_shareholder. cbn [fst shareholders].
    apply in_or_app. left. exact Hr.
  - unfold put_admin_agreement. cbn [fst with_shareholders shareholders].
    eexists. split; [apply in_map; exact Hr|].
    destruct (id_is id (sh_id r)); [|apply same_but_status_refl].
    unfold same_but_status. repeat split.
  - exists r. split; [|apply same_but_status_refl].
    unfold delete_admin_agreement.
    destruct (filter (fun x => id_is id (sh_id x)) (shareholders db))
      as [|sh rest] eqn:Ef; [exact Hr|].
    destruct (String.eqb (sh_business_role sh) "ADMIN") eqn:Ea; [exact Hr|].
    cbn [fst delete_shareholder delete_dividends_of with_shareholders shareholders].
    apply filter_In. split; [exact Hr|]. apply negb_true_iff.
    destruct (id_is id (sh_id r)) eqn:Eid; [|reflexivity].
    apply id_is_true in Eid. subst id.
    rewrite (Hfound sh rest Ef), Hrole in Ea. discriminate.
  - exists r. split; [|apply same_but_status_refl].
    destruct (put_admin_credentials_cases bcrypt_hash id body db)
      as [(c & msg & ->)|(sh & rest & Hsh & Hadm & _ & _ & ->)];
      [exact Hr|].
    cbn [fst with_shareholders shareholders].
    apply in_map_iff. exists r. split; [|exact Hr].
    destruct (id_is id (sh_id r)) eqn:Eid; [|reflexivity].
    apply id_is_true in Eid. subst id.
    rewrite (Hfound sh rest Hsh), Hrole in Hadm. discriminate.
  - exists r. split; [|apply same_but_status_refl].
    unfold put_admin_stage.
    destruct (List.length (stage_fields body) =? 0)%nat; exact Hr.
  - exists r. split; [|apply same_but_status_refl].
    unfold post_admin_stages.
    destruct (num_given (sc_stage body)); [|exact Hr].
    destruct (str_or_null (sc_name body)); [|exact Hr].
    destruct (num_given (sc_price_per_share body)); exact Hr.
  - exists r. split; [|apply same_but_status_refl].
    rewrite post_admin_dividends_shareholders. exact Hr.
  - exists r. split; [|apply same_but_status_refl].
    rewrite post_admin_dividends_all_shareholders. exact Hr.
Qed.

Lemma serve_has_admin (rq : request) (st : @database num * catalogue) :
  NoDup (map sh_id (shareholders (fst st))) -> has_admin (fst st) ->
  has_admin (fst (fst (serve bcrypt_hash bcrypt_compare rq st))).
Proof.
  intros Hid (r & Hr & Eu & Er).
  destruct (serve_keeps_admin rq st r Hid Hr Er) as (r' & Hr' & Hsame).
  exists r'. split; [exact Hr'|]. unfold same_but_status in Hsame.
  split; [|rewrite <- Er; tauto].
  rewrite <- Eu. tauto.
Qed.

Lemma reachable_inv (st : @database num * catalogue) :
  reachable bcrypt_hash bcrypt_compare st ->
  schema_holds (fst st) /\ roles_unique (snd st) /\ has_admin (fst st).
Proof.
  induction 1 as [now st E|rq st Hst IH|now st st' Hst IH E].
  - rewrite initializeDatabase_fresh in E. injection E as <-.
    destruct (initializeDatabase_schema now (empty_database, empty_catalogue) _
                (proj1 empty_schema) (proj2 empty_schema)
                (initializeDatabase_fresh now)) as [Hs Hc].
    split; [exact Hs|]. split; [exact Hc|].
    eexists. split; [left; reflexivity|]. split; reflexivity.
  - destruct IH as (Hs & Hc & Ha).
    destruct (serve_schema bcrypt_hash bcrypt_compare rq st Hs Hc) as [Hs' Hc'].
    split; [exact Hs'|]. split; [exact Hc'|].
    apply serve_has_admin; [apply Hs|exact Ha].
  - destruct IH as (Hs & Hc & Ha).
    destruct (initializeDatabase_schema now st st' Hs Hc E) as [Hs' Hc'].
    split; [exact Hs'|]. split; [exact Hc'|].
    unfold initializeDatabase in E.
    destruct (seed_admin bcrypt_hash now (seed_stages (fst st))) as [db'|] eqn:Ead;
      [|discriminate].
    injection E as <-. cbn [fst].
    apply (seed_admin_has_admin now _ _ Ead). right.
    destruct Ha as (r & Hr & Hur).
    exists r. split; [|exact Hur].
    rewrite (proj1 (seed_stages_shareholders (fst st))). exact Hr.
Qed.

End StartupFacts.

Section DeploymentFacts.

Context {num : Type} `{JsNumber num}.
Variable bcrypt_hash : string -> string.
Variable bcrypt_compare : string -> string -> bool.


(** *** Requests *)

(** X1: every route keeps the constraints of the schema.  If the ids of
    each table are unique and below the AUTOINCREMENT counter, usernames
    and emails are unique, every dividend row has its shareholder, and the
    roles of the two price tables are unique, then the same holds after
    any request: the checks of the routes come before their writes, so
    no INSERT or UPDATE of a route violates a UNIQUE constraint or leaves
    a dividend without its shareholder. *)
Theorem every_route_keeps_the_schema :
  forall (rq : request) (st : @database num * catalogue),
    schema_holds (fst st) -> roles_unique (snd st) ->
    schema_holds (fst (fst (serve bcrypt_hash bcrypt_compare rq st)))
    /\ roles_unique (snd (fst (serve bcrypt_hash bcrypt_compare rq st))).
Proof.
  intros rq st Hs Hc. exact (serve_schema bcrypt_hash bcrypt_compare rq st Hs Hc).
Qed.

(** X2: in every state of a deployment, that is after the first start on
    an empty file followed by any requests and restarts, the constraints
    of the schema hold, a row with the username 'admin' and the role
    ADMIN exists, and a restart succeeds: [initializeDatabase] does not
    reject. *)
Theorem deployment_invariant :
  forall st : @database num * catalogue,
    reachable bcrypt_hash bcrypt_compare st ->
    schema_holds (fst st) /\ roles_unique (snd st) /\ has_admin (fst st)
    /\ forall now, exists st', initializeDatabase bcrypt_hash now st = Some st'.
Proof.
  intros st Hst.
  destruct (reachable_inv bcrypt_hash bcrypt_compare st Hst) as (Hs & Hc & Ha).
  repeat (split; [assumption|]).
  intro now. unfold initializeDatabase.
  rewrite (seed_admin_found bcrypt_hash now (seed_stages (fst st))).
  - eexists. reflexivity.
  - destruct Ha as (r & Hr & Hur). exists r. split; [|exact Hur].
    rewrite (proj1 (seed_stages_shareholders (fst st))). exact Hr.
Qed.

(** X3: no request removes a row whose role is ADMIN or changes anything
    of it but [status] and [approved_at]: the delete route and the
    credentials route answer 403 for it, and the other routes do not
    write these columns.  (The status route does change the status of an
    administrator.) *)
Theorem admin_rows_are_protected :
  forall (rq : request) (st : @database num * catalogue) (r : shareholder),
    NoDup (map sh_id (shareholders (fst st))) ->
    In r (shareholders (fst st)) -> sh_business_role r = "ADMIN" ->
    exists r',
      In r' (shareholders (fst (fst (serve bcrypt_hash bcrypt_compare rq st))))
      /\ same_but_status r r'.
Proof.
  intros rq st r Hid Hr Hrole.
  exact (serve_keeps_admin bcrypt_hash bcrypt_compare rq st r Hid Hr Hrole).
Qed.


(** *** The start-up *)

(** The login when the row of the username is known. *)
Lemma post_auth_login_found (body : login_body) (db : @database num)
  (username password : string) (row : shareholder) (rest : list shareholder) :
  str_or_null (lg_username body) = Some username ->
  str_or_null (lg_password body) = Some password ->
  filter (fun r => String.eqb (sh_username r) username) (shareholders db)
  = row :: rest ->
  bcrypt_compare password (sh_password_hash row) = true ->
  post_auth_login bcrypt_compare body db
  = if negb (String.eqb (sh_business_role row) "ADMIN")
       && negb (String.eqb (sh_status row) "APPROVED")
    then res_json (Failure
           "Account pending approval. Please wait for admin to approve.")
    else res_json (SuccessUser (sh_id row) (sh_full_name row)
                     (if String.eqb (sh_business_role row) "ADMIN"
                      then "ADMIN" else "SHAREHOLDER")
                     (sh_username row)).
Proof.
  intros Eu Ep Ef Ec. unfold post_auth_login. rewrite Eu, Ep, Ef, Ec.
  reflexivity.
Qed.

Lemma filter_map_update {A : Type} (p : A -> bool) (g : A -> A) (l : list A) :
  (forall r, p (g r) = p r) ->
  filter p (map (fun r => if p r then g r else r) l) = map g (filter p l).
Proof.
  intro Hg. induction l as [|a l IH]; cbn [map filter]; [reflexivity|].
  destruct (p a) eqn:Ea.
  - rewrite Hg, Ea. cbn [map]. f_equal. exact IH.
  - rewrite Ea. exact IH.
Qed.

(** X5: after every start the administrator logs in with the start-up
    password.  Whatever the tables were, when [initializeDatabase]
    succeeds the login of 'admin' with 'Qc@242526' is answered with
    success: a changed password hash and a status other than APPROVED of
    that row are overwritten.  The role of the answer is ADMIN when the
    row has the role ADMIN. *)
Theorem restart_restores_the_admin_login :
  forall (now : string) (st st' : @database num * catalogue),
    initializeDatabase bcrypt_hash now st = Some st' ->
    bcrypt_compare "Qc@242526" (bcrypt_hash "Qc@242526") = true ->
    exists row,
      In row (shareholders (fst st'))
      /\ sh_username row = "admin"
      /\ post_auth_login bcrypt_compare
           (mkLoginBody (Some "admin") (Some "Qc@242526")) (fst st')
         = res_json (SuccessUser (sh_id row) (sh_full_name row)
                       (if String.eqb (sh_business_role row) "ADMIN"
                        then "ADMIN" else "SHAREHOLDER")
                       "admin").
Proof.
  intros now [db cat] st' E Hcmp. unfold initializeDatabase in E.
  cbn [fst snd] in E.
  destruct (seed_admin bcrypt_hash now (seed_stages db)) as [db'|] eqn:Ea;
    [|discriminate].
  injection E as <-. cbn [fst]. unfold seed_admin in Ea.
  rewrite (proj1 (seed_stages_shareholders db)) in Ea.
  destruct (List.length
              (filter (fun r : @shareholder num =>
                         String.eqb (sh_username r) "admin")
                      (shareholders db)) =? 0)%nat eqn:Elen.
  - destruct (existsb _ (shareholders db)); [discriminate|].
    injection Ea as <-.
    match goal with
    | |- context [insert_shareholder _ ?row] =>
        set (adm := row (next_shareholder_id (seed_stages db)))
    end.
    assert (shareholders
              (insert_shareholder (seed_stages db) (fun id =>
                 mkShareholder id "Administrator" "" "Quick Ride HQ" "000000"
                   "+91 00000 00000" "admin@quickride.com" "ADMIN"
                   (num_of_Z 0) "admin" (bcrypt_hash "Qc@242526") None None
                   (num_of_Z 0) (num_of_Z 1200) (num_of_Z 2) "APPROVED" now
                   None))
            = (shareholders db ++ [adm])%list) as Erows.
    { unfold insert_shareholder. cbn [shareholders].
      rewrite (proj1 (seed_stages_shareholders db)). reflexivity. }
    exists adm. split; [|split].
    + rewrite Erows. apply in_or_app. right. left. reflexivity.
    + reflexivity.
    + rewrite (post_auth_login_found _ _ "admin" "Qc@242526" adm []);
        [reflexivity|reflexivity|reflexivity| |exact Hcmp].
      rewrite Erows, filter_app.
      replace (filter _ (shareholders db)) with (@nil (@shareholder num));
        [reflexivity|].
      symmetry. apply filter_none. exact (filter_length_0 _ _ Elen).
  - injection Ea as <-.
    destruct (filter (fun r : @shareholder num =>
                        String.eqb (sh_username r) "admin")
                     (shareholders db)) as [|r0 rest] eqn:Ef;
      [discriminate|].
    exists (set_password_approved (bcrypt_hash "Qc@242526") r0).
    pose proof (filter_head_In _ _ _ _ Ef) as [Hin Hr0]. cbv beta in Hr0.
    split; [|split].
    + cbn [with_shareholders shareholders]. apply in_map_iff. exists r0.
      rewrite Hr0. split; [reflexivity|exact Hin].
    + apply String.eqb_eq. exact Hr0.
    + rewrite (post_auth_login_found _ _ "admin" "Qc@242526"
                 (set_password_approved (bcrypt_hash "Qc@242526") r0)
                 (map (set_password_approved (bcrypt_hash "Qc@242526")) rest));
        [|reflexivity|reflexivity| |exact Hcmp].
      * cbn [set_password_approved sh_business_role sh_status sh_id
             sh_full_name sh_username].
        rewrite andb_false_r. apply String.eqb_eq in Hr0. rewrite Hr0.
        reflexivity.
      * cbn [with_shareholders shareholders].
        rewrite (filter_map_update
                   (fun r : @shareholder num => String.eqb (sh_username r) "admin"));
          [|reflexivity].
        rewrite Ef. reflexivity.
Qed.

End DeploymentFacts.

Section RestartFacts.

Context {num : Type} `{JsNumber num}.
Variable bcrypt_hash : string -> string.

(** A role has a row in [subscriber_counts], in [role_prices]. *)
Local Abbreviation has_count role cat :=
  (existsb (fun r => String.eqb (sub_business_role r) role)
           (subscriber_counts cat) = true).
Local Abbreviation has_price role cat :=
  (existsb (fun r => String.eqb (rp_business_role r) role)
           (role_prices cat) = true).

Lemma seed_subscriber_count_has (now role : string) (cat : @catalogue num) :
  has_count role (seed_subscriber_count now role cat).
Proof.
  unfold seed_subscriber_count.
  destruct (existsb _ (subscriber_counts cat)) eqn:Ex; [exact Ex|].
  cbn [subscriber_counts]. rewrite existsb_app. cbn [existsb sub_business_role].
  rewrite String.eqb_refl. apply orb_true_iff. right. reflexivity.
Qed.

Lemma seed_subscriber_count_keeps (now role role' : string) (cat : @catalogue num) :
  (has_count role cat -> has_count role (seed_subscriber_count now role' cat))
  /\ role_prices (seed_subscriber_count now role' cat) = role_prices cat.
Proof.
  unfold seed_subscriber_count.
  destruct (existsb (fun r => String.eqb (sub_business_role r) role')
                    (subscriber_counts cat)) eqn:Ex; split; try reflexivity;
    try (intro Hc; exact Hc).
  intro Hc. cbn [subscriber_counts]. rewrite existsb_app, Hc. reflexivity.
Qed.

Lemma seed_role_price_has (now role : string) (price : Z) (cat : @catalogue num) :
  has_price role (seed_role_price now role price cat).
Proof.
  unfold seed_role_price.
  destruct (existsb _ (role_prices cat)) eqn:Ex; [exact Ex|].
  cbn [with_role_prices role_prices]. rewrite existsb_app.
  cbn [existsb rp_business_role].
  rewrite String.eqb_refl. apply orb_true_iff. right. reflexivity.
Qed.

Lemma seed_role_price_keeps (now role role' : string) (price : Z)
  (cat : @catalogue num) :
  (has_price role cat -> has_price role (seed_role_price now role' price cat))
  /\ subscriber_counts (seed_role_price now role' price cat)
     = subscriber_counts cat.
Proof.
  unfold seed_role_price.
  destruct (existsb (fun r => String.eqb (rp_business_role r) role')
                    (role_prices cat)) eqn:Ex; split; try reflexivity;
    try (intro Hc; exact Hc).
  intro Hc. cbn [with_role_prices role_prices]. rewrite existsb_app, Hc.
  reflexivity.
Qed.

Lemma seed_subscriber_count_noop (now role : string) (cat : @catalogue num) :
  has_count role cat -> seed_subscriber_count now role cat = cat.
Proof. intro Hc. unfold seed_subscriber_count. rewrite Hc. reflexivity. Qed.

Lemma seed_role_price_noop (now role : string) (price : Z) (cat : @catalogue num) :
  has_price role cat -> seed_role_price now role price cat = cat.
Proof. intro Hc. unfold seed_role_price. rewrite Hc. reflexivity. Qed.

(** The seeds of the price tables change nothing when run again. *)
Lemma seed_catalogue_twice (now now' : string) (cat : @catalogue num) :
  seed_catalogue now' (seed_catalogue now cat) = seed_catalogue now cat.
Proof.
  set (c := seed_catalogue now cat).
  assert (has_count "DRIVER" c /\ has_count "TRAVEL_AGENT" c
          /\ has_count "SHOPS_HOTELS" c /\ has_price "DRIVER" c
          /\ has_price "TRAVEL_AGENT" c /\ has_price "SHOPS_HOTELS" c)
    as (H1 & H2 & H3 & H4 & H5 & H6).
  { unfold c, seed_catalogue.
    rewrite !(proj2 (seed_role_price_keeps _ "" _ _ _)).
    repeat split.
    - do 2 apply (proj1 (seed_subscriber_count_keeps _ _ _ _)).
      apply seed_subscriber_count_has.
    - apply (proj1 (seed_subscriber_count_keeps _ _ _ _)).
      apply seed_subscriber_count_has.
    - apply seed_subscriber_count_has.
    - do 2 apply (proj1 (seed_role_price_keeps _ _ _ _ _)).
      apply seed_role_price_has.
    - apply (proj1 (seed_role_price_keeps _ _ _ _ _)).
      apply seed_role_price_has.
    - apply seed_role_price_has. }
  unfold seed_catalogue.
  rewrite (seed_subscriber_count_noop now' "DRIVER" c H1).
  rewrite (seed_subscriber_count_noop now' "TRAVEL_AGENT" c H2).
  rewrite (seed_subscriber_count_noop now' "SHOPS_HOTELS" c H3).
  rewrite (seed_role_price_noop now' "DRIVER" 350 c H4).
  rewrite (seed_role_price_noop now' "TRAVEL_AGENT" 500 c H5).
  apply (seed_role_price_noop now' "SHOPS_HOTELS" 700 c H6).
Qed.

Lemma seed_stages_twice (db : @database num) :
  (List.length (investment_stages (seed_stages db)) =? 0)%nat = false.
Proof.
  unfold seed_stages.
  destruct (List.length (investment_stages db) =? 0)%nat eqn:E; [|exact E].
  unfold insert_stage. cbn [investment_stages].
  rewrite !length_app. cbn [List.length]. apply Nat.eqb_neq. lia.
Qed.

Lemma with_shareholders_same (db : @database num) :
  with_shareholders db (shareholders db) = db.
Proof. destruct db. reflexivity. Qed.

(** The UPDATE of the administrator's step, with the hash of the run. *)
Local Abbreviation reset_admin hash :=
  (fun r : @shareholder num =>
     if String.eqb (sh_username r) "admin"
     then set_password_approved (hash "Qc@242526") r else r).

(** When a row has the username 'admin' the step is the UPDATE. *)
Lemma seed_admin_named (hash : string -> string) (now : string)
  (db : @database num) :
  (List.length (filter (fun r => String.eqb (sh_username r) "admin")
                       (shareholders db)) =? 0)%nat = false ->
  seed_admin hash now db
  = Some (with_shareholders db (map (reset_admin hash) (shareholders db))).
Proof. intro Hlen. unfold seed_admin. rewrite Hlen. reflexivity. Qed.

(** After the step a row has the username 'admin', and every such row has
    the hash of the run and the status APPROVED. *)
Lemma seed_admin_result (now : string) (db db' : @database num) :
  seed_admin bcrypt_hash now db = Some db' ->
  (List.length (filter (fun r => String.eqb (sh_username r) "admin")
                       (shareholders db')) =? 0)%nat = false
  /\ investment_stages db' = investment_stages db
  /\ forall r, In r (shareholders db') ->
       String.eqb (sh_username r) "admin" = true ->
       set_password_approved (bcrypt_hash "Qc@242526") r = r.
Proof.
  unfold seed_admin.
  destruct (List.length
              (filter (fun r : @shareholder num =>
                         String.eqb (sh_username r) "admin")
                      (shareholders db)) =? 0)%nat eqn:Elen.
  - destruct (existsb _ (shareholders db)); [discriminate|].
    intro E. injection E as <-. unfold insert_shareholder.
    cbn [shareholders investment_stages].
    split; [|split; [reflexivity|]].
    + rewrite filter_app, length_app. cbn [filter sh_username].
      cbn [String.eqb Ascii.eqb Bool.eqb List.length].
      apply Nat.eqb_neq. lia.
    + intros r Hr Hname. apply in_app_or in Hr. destruct Hr as [Hr|[<-|[]]].
      * rewrite (filter_length_0 _ _ Elen r Hr) in Hname. discriminate.
      * reflexivity.
  - intro E. injection E as <-. cbn [with_shareholders shareholders investment_stages].
    split; [|split; [reflexivity|]].
    + rewrite (filter_map_update
                 (fun r : @shareholder num => String.eqb (sh_username r) "admin"));
        [|reflexivity].
      rewrite length_map. exact Elen.
    + intros r Hr Hname. apply in_map_iff in Hr. destruct Hr as [r0 [<- _]].
      destruct (String.eqb (sh_username r0) "admin") eqn:E0.
      * reflexivity.
      * rewrite E0 in Hname. discriminate.
Qed.

(** X6: the start-up is idempotent up to the salt of bcrypt.  When
    [initializeDatabase] has succeeded, running it again, at any later
    time and with any hash for the start-up password, succeeds and changes
    nothing but the password hash of the rows with the username 'admin':
    the seeds are only inserted when they are missing.  When the hash is
    the same as in the first run, every table is exactly as it was. *)
Theorem initializeDatabase_is_idempotent :
  forall (hash' : string -> string) (now now' : string)
         (st st' : @database num * catalogue),
    initializeDatabase bcrypt_hash now st = Some st' ->
    initializeDatabase hash' now' st'
    = Some (with_shareholders (fst st')
              (map (fun r => if String.eqb (sh_username r) "admin"
                             then set_password_approved (hash' "Qc@242526") r
                             else r)
                   (shareholders (fst st'))),
            snd st')
    /\ (hash' "Qc@242526" = bcrypt_hash "Qc@242526" ->
          initializeDatabase hash' now' st' = Some st').
Proof.
  intros hash' now now' [db cat] st' E. unfold initializeDatabase in *.
  cbn [fst snd] in E.
  destruct (seed_admin bcrypt_hash now (seed_stages db)) as [db1|] eqn:Ea;
    [|discriminate].
  injection E as <-. cbn [fst snd].
  destruct (seed_admin_result now _ _ Ea) as (Hnamed & Est & Hrows).
  assert (seed_stages db1 = db1) as ->.
  { unfold seed_stages. rewrite Est, seed_stages_twice. reflexivity. }
  rewrite (seed_admin_named hash' now' db1 Hnamed), seed_catalogue_twice.
  split; [reflexivity|].
  intro Ehash. rewrite Ehash. do 2 f_equal.
  rewrite <- (with_shareholders_same db1) at 3. f_equal.
  rewrite <- (map_id (shareholders db1)) at 2. apply map_ext_in.
  intros r Hr. destruct (String.eqb (sh_username r) "admin") eqn:Er;
    [|reflexivity].
  apply Hrows; assumption.
Qed.

(** X7: the start-up keeps the data.  It never touches
    [dividend_history]; rows of [investment_stages], [subscriber_counts]
    and [role_prices] that exist stay as they are and in place, and the
    three stages are only added to an empty table; every shareholder
    whose username is not 'admin' stays as it is. *)
Theorem initializeDatabase_keeps_the_data :
  forall (now : string) (st st' : @database num * catalogue),
    initializeDatabase bcrypt_hash now st = Some st' ->
    dividend_history (fst st') = dividend_history (fst st)
    /\ (exists more,
          investment_stages (fst st') = (investment_stages (fst st) ++ more)%list
          /\ (investment_stages (fst st) <> [] -> more = []))
    /\ (exists more,
          subscriber_counts (snd st')
          = (subscriber_counts (snd st) ++ more)%list)
    /\ (exists more,
          role_prices (snd st') = (role_prices (snd st) ++ more)%list)
    /\ (forall r, In r (shareholders (fst st)) -> sh_username r <> "admin" ->
                  In r (shareholders (fst st'))).
Proof.
  intros now [db cat] st' E. unfold initializeDatabase in E.
  cbn [fst snd] in *.
  destruct (seed_admin bcrypt_hash now (seed_stages db)) as [db1|] eqn:Ea;
    [|discriminate].
  injection E as <-. cbn [fst snd].
  assert (dividend_history db1 = dividend_history db
          /\ investment_stages db1 = investment_stages (seed_stages db)
          /\ forall r, In r (shareholders db) -> sh_username r <> "admin" ->
                       In r (shareholders db1)) as (Hd & Hs & Hr).
  { unfold seed_admin in Ea.
    rewrite <- (proj2 (seed_stages_shareholders db)).
    rewrite <- (proj1 (seed_stages_shareholders db)).
    destruct (List.length _ =? 0)%nat.
    - destruct (existsb _ _); [discriminate|]. injection Ea as <-.
      repeat split. intros r Hr _. unfold insert_shareholder.
      cbn [shareholders]. apply in_or_app. left. exact Hr.
    - injection Ea as <-. repeat split. intros r Hr Hne.
      cbn [with_shareholders shareholders]. apply in_map_iff. exists r.
      split; [|exact Hr]. apply String.eqb_neq in Hne. rewrite Hne.
      reflexivity. }
  split; [exact Hd|]. split; [|split; [|split; [|exact Hr]]].
  - rewrite Hs. unfold seed_stages.
    destruct (investment_stages db) as [|s0 stages] eqn:Est.
    + cbn [List.length Nat.eqb]. unfold insert_stage. cbn [investment_stages].
      rewrite Est. eexists. split; [reflexivity|]. intro Hne. contradiction.
    + cbn [List.length Nat.eqb]. exists []. rewrite Est, app_nil_r.
      split; reflexivity.
  - unfold seed_catalogue.
    rewrite !(proj2 (seed_role_price_keeps _ "" _ _ _)).
    unfold seed_subscriber_count.
    repeat match goal with
    | |- context [if ?b then _ else _] => destruct b
    end; cbn [subscriber_counts]; rewrite <- ?app_assoc;
      (eexists; try reflexivity; symmetry; apply app_nil_r).
  - unfold seed_catalogue, seed_role_price.
    repeat match goal with
    | |- context [if ?b then _ else _] => destruct b
    end; cbn [with_role_prices role_prices];
      rewrite ?(proj2 (seed_subscriber_count_keeps _ "" _ _));
      rewrite <- ?app_assoc;
      (eexists; try reflexivity; symmetry; apply app_nil_r).
Qed.

End RestartFacts.

Lemma existsb_false_filter {A : Type} (p : A -> bool) (l : list A) :
  existsb p l = false -> filter p l = [].
Proof.
  intro Hex. apply filter_none. intros x Hx.
  destruct (p x) eqn:Ep; [|reflexivity].
  assert (existsb p l = true) as Ht by (apply existsb_exists; eauto).
  congruence.
Qed.

Lemma filter_map_commute {A : Type} (p : A -> bool) (g : A -> A) (l : list A) :
  (forall r, p (g r) = p r) -> filter p (map g l) = map g (filter p l).
Proof.
  intro Hg. induction l as [|a l IH]; cbn [map filter]; [reflexivity|].
  rewrite Hg. destruct (p a); cbn [map]; rewrite IH; reflexivity.
Qed.

(** With a unique column, a lookup by a row's value finds that row. *)
Lemma filter_unique_name {A : Type} (name : A -> string) (l : list A) (x : A) :
  NoDup (map name l) -> In x l ->
  filter (fun r => String.eqb (name r) (name x)) l = [x].
Proof.
  induction l as [|a l IH]; intros Hnd Hin; cbn [filter map In] in *.
  - contradiction.
  - inversion Hnd as [|? ? Ha Hl]; subst. destruct Hin as [->|Hin].
    + rewrite String.eqb_refl. f_equal. apply filter_none.
      intros y Hy. apply String.eqb_neq. intro E. apply Ha.
      rewrite <- E. apply in_map. exact Hy.
    + destruct (String.eqb (name a) (name x)) eqn:Ea.
      * exfalso. apply Ha. apply String.eqb_eq in Ea. rewrite Ea.
        apply in_map. exact Hin.
      * apply IH; assumption.
Qed.

Section AccountFacts.

Context {num : Type} `{JsNumber num}.
Variable bcrypt_hash : string -> string.
Variable bcrypt_compare : string -> string -> bool.

(** [bcrypt.compare] accepts the password a hash was made from. *)
Hypothesis compare_hash : forall p, bcrypt_compare p (bcrypt_hash p) = true.

(** *** Registration, approval and login *)

(** The table after an accepted registration, and the lookup of the new
    username in it. *)
Lemma post_agreements_accepted (now : string) (body : agreement_body)
  (db : @database num) (msg : string) (id : positive) :
  json (snd (post_agreements bcrypt_hash now body db)) = SuccessId msg id ->
  exists fullName username password row,
    str_or_null (ag_fullName body) = Some fullName
    /\ str_or_null (ag_username body) = Some username
    /\ str_or_null (ag_password body) = Some password
    /\ id = next_shareholder_id db
    /\ shareholders (fst (post_agreements bcrypt_hash now body db))
       = (shareholders db ++ [row])%list
    /\ filter (fun r => String.eqb (sh_username r) username) (shareholders db) = []
    /\ sh_id row = id /\ sh_full_name row = fullName
    /\ sh_username row = username
    /\ sh_password_hash row = bcrypt_hash password
    /\ sh_business_role row = str_or (ag_businessRole body) "DRIVER"
    /\ sh_status row = "PENDING".
Proof.
  destruct (post_agreements_cases bcrypt_hash now body db)
    as [[m ->]|(fn & u & p & e & row & Hfn & Hu & Hp & _ & Hnu & _ & -> & Hrow)];
    [discriminate|].
  cbn [snd fst json res_json]. intro E. injection E as _ <-.
  exists fn, u, p, (row (next_shareholder_id db)).
  destruct (Hrow (next_shareholder_id db)) as (R1 & R2 & R3 & _ & R5 & R6 & R7).
  repeat (split; [first [assumption|reflexivity]|]).
  split; [apply existsb_false_filter; exact Hnu|].
  repeat (split; [assumption|]). exact R7.
Qed.


(** X9: the role of a registration comes from the request.  An accepted
    registration whose [businessRole] is 'ADMIN' stores a row with the
    role ADMIN: the login with the registered username and password
    succeeds at once with the role ADMIN, without any approval, and the
    delete route and the credentials route answer 403 for the new id. *)
Theorem registration_with_admin_role :
  forall (now : string) (body : agreement_body) (db : @database num)
         (msg : string) (id : positive),
    schema_holds db ->
    json (snd (post_agreements bcrypt_hash now body db)) = SuccessId msg id ->
    ag_businessRole body = Some "ADMIN" ->
    let db1 := fst (post_agreements bcrypt_hash now body db) in
    (exists fullName username,
       str_or_null (ag_fullName body) = Some fullName
       /\ str_or_null (ag_username body) = Some username
       /\ post_auth_login bcrypt_compare
            (mkLoginBody (ag_username body) (ag_password body)) db1
          = res_json (SuccessUser id fullName "ADMIN" username))
    /\ delete_admin_agreement (Z.pos id) db1
       = (db1, res_status_json 403 (Failure "Cannot delete admin account"))
    /\ forall creds,
         credential_updates bcrypt_hash creds <> [] ->
         put_admin_credentials bcrypt_hash (Z.pos id) creds db1
         = (db1, res_status_json 403
                   (Failure "Cannot modify admin credentials here")).
Proof.
  intros now body db msg id Hdb Hok Hrole db1.
  destruct (post_agreements_accepted now body db msg id Hok)
    as (fn & u & p & row & Hfn & Hu & Hp & Hid & Hrows & Hnone
        & R1 & R2 & R3 & R5 & R6 & R7).
  fold db1 in Hrows. rewrite Hrole in R6. cbn in R6.
  assert (filter (fun r => id_is (Z.pos id) (sh_id r)) (shareholders db1) = [row])
    as Hfound.
  { rewrite Hrows, filter_app. cbn [filter].
    replace (id_is (Z.pos id) (sh_id row)) with true
      by (symmetry; apply id_is_true; rewrite R1; reflexivity).
    rewrite filter_none; [reflexivity|].
    intros r Hr. apply id_is_false. intro E. apply Pos2Z.inj in E.
    destruct Hdb as (_ & _ & _ & _ & _ & Hn & _).
    rewrite Forall_forall in Hn. specialize (Hn r Hr). lia. }
  split; [|split].
  - exists fn, u. split; [exact Hfn|]. split; [exact Hu|].
    rewrite (post_auth_login_found bcrypt_compare _ db1 u p row []);
      [|exact Hu|exact Hp| |rewrite R5; apply compare_hash].
    + rewrite R6, R1, R2, R3. reflexivity.
    + rewrite Hrows, filter_app, Hnone. cbn [filter app].
      rewrite R3, String.eqb_refl. reflexivity.
  - unfold delete_admin_agreement. rewrite Hfound, R6. reflexivity.
  - intros creds Hsome. unfold put_admin_credentials.
    rewrite Hfound, R6. unfold credential_updates in Hsome.
    destruct (str_or_null (cr_username creds));
      destruct (str_or_null (cr_password creds));
      try reflexivity.
    contradiction.
Qed.

End AccountFacts.

Section CredentialFacts.

Context {num : Type} `{JsNumber num}.
Variable bcrypt_hash : string -> string.
Variable bcrypt_compare : string -> string -> bool.

Hypothesis compare_hash : forall p, bcrypt_compare p (bcrypt_hash p) = true.

(** *** Credentials *)

(** X10: the credentials route is a partial update.  When it answers
    success, the row with the id keeps every column but [username] and
    [password_hash]; its username is the one supplied, or the old one when
    the request has no username or an empty one; its password hash is the
    hash of the supplied password, or the old hash when the request has no
    password or an empty one; every other row, the dividends and the
    stages are as before. *)
Theorem put_admin_credentials_partial_update :
  forall (id : Z) (body : credentials_body) (db : @database num) (msg : string),
    json (snd (put_admin_credentials bcrypt_hash id body db)) = Success msg ->
    let db' := fst (put_admin_credentials bcrypt_hash id body db) in
    List.length (shareholders db') = List.length (shareholders db)
    /\ (forall i r, nth_error (shareholders db) i = Some r ->
          exists r', nth_error (shareholders db') i = Some r'
            /\ if id_is id (sh_id r)
               then same_but_credentials r r'
                    /\ sh_username r'
                       = supplied (str_or_null (cr_username body)) (sh_username r)
                    /\ sh_password_hash r'
                       = supplied (option_map bcrypt_hash
                                     (str_or_null (cr_password body)))
                                  (sh_password_hash r)
               else r' = r)
    /\ dividend_history db' = dividend_history db
    /\ investment_stages db' = investment_stages db.
Proof.
  intros id body db msg Hok db'. subst db'.
  destruct (put_admin_credentials_cases bcrypt_hash id body db)
    as [(c & m & E)|(sh & rest & _ & _ & _ & _ & E)];
    rewrite E in *; [discriminate|].
  cbn [fst with_shareholders shareholders dividend_history investment_stages].
  split; [apply length_map|]. split; [|split; reflexivity].
  intros i r Hi. eexists. split.
  - rewrite nth_error_map, Hi. reflexivity.
  - cbv beta. destruct (id_is id (sh_id r)); [|reflexivity].
    split; [apply assign_credential_keeps|].
    split; [apply credential_updates_username
           |apply credential_updates_password_hash].
Qed.

(** X11: a new password works at once.  When the credentials route has
    set a password for a row of a table with unique ids and usernames,
    the login with the row's username (the new one, when one was set) and
    that password is answered by the status of the row alone: success
    with the role SHAREHOLDER when it is APPROVED, 'Account pending
    approval' otherwise; never 'Invalid credentials'. *)
Theorem credentials_then_login :
  forall (id : Z) (body : credentials_body) (db : @database num)
         (msg password : string),
    schema_holds db ->
    json (snd (put_admin_credentials bcrypt_hash id body db)) = Success msg ->
    str_or_null (cr_password body) = Some password ->
    exists sh,
      In sh (shareholders db) /\ Z.pos (sh_id sh) = id
      /\ forall username,
           supplied (str_or_null (cr_username body)) (sh_username sh) = username ->
           username <> "" ->
           post_auth_login bcrypt_compare
             (mkLoginBody (Some username) (Some password))
             (fst (put_admin_credentials bcrypt_hash id body db))
           = if String.eqb (sh_status sh) "APPROVED"
             then res_json (SuccessUser (sh_id sh) (sh_full_name sh)
                              "SHAREHOLDER" username)
             else res_json (Failure
                    "Account pending approval. Please wait for admin to approve.").
Proof.
  intros id body db msg password Hdb Hok Hpw.
  pose proof (put_admin_credentials_schema bcrypt_hash id body db Hdb) as Hdb'.
  destruct (put_admin_credentials_cases bcrypt_hash id body db)
    as [(c & m & E)|(sh & rest & Hsh & Hadm & _ & _ & E)];
    rewrite E in *; [discriminate|].
  cbn [fst] in *.
  apply filter_head_In in Hsh. destruct Hsh as [Hin Hid].
  exists sh. split; [exact Hin|]. split; [apply id_is_true; exact Hid|].
  intros username Hname Hne.
  set (sh' := fold_left assign_credential (credential_updates bcrypt_hash body) sh).
  pose proof (assign_credential_keeps (credential_updates bcrypt_hash body) sh)
    as (K1 & K2 & _ & _ & _ & _ & _ & K8 & _ & _ & _ & _ & _ & _ & K15 & _).
  fold sh' in K1, K2, K8, K15.
  assert (sh_username sh' = username) as Hu.
  { unfold sh'. rewrite credential_updates_username. exact Hname. }
  assert (sh_password_hash sh' = bcrypt_hash password) as Hp.
  { unfold sh'. rewrite credential_updates_password_hash, Hpw. reflexivity. }
  rewrite (post_auth_login_found bcrypt_compare _ _ username password sh' []).
  - rewrite K8, K15, Hadm, K1, K2, Hu. cbn [negb andb].
    destruct (String.eqb (sh_status sh) "APPROVED"); reflexivity.
  - cbn [lg_username]. apply str_or_null_given. exact Hne.
  - cbn [lg_password]. unfold str_or_null in Hpw |- *.
    destruct (cr_password body) as [pw|]; [|discriminate].
    destruct (String.eqb pw "") eqn:Epw; [discriminate|].
    injection Hpw as <-. rewrite Epw. reflexivity.
  - rewrite <- Hu. apply filter_unique_name; [apply Hdb'|].
    cbn [with_shareholders shareholders]. apply in_map_iff. exists sh.
    rewrite Hid. split; [reflexivity|exact Hin].
  - rewrite Hp. apply compare_hash.
Qed.

(** *** Deletion *)

(** X12: a deleted account is gone for every route.  After the delete
    route has answered success for an id of a table with unique ids and
    usernames, a second delete of the id is answered 404, the login with
    the username of the deleted row is answered 'Invalid credentials',
    and a single payout to the id is declined; each of them leaves the
    tables as they are. *)
Theorem deleted_account_is_gone :
  forall (id : Z) (db : @database num) (msg : string),
    schema_holds db ->
    json (snd (delete_admin_agreement id db)) = Success msg ->
    let db' := fst (delete_admin_agreement id db) in
    delete_admin_agreement id db'
    = (db', res_status_json 404 (Failure "Shareholder not found"))
    /\ (forall sh password,
          In sh (shareholders db) -> Z.pos (sh_id sh) = id ->
          sh_username sh <> "" -> password <> "" ->
          post_auth_login bcrypt_compare
            (mkLoginBody (Some (sh_username sh)) (Some password)) db'
          = res_json (Failure "Invalid credentials."))
    /\ (forall now body,
          dq_shareholderId body = Some id ->
          exists m, post_admin_dividends now body db'
                    = (db', res_json (Failure m))).
Proof.
  intros id db msg Hdb Hok db'.
  assert (db' = delete_shareholder id (delete_dividends_of id db)) as Edb.
  { subst db'. unfold delete_admin_agreement in *.
    destruct (filter (fun r => id_is id (sh_id r)) (shareholders db))
      as [|sh0 rest]; [discriminate|].
    destruct (String.eqb (sh_business_role sh0) "ADMIN");
      [discriminate|reflexivity]. }
  clearbody db'. clear Hok.
  assert (filter (fun r => id_is id (sh_id r)) (shareholders db') = []) as Hgone.
  { apply filter_none. intros r Hr. rewrite Edb in Hr.
    unfold delete_shareholder in Hr.
    cbn [with_shareholders shareholders] in Hr. apply filter_In in Hr.
    apply negb_true_iff. tauto. }
  split; [|split].
  - unfold delete_admin_agreement. rewrite Hgone. reflexivity.
  - intros sh password Hin Hid Hu Hp. unfold post_auth_login.
    cbn [lg_username lg_password].
    rewrite (str_or_null_given _ Hu), (str_or_null_given _ Hp).
    rewrite filter_none; [reflexivity|].
    intros r Hr. apply String.eqb_neq. intro E.
    rewrite Edb in Hr. unfold delete_shareholder in Hr.
    cbn [with_shareholders shareholders delete_dividends_of] in Hr.
    apply filter_In in Hr. destruct Hr as [Hr Hne].
    destruct Hdb as (_ & Hnames & _).
    assert (r = sh) as ->
      by (apply (NoDup_map_In_inj sh_username (shareholders db)); assumption).
    apply negb_true_iff in Hne. apply id_is_false in Hne. contradiction.
  - intros now body Hbody. unfold post_admin_dividends. rewrite Hbody.
    unfold id_given. destruct (Z.eqb id 0); [eexists; reflexivity|].
    destruct (str_or_null (dq_month body)); [|eexists; reflexivity].
    destruct (amount_given (dq_amount body)); [|eexists; reflexivity].
    rewrite filter_none; [eexists; reflexivity|].
    intros r Hr. apply andb_false_iff. left.
    destruct (id_is id (sh_id r)) eqn:Er; [|reflexivity].
    exfalso.
    assert (In r (filter (fun r => id_is id (sh_id r)) (shareholders db')))
      as Hin by (apply filter_In; split; [exact Hr|exact Er]).
    rewrite Hgone in Hin. exact Hin.
Qed.

End CredentialFacts.

Section UpdateFacts.

Context {num : Type} `{JsNumber num}.

(** *** Updates by key *)

Lemma with_stages_same (db : @database num) :
  with_stages db (investment_stages db) = db.
Proof. destruct db. reflexivity. Qed.

(** X13: an update for a key that no row has is answered with success
    and changes nothing.  The status route for an unknown shareholder id,
    the stage route for an unknown stage id, and the subscribers route
    for a role without a row run an UPDATE that matches no row; none of
    them answers 404 or adds the row. *)
Theorem update_of_unknown_key_succeeds :
  (forall (now : string) (id : Z) (status : string) (db : @database num),
     (forall r, In r (shareholders db) -> Z.pos (sh_id r) <> id) ->
     put_admin_agreement now id status db
     = (db, res_json (Success ("Status updated to " ++ status))))
  /\ (forall (id : Z) (body : stage_update_body) (db : @database num),
        stage_fields body <> [] ->
        (forall r, In r (investment_stages db) -> Z.pos (st_id r) <> id) ->
        put_admin_stage id body db = (db, res_json (Success "Stage updated")))
  /\ (forall (now : string) (body : subscribers_body) (cat : @catalogue num),
        (forall r, In r (subscriber_counts cat) ->
                   sub_business_role r <> sb_businessRole body) ->
        put_admin_subscribers now body cat
        = (cat, res_json (Success "Subscriber count updated"))).
Proof.
  split; [|split].
  - intros now id status db Hno. unfold put_admin_agreement.
    rewrite map_update_none.
    + rewrite with_shareholders_same. reflexivity.
    + intros r Hr. apply id_is_false. exact (Hno r Hr).
  - intros id body db Hsome Hno. unfold put_admin_stage, update_stage.
    destruct (stage_fields body) as [|a fields]; [contradiction|].
    cbn [List.length Nat.eqb]. rewrite map_update_none.
    + rewrite with_stages_same. reflexivity.
    + intros r Hr. apply id_is_false. exact (Hno r Hr).
  - intros now body cat Hno. unfold put_admin_subscribers.
    rewrite map_update_none.
    + destruct cat. reflexivity.
    + intros r Hr. apply String.eqb_neq. exact (Hno r Hr).
Qed.

(** *** Stages *)

(** X14: a new stage does not displace the running one.  When the
    create route answers success, the returned id is the next rowid and
    one row with that id is added after the existing ones, with the
    status 'UPCOMING' and the counts 0 where the request has none; when a
    RUNNING stage existed, [getRunningStage] returns the same stage as
    before, also when the new stage is RUNNING; when none existed, it
    returns the new stage if that is RUNNING and the fallback literal
    otherwise. *)
Theorem post_admin_stages_appends :
  forall (body : stage_create_body) (db : @database num) (msg : string)
         (id : positive),
    json (snd (post_admin_stages body db)) = SuccessId msg id ->
    let db' := fst (post_admin_stages body db) in
    id = next_stage_id db
    /\ exists row,
         investment_stages db' = (investment_stages db ++ [row])%list
         /\ st_id row = id
         /\ st_status row = str_or (sc_status body) "UPCOMING"
         /\ st_min_subscribers row = Number_or_0 (sc_min_subscribers body)
         /\ st_max_subscribers row = Number_or_0 (sc_max_subscribers body)
         /\ st_shares_available row = Number_or_0 (sc_shares_available body)
         /\ (running_rows db <> [] -> getRunningStage db' = getRunningStage db)
         /\ (running_rows db = [] ->
               getRunningStage db'
               = if String.eqb (st_status row) "RUNNING"
                 then StageRow row
                 else StageLiteral (num_of_Z 1200) (num_of_Z 2) "Current Price").
Proof.
  intros body db msg id Hok db'. subst db'. revert Hok.
  unfold post_admin_stages.
  destruct (num_given (sc_stage body)) as [stage|]; [|discriminate].
  destruct (str_or_null (sc_name body)) as [name|]; [|discriminate].
  destruct (num_given (sc_price_per_share body)) as [price|]; [|discriminate].
  cbn [fst snd json res_json]. intro E. injection E as _ <-.
  split; [reflexivity|]. eexists.
  split; [reflexivity|]. do 5 (split; [reflexivity|]).
  unfold getRunningStage, running_rows, insert_stage.
  cbn [investment_stages st_status]. rewrite filter_app.
  split.
  - intro Hsome.
    destruct (filter _ (investment_stages db)) as [|r rest];
      [contradiction|reflexivity].
  - intros ->. cbn [app filter st_status].
    destruct (String.eqb (str_or (sc_status body) "UPCOMING") "RUNNING");
      reflexivity.
Qed.

(** *** Dividend rows *)

Lemma share_payout_owners (now month pm : string) (T S gst : num)
  (shs : list shareholder) (new : list dividend) :
  Forall2 (share_payout now month pm T S gst) shs new ->
  map dv_shareholder_id new = map (fun sh => Z.pos (sh_id sh)) shs
  /\ Forall (fun d => dv_status d = "PAID" /\ dv_paid_at d = now) new.
Proof.
  induction 1 as [|sh d shs new Hd _ [IHm IHf]]; [split; constructor|].
  unfold share_payout in Hd. cbv zeta in Hd.
  destruct Hd as (Hid & _ & _ & _ & _ & _ & Hst & Hat).
  split.
  - cbn [map]. rewrite Hid, IHm. reflexivity.
  - constructor; [split; assumption|exact IHf].
Qed.


End UpdateFacts.

(** *** Objects *)

Lemma get_set_property {A : Type} (k k' : string) (v : A) (o : list (string * A)) :
  get_property k (set_property k' v o)
  = if String.eqb k' k then Some v else get_property k o.
Proof.
  induction o as [|[k0 v0] o IH]; cbn [set_property get_property].
  - reflexivity.
  - destruct (String.eqb_spec k0 k') as [->|Hne]; cbn [get_property].
    + destruct (String.eqb k' k); reflexivity.
    + rewrite IH. destruct (String.eqb_spec k0 k) as [->|Hk]; [|reflexivity].
      destruct (String.eqb_spec k' k) as [->|_]; [contradiction|reflexivity].
Qed.

Lemma get_property_app {A : Type} (k : string) (a b : list (string * A)) :
  get_property k (a ++ b)%list
  = match get_property k a with
    | Some v => Some v
    | None => get_property k b
    end.
Proof.
  induction a as [|[k0 v0] a IH]; cbn [app get_property]; [reflexivity|].
  destruct (String.eqb k0 k); [reflexivity|exact IH].
Qed.

Lemma last_entry_cons {A : Type} (k : string) (e : string * A)
  (entries : list (string * A)) :
  last_entry k (e :: entries)
  = match last_entry k entries with
    | Some v => Some v
    | None => if String.eqb (fst e) k then Some (snd e) else None
    end.
Proof.
  unfold last_entry. cbn [rev]. rewrite get_property_app.
  destruct e as [k0 v0]. reflexivity.
Qed.

Section PriceFacts.

Context {num : Type} `{JsNumber num}.

Lemma get_prices_shown (k : string) (cat : @catalogue num) :
  get_property k (get_prices cat) = shown_price k (role_prices cat).
Proof.
  unfold get_prices, shown_price.
  assert (forall rows o,
            get_property k
              (fold_left (fun prices r =>
                            set_property (rp_business_role r) (rp_price r) prices)
                         rows o)
            = match last_entry k (map (fun r : @role_price num =>
                                         (rp_business_role r, rp_price r)) rows)
              with
              | Some v => Some v
              | None => get_property k o
              end) as Hfold.
  { induction rows as [|r rows IH]; intro o; cbn [fold_left map].
    - reflexivity.
    - rewrite IH, last_entry_cons, get_set_property. cbn [fst snd].
      destruct (last_entry k _); [reflexivity|].
      destruct (String.eqb (rp_business_role r) k); reflexivity. }
  rewrite Hfold. destruct (last_entry k _); reflexivity.
Qed.

Lemma shown_price_app (k : string) (a b : list (@role_price num)) :
  shown_price k (a ++ b)%list
  = match shown_price k b with
    | Some v => Some v
    | None => shown_price k a
    end.
Proof.
  unfold shown_price, last_entry. rewrite map_app, rev_app_distr.
  apply get_property_app.
Qed.

Lemma shown_price_update (now k role : string) (price : num)
  (rows : list (@role_price num)) :
  shown_price k
    (map (fun r => if String.eqb (rp_business_role r) role
                   then mkRolePrice (rp_business_role r) price now else r)
         rows)
  = if String.eqb role k
    then if existsb (fun r => String.eqb (rp_business_role r) role) rows
         then Some price else None
    else shown_price k rows.
Proof.
  induction rows as [|r rows IH]; cbn [map existsb].
  - destruct (String.eqb role k); reflexivity.
  - unfold shown_price in *. cbn [map]. rewrite !last_entry_cons, IH.
    cbn [fst snd].
    destruct (String.eqb_spec (rp_business_role r) role) as [Er|Er];
      cbn [rp_business_role rp_price orb].
    + rewrite Er. destruct (String.eqb role k); [|reflexivity].
      destruct (existsb _ rows); reflexivity.
    + destruct (String.eqb_spec role k) as [<-|Hk]; [|reflexivity].
      destruct (existsb _ rows); [reflexivity|].
      destruct (String.eqb_spec (rp_business_role r) role); [contradiction|].
      reflexivity.
Qed.

Lemma upsert_price_shown (now k : string) (cat : @catalogue num)
  (entry : string * num) :
  shown_price k (role_prices (upsert_price now cat entry))
  = if String.eqb (fst entry) k then Some (snd entry)
    else shown_price k (role_prices cat).
Proof.
  destruct entry as [role price]. unfold upsert_price. cbn [fst snd].
  destruct (existsb _ (role_prices cat)) eqn:Ex;
    cbn [with_role_prices role_prices].
  - rewrite shown_price_update, Ex. reflexivity.
  - rewrite shown_price_app. unfold shown_price at 1.
    cbn [map]. rewrite last_entry_cons. cbn [fst snd rp_business_role rp_price].
    unfold last_entry. cbn [rev get_property].
    destruct (String.eqb_spec role k) as [<-|Hk]; [reflexivity|reflexivity].
Qed.


End PriceFacts.

(** ** Bulk payout with exact numbers *)

Section BulkPayoutFacts.

Import Exact.
Local Open Scope Q_scope.

(** The difference of two whole numbers of cents is its own rounding. *)
Lemma half_up_2dp_difference (p q : Q) :
  half_up_2dp (half_up_2dp p - half_up_2dp q) == half_up_2dp p - half_up_2dp q.
Proof.
  destruct (half_up_2dp_spec p) as [k [Ek _]].
  destruct (half_up_2dp_spec q) as [k' [Ek' _]].
  apply (half_up_2dp_cents _ (k - k')).
  rewrite Ek, Ek'. unfold Z.sub. rewrite inject_Z_plus, inject_Z_opp. field.
Qed.

(** The rows of a bulk payout on finite numbers: the gross is the share
    rounded to cents, and the net is the rounding of the gross less the
    rounded GST amount. *)
Lemma payAll_exact_rows (now month pm : string) (t d : Q) (rate : option Q) :
  ~ d == 0 ->
  forall (shs : list (@shareholder xnum)) (new : list dividend) (shares : list Q),
    Forall2 (share_payout now month pm (XFin t) (XFin d) (XFin (clamp0 rate)))
            shs new ->
    map sh_num_shares shs = map XFin shares ->
    Forall2 (fun n dv =>
               exists g,
                 dv_gross_amount dv = XFin g
                 /\ g == half_up_2dp (t * (n / d))
                 /\ dv_amount dv
                    = XFin (half_up_2dp
                              (g - half_up_2dp (g * clamp0 rate / 100))))
            shares new.
Proof.
  intros Hd shs new shares Hall. revert shares.
  induction Hall as [|sh dv shs new Hp Hall IH]; intros [|n shares] E;
    try discriminate.
  - constructor.
  - cbn [map] in E. injection E as En E.
    constructor; [|exact (IH shares E)].
    unfold share_payout in Hp. cbv zeta in Hp.
    destruct Hp as (_ & _ & Hg & _ & Hnet & _).
    rewrite En in Hg, Hnet.
    destruct (exact_share_gross t n d Hd) as [g [Eg Hg']].
    rewrite Eg in Hg, Hnet.
    exists g. split; [exact Hg|]. split; [exact Hg'|].
    rewrite Hnet. reflexivity.
Qed.


Lemma whole_cent_shares (t S : Q) (shares gs : list Q) :
  Forall2 (fun n g => g == half_up_2dp (t * (n / S))) shares gs ->
  (forall n, In n shares -> exists k : Z, t * (n / S) == inject_Z k / 100) ->
  Forall2 (fun n g => g == t * (n / S)) shares gs.
Proof.
  induction 1 as [|n g shares gs Hg _ IH]; intro Heven; constructor.
  - destruct (Heven n (or_introl eq_refl)) as [k Hk].
    rewrite Hg. apply (half_up_2dp_cents _ k). exact Hk.
  - apply IH. intros m Hm. apply Heven. right. exact Hm.
Qed.

Lemma Qsum_pointwise (f : Q -> Q) (l gs : list Q) :
  Forall2 (fun n g => g == f n) l gs -> Qsum gs == Qsum (map f l).
Proof.
  induction 1 as [|n g l gs Hg _ IH].
  - reflexivity.
  - cbn [map]. rewrite !Qsum_cons, Hg, IH. reflexivity.
Qed.


End BulkPayoutFacts.

(** ** Page breaks of the agreement PDF *)

Section PageBreakFacts.

Import Pdf.
Local Open Scope Q_scope.

Context {num : Type} `{JsNumber num}.
Variables pageW pageH : Q.
Variable doc_y_after_text : Q -> Q -> Q -> string -> Q -> Q.
Variable buffer_ok : string -> bool.
Variable image_ok : string -> bool.
Variable String_of_num : num -> string.
Variable toLocaleString : num -> string.
Variable toFixed3 : num -> string.
Variable toLocaleDateString : string -> string.
Variable year : string.
Variable padded_id : positive -> string.
Variable s : @shareholder num.

Local Abbreviation ensureSpace := (ensureSpace pageH year padded_id s).
Local Abbreviation newPage := (newPage year padded_id s).
Local Abbreviation drawFooter := (drawFooter year padded_id s).
Local Abbreviation section := (section pageH year padded_id s).
Local Abbreviation field := (field pageH year padded_id s).
Local Abbreviation termBlock :=
  (termBlock pageW pageH doc_y_after_text year padded_id s).
Local Abbreviation investor_signature := (investor_signature buffer_ok image_ok s).
Local Abbreviation approved_on :=
  (approved_on pageH toLocaleDateString year padded_id s).
Local Abbreviation declaration :=
  (declaration pageW pageH doc_y_after_text year padded_id s).
Local Abbreviation notice := (notice pageH year padded_id s).
Local Abbreviation signatures := (signatures pageH buffer_ok image_ok year padded_id s).
Local Abbreviation contact := (contact pageH year padded_id s).
Local Abbreviation first_blocks := (first_blocks buffer_ok image_ok year padded_id s).
Local Abbreviation render :=
  (render_agreement pageW pageH doc_y_after_text buffer_ok image_ok
     String_of_num toLocaleString toFixed3 toLocaleDateString year padded_id s).
Local Abbreviation BODY_BOT := (BODY_BOT pageH).

(** X19: [ensureSpace(n)] makes room for a block that fits on an empty
    page, with at most one page break.  When [BODY_TOP + n <= BODY_BOT],
    after [ensureSpace(n)] the block fits ([cy + n <= BODY_BOT]), the page
    number is the old one or, after a break, the next one with the cursor
    at [BODY_TOP], and a second [ensureSpace(n)] does nothing.  When the
    block is higher than the body of a page and the cursor is not above
    [BODY_TOP], one page is added and the block still does not fit. *)
Theorem ensureSpace_makes_room :
  forall (n : Q) (st : pdf_state),
    (BODY_TOP + n <= BODY_BOT ->
       cy (ensureSpace n st) + n <= BODY_BOT
       /\ (ensureSpace n st = st
           \/ (pageNum (ensureSpace n st) = S (pageNum st)
               /\ cy (ensureSpace n st) = BODY_TOP))
       /\ ensureSpace n (ensureSpace n st) = ensureSpace n st)
    /\ (BODY_BOT < BODY_TOP + n -> BODY_TOP <= cy st ->
          pageNum (ensureSpace n st) = S (pageNum st)
          /\ cy (ensureSpace n st) = BODY_TOP
          /\ BODY_BOT < cy (ensureSpace n st) + n).
Proof.
  intros n st. split.
  - intro Hroom.
    destruct (Qle_bool (cy st + n) BODY_BOT) eqn:E.
    + assert (ensureSpace n st = st) as ->
        by (unfold Pdf.ensureSpace; rewrite E; reflexivity).
      split; [apply Qle_bool_iff; exact E|]. split; [left; reflexivity|].
      unfold Pdf.ensureSpace. rewrite E. reflexivity.
    + assert (ensureSpace n st = newPage st) as ->
        by (unfold Pdf.ensureSpace; rewrite E; reflexivity).
      change (cy (newPage st)) with BODY_TOP.
      split; [exact Hroom|]. split; [right; split; reflexivity|].
      apply ensureSpace_fits. exact Hroom.
  - intros Hhigh Hcy.
    rewrite (ensureSpace_breaks pageH year padded_id s n st) by lra.
    change (cy (newPage st)) with BODY_TOP.
    split; [reflexivity|]. split; [reflexivity|exact Hhigh].
Qed.

(** *** The number of pages *)

Lemma pageNum_ensureSpace (k : nat) (n : Q) (st : pdf_state) :
  (pageNum st <= k)%nat -> (pageNum (ensureSpace n st) <= S k)%nat.
Proof.
  intro Hk. destruct (ensureSpace_cases pageH year padded_id s n st) as [->| ->].
  - lia.
  - cbn. lia.
Qed.

Lemma pageNum_section (k : nat) (title : string) (st : pdf_state) :
  (pageNum st <= k)%nat -> (pageNum (section title st) <= S k)%nat.
Proof. intro Hk. apply (pageNum_ensureSpace k 22 st Hk). Qed.

Lemma pageNum_field (k : nat) (label value : string) (st : pdf_state) :
  (pageNum st <= k)%nat -> (pageNum (field label value st) <= S k)%nat.
Proof.
  intro Hk. unfold Pdf.field. cbv zeta.
  cbn [Pdf.set_rowIdx Pdf.advance Pdf.set_cy Pdf.draw pageNum].
  destruct (Nat.even _); cbn [Pdf.draw pageNum];
    apply (pageNum_ensureSpace k _ st Hk).
Qed.

Lemma pageNum_approved_on (k : nat) (st : pdf_state) :
  (pageNum st <= k)%nat -> (pageNum (approved_on st) <= S k)%nat.
Proof.
  intro Hk. unfold Pdf.approved_on.
  destruct (str_or_null (sh_approved_at s)); [apply pageNum_field; exact Hk|lia].
Qed.

Lemma pageNum_termBlock (k : nat) (n title body : string) (st : pdf_state) :
  (pageNum st <= k)%nat -> (pageNum (termBlock n title body st) <= S k)%nat.
Proof. intro Hk. apply (pageNum_ensureSpace k _ st Hk). Qed.

Lemma pageNum_declaration (k : nat) (st : pdf_state) :
  (pageNum st <= k)%nat -> (pageNum (declaration st) <= S k)%nat.
Proof. intro Hk. apply (pageNum_ensureSpace k 52 st Hk). Qed.

Lemma pageNum_notice (k : nat) (st : pdf_state) :
  (pageNum st <= k)%nat -> (pageNum (notice st) <= S k)%nat.
Proof. intro Hk. apply (pageNum_ensureSpace k 22 st Hk). Qed.

Lemma pageNum_investor_signature (st : pdf_state) :
  pageNum (investor_signature st) = pageNum st.
Proof.
  unfold Pdf.investor_signature.
  destruct (str_or_null (sh_signature_data s)) as [data|]; [|reflexivity].
  destruct (negb (String.prefix "data:image" data)); [reflexivity|].
  destruct (buffer_ok data && image_ok data); reflexivity.
Qed.

Lemma pageNum_signatures (k : nat) (st : pdf_state) :
  (pageNum st <= k)%nat -> (pageNum (signatures st) <= S (S k))%nat.
Proof.
  intro Hk. unfold Pdf.signatures. cbv zeta.
  cbn [Pdf.advance Pdf.set_cy Pdf.draw pageNum].
  rewrite pageNum_investor_signature. cbn [Pdf.draw Pdf.advance Pdf.set_cy pageNum].
  apply pageNum_section. apply pageNum_ensureSpace. exact Hk.
Qed.

Lemma pageNum_contact_footer (k : nat) (st : pdf_state) :
  (pageNum st <= k)%nat -> (pageNum (drawFooter (contact st)) <= S k)%nat.
Proof. intro Hk. apply (pageNum_ensureSpace k 16 st Hk). Qed.

Lemma pageNum_advance (k : nat) (n : Q) (st : pdf_state) :
  (pageNum st <= k)%nat -> (pageNum (advance n st) <= k)%nat.
Proof. intro Hk. exact Hk. Qed.

Lemma pageNum_set_rowIdx (k n : nat) (st : pdf_state) :
  (pageNum st <= k)%nat -> (pageNum (set_rowIdx n st) <= k)%nat.
Proof. intro Hk. exact Hk. Qed.

Lemma pageNum_photo (st : pdf_state) :
  pageNum (photo buffer_ok image_ok s st) = pageNum st.
Proof.
  unfold Pdf.photo. destruct (sh_photo_data s) as [data|]; [|reflexivity].
  destruct (negb (String.eqb data "") && String.prefix "data:image" data);
    [|reflexivity].
  destruct (buffer_ok data); [|reflexivity].
  destruct (image_ok data); reflexivity.
Qed.

Lemma pageNum_first_blocks : pageNum first_blocks = 1%nat.
Proof. unfold Pdf.first_blocks. rewrite pageNum_photo. reflexivity. Qed.

(** One step back through the route for a bound on the page number. *)
Ltac pageNum_step :=
  lazymatch goal with
  | |- (pageNum (Pdf.drawFooter _ _ _ (Pdf.contact _ _ _ _ _)) <= _)%nat =>
      apply pageNum_contact_footer
  | |- (pageNum (Pdf.signatures _ _ _ _ _ _ _) <= _)%nat =>
      apply pageNum_signatures
  | |- (pageNum (Pdf.notice _ _ _ _ _) <= _)%nat =>
      apply pageNum_notice
  | |- (pageNum (Pdf.declaration _ _ _ _ _ _ _) <= _)%nat =>
      apply pageNum_declaration
  | |- (pageNum (Pdf.advance _ _) <= _)%nat =>
      apply pageNum_advance
  | |- (pageNum (Pdf.set_rowIdx _ _) <= _)%nat =>
      apply pageNum_set_rowIdx
  | |- (pageNum (Pdf.section _ _ _ _ _ _) <= _)%nat =>
      apply pageNum_section
  | |- (pageNum (Pdf.termBlock _ _ _ _ _ _ _ _ _ _) <= _)%nat =>
      apply pageNum_termBlock
  | |- (pageNum (Pdf.approved_on _ _ _ _ _ _) <= _)%nat =>
      apply pageNum_approved_on
  | |- (pageNum (Pdf.field _ _ _ _ _ _ _) <= _)%nat =>
      apply pageNum_field
  end.


(** X21: the signature block reserves 110 points and fills 120.  On a
    page whose body holds 110 points, the two signature panels are drawn
    at the same height, 30 points below the cursor that [ensureSpace(110)]
    leaves, and they end at most 10 points below the body limit
    [BODY_BOT]; when the block starts with between 110 and 112 points
    left on the page, no page break happens and the panels end below the
    top line of the footer band at [pageH - FOOTER_H]. *)
Theorem signature_panels_overrun :
  forall st : pdf_state,
    BODY_TOP + 110 <= BODY_BOT ->
    exists y,
      In (Block "investor panel" y 90) (page (signatures st))
      /\ In (Block "authority panel" y 90) (page (signatures st))
      /\ y = cy (ensureSpace 110 st) + 30
      /\ y + 90 <= BODY_BOT + 10
      /\ cy (signatures st) = y + 100
      /\ (cy st + 110 <= BODY_BOT -> BODY_BOT < cy st + 112 ->
            pageNum (signatures st) = pageNum st
            /\ pageH - FOOTER_H < y + 90).
Proof.
  intros st Hroom.
  destruct (proj1 (ensureSpace_makes_room 110 st) Hroom) as (Hfit & _ & _).
  set (st1 := ensureSpace 110 st) in *.
  assert (Pdf.section pageH year padded_id s "5. Manual Signatures" st1
          = advance 24
              (draw (TextAt "5. Manual Signatures" (cy st1 + 6))
                 (draw (Block "section" (cy st1) 20) st1))) as Esec.
  { unfold Pdf.section. cbv zeta.
    rewrite (ensureSpace_fits pageH year padded_id s 22 st1) by lra.
    reflexivity. }
  assert (signatures st
          = advance (90 + 10)
              (draw (Block "authority panel" (cy st1 + 24 + 6) 90)
                 (investor_signature
                    (draw (Block "investor panel" (cy st1 + 24 + 6) 90)
                       (advance 6
                          (Pdf.section pageH year padded_id s
                             "5. Manual Signatures" st1)))))) as Esig.
  { unfold Pdf.signatures. cbv zeta. fold st1. rewrite Esec.
    assert (forall x, cy (investor_signature x) = cy x) as Hcy.
    { intro x. unfold Pdf.investor_signature.
      destruct (str_or_null (sh_signature_data s)) as [data|]; [|reflexivity].
      destruct (negb (String.prefix "data:image" data)); [reflexivity|].
      destruct (buffer_ok data && image_ok data); reflexivity. }
    rewrite Hcy. reflexivity. }
  assert (forall x d, In d (page x) -> In d (page (investor_signature x))) as Hkeep.
  { intros x d Hd. unfold Pdf.investor_signature.
    destruct (str_or_null (sh_signature_data s)) as [data|].
    - destruct (negb (String.prefix "data:image" data));
        [cbn [Pdf.draw page]; apply in_or_app; left; exact Hd|].
      destruct (buffer_ok data && image_ok data); [|exact Hd].
      cbn [Pdf.draw page]. apply in_or_app. left. exact Hd.
    - cbn [Pdf.draw page]. apply in_or_app. left. exact Hd. }
  assert (forall x, cy (investor_signature x) = cy x) as Hcy.
  { intro x. unfold Pdf.investor_signature.
    destruct (str_or_null (sh_signature_data s)) as [data|]; [|reflexivity].
    destruct (negb (String.prefix "data:image" data)); [reflexivity|].
    destruct (buffer_ok data && image_ok data); reflexivity. }
  exists (cy st1 + 24 + 6). rewrite Esig.
  split; [|split; [|split; [|split; [|split]]]].
  - cbn [Pdf.advance Pdf.set_cy Pdf.draw page]. apply in_or_app. left.
    apply Hkeep. cbn [Pdf.draw page]. apply in_or_app. right. left. reflexivity.
  - cbn [Pdf.advance Pdf.set_cy Pdf.draw page]. apply in_or_app. right.
    left. reflexivity.
  - unfold Qplus. cbn. destruct (cy st1) as [a b]. cbn.
    f_equal; lia.
  - lra.
  - cbn [Pdf.advance Pdf.set_cy Pdf.draw cy]. rewrite Hcy, Esec.
    cbn [Pdf.advance Pdf.set_cy Pdf.draw cy].
    unfold Qplus. cbn. destruct (cy st1) as [a b]. cbn. f_equal; lia.
  - intros Hno Hnear.
    assert (st1 = st) as E1 by (apply ensureSpace_fits; exact Hno).
    split.
    + cbn [Pdf.advance Pdf.set_cy Pdf.draw pageNum].
      rewrite pageNum_investor_signature, Esec, E1. reflexivity.
    + rewrite E1. unfold Pdf.BODY_BOT in *. lra.
Qed.

End PageBreakFacts.

(** ** The price of a registration *)

Section StagePriceFacts.

Context {num : Type} `{JsNumber num}.
Variable bcrypt_hash : string -> string.

(** The columns of a stage after the SET clause of a request. *)
Lemma stage_fields_effect (body : stage_update_body) (r : @investment_stage num) :
  st_status (fold_left assign (stage_fields body) r)
  = supplied (su_status body) (st_status r)
  /\ st_price_per_share (fold_left assign (stage_fields body) r)
     = supplied (su_price_per_share body) (st_price_per_share r)
  /\ st_stage (fold_left assign (stage_fields body) r) = st_stage r.
Proof.
  unfold stage_fields.
  destruct (su_status body), (su_price_per_share body), (su_name body),
    (su_shares_available body); cbn; repeat split.
Qed.

(** The price columns of the row that an accepted registration stores. *)
Lemma post_agreements_priced (now : string) (body : agreement_body)
  (db : @database num) (msg : string) (id : positive) :
  json (snd (post_agreements bcrypt_hash now body db)) = SuccessId msg id ->
  exists numShares row,
    num_given (ag_numShares body) = Some numShares
    /\ shareholders (fst (post_agreements bcrypt_hash now body db))
       = (shareholders db ++ [row])%list
    /\ sh_id row = id
    /\ sh_num_shares row = numShares
    /\ sh_price_per_share row = obj_price_per_share (getRunningStage db)
    /\ sh_stage row = obj_stage (getRunningStage db)
    /\ sh_total_investment row
       = (numShares * obj_price_per_share (getRunningStage db))%js.
Proof.
  unfold post_agreements.
  destruct (str_or_null (ag_fullName body)); [|discriminate].
  destruct (str_or_null (ag_address body)); [|discriminate].
  destruct (str_or_null (ag_phone body)); [|discriminate].
  destruct (str_or_null (ag_email body)); [|discriminate].
  destruct (str_or_null (ag_username body)); [|discriminate].
  destruct (str_or_null (ag_password body)); [|discriminate].
  destruct (num_given (ag_numShares body)) as [numShares|]; [|discriminate].
  destruct (existsb _ (shareholders db)); [discriminate|].
  destruct (existsb _ (shareholders db)); [discriminate|].
  cbn [fst snd json res_json]. intro E. injection E as _ <-.
  exists numShares. eexists. split; [reflexivity|].
  unfold insert_shareholder. cbn [shareholders].
  split; [reflexivity|]. cbn. repeat split.
Qed.

(** X22: a price set on the running stage is the price of the next
    registration, and of no earlier one.  When the stage route sets
    [price_per_share] (and no status) on the stage that [getRunningStage]
    returns, that stage stays the running one with the new price; the
    rows of [shareholders] are untouched, so no stored investment is
    repriced; and a registration accepted afterwards stores the new price
    and [total_investment = numShares * price]. *)
Theorem stage_price_feeds_registration :
  forall (id : Z) (body : stage_update_body) (db : @database num)
         (r : investment_stage) (p : num) (now : string)
         (reg : agreement_body) (msg : string) (new_id : positive),
    getRunningStage db = StageRow r -> Z.pos (st_id r) = id ->
    su_status body = None -> su_price_per_share body = Some p ->
    let db' := fst (put_admin_stage id body db) in
    json (snd (post_agreements bcrypt_hash now reg db')) = SuccessId msg new_id ->
    (exists r',
       getRunningStage db' = StageRow r'
       /\ st_id r' = st_id r /\ st_stage r' = st_stage r
       /\ st_price_per_share r' = p)
    /\ shareholders db' = shareholders db
    /\ exists numShares row,
         num_given (ag_numShares reg) = Some numShares
         /\ shareholders (fst (post_agreements bcrypt_hash now reg db'))
            = (shareholders db ++ [row])%list
         /\ sh_id row = new_id
         /\ sh_price_per_share row = p
         /\ sh_stage row = st_stage r
         /\ sh_total_investment row = (numShares * p)%js.
Proof.
  intros id body db r p now reg msg new_id Hrun Hid Hst Hp db' Hok.
  assert (stage_fields body <> []) as Hsome.
  { unfold stage_fields. rewrite Hp.
    destruct (su_status body); discriminate. }
  assert (db' = update_stage id (stage_fields body) db) as Edb.
  { subst db'. unfold put_admin_stage.
    destruct (stage_fields body); [contradiction|reflexivity]. }
  assert (getRunningStage db'
          = StageRow (fold_left assign (stage_fields body) r)) as Hrun'.
  { rewrite Edb. unfold getRunningStage, running_rows in *.
    unfold update_stage. cbn [with_stages investment_stages].
    rewrite filter_map_commute.
    - destruct (filter _ (investment_stages db)) as [|r0 rest];
        [discriminate|].
      injection Hrun as ->. cbn [map].
      apply id_is_true in Hid. rewrite Hid. reflexivity.
    - intro x. destruct (id_is id (st_id x)); [|reflexivity].
      rewrite (proj1 (stage_fields_effect body x)), Hst. reflexivity. }
  destruct (stage_fields_effect body r) as (_ & Eprice & Estage).
  rewrite Hp in Eprice. cbn [supplied] in Eprice.
  assert (shareholders db' = shareholders db) as Esh
    by (rewrite Edb; reflexivity).
  split; [|split; [exact Esh|]].
  - eexists. split; [exact Hrun'|].
    split; [apply assign_keeps_id|]. split; assumption.
  - destruct (post_agreements_priced now reg db' msg new_id Hok)
      as (numShares & row & Hn & Hrows & R1 & _ & R3 & R4 & R5).
    exists numShares, row. rewrite Hrun' in R3, R4, R5.
    cbn [obj_price_per_share obj_stage] in R3, R4, R5.
    rewrite Eprice in R3, R5. rewrite Estage in R4. rewrite Esh in Hrows.
    repeat (split; [assumption|]). exact R5.
Qed.

End StagePriceFacts.

(** ** Instances on the sample data *)

(** The stand-in for bcrypt accepts the password a hash was made from. *)
Lemma sample_compare_hash (p : string) : sample_compare p (sample_hash p) = true.
Proof. unfold sample_compare. apply String.eqb_refl. Qed.

(** The tables of a started deployment satisfy the schema. *)
Lemma started_schema : schema_holds (fst started) /\ roles_unique (snd started).
Proof.
  apply (initializeDatabase_schema sample_hash "2026-01-01 00:00:00"
           (empty_database, empty_catalogue) started
           (proj1 empty_schema) (proj2 empty_schema)).
  reflexivity.
Qed.

Lemma with_pending_schema : schema_holds with_pending.
Proof.
  apply post_agreements_schema. exact (proj1 started_schema).
Qed.

Lemma every_route_keeps_the_schema_witness :
  let rq := POST_agreements "2026-01-05T10:00:00.000Z" registration in
  schema_holds (fst started) /\ roles_unique (snd started)
  /\ schema_holds (fst (fst (serve sample_hash sample_compare rq started)))
  /\ roles_unique (snd (fst (serve sample_hash sample_compare rq started))).
Proof.
  cbv zeta. split; [exact (proj1 started_schema)|].
  split; [exact (proj2 started_schema)|].
  apply every_route_keeps_the_schema;
    [exact (proj1 started_schema)|exact (proj2 started_schema)].
Defined.

Lemma deployment_invariant_witness :
  let st := fst (serve sample_hash sample_compare
                   (POST_agreements "2026-01-05T10:00:00.000Z" registration)
                   started) in
  reachable sample_hash sample_compare st
  /\ schema_holds (fst st) /\ roles_unique (snd st) /\ has_admin (fst st)
  /\ forall now, exists st', initializeDatabase sample_hash now st = Some st'.
Proof.
  cbv zeta.
  assert (reachable sample_hash sample_compare
            (fst (serve sample_hash sample_compare
                    (POST_agreements "2026-01-05T10:00:00.000Z" registration)
                    started))) as Hreach.
  { apply (reach_serve sample_hash sample_compare
             (POST_agreements "2026-01-05T10:00:00.000Z" registration) started).
    apply (reach_start sample_hash sample_compare "2026-01-01 00:00:00" started).
    reflexivity. }
  split; [exact Hreach|].
  exact (deployment_invariant sample_hash sample_compare _ Hreach).
Defined.

Lemma admin_rows_are_protected_witness :
  exists admin,
    NoDup (map sh_id (shareholders (fst started)))
    /\ In admin (shareholders (fst started))
    /\ sh_business_role admin = "ADMIN"
    /\ exists r',
         In r' (shareholders
                  (fst (fst (serve sample_hash sample_compare
                               (DELETE_admin_agreements 1) started))))
         /\ same_but_status admin r'.
Proof.
  cbv zeta.
  assert (NoDup (map sh_id (shareholders (fst started)))) as Hid
    by exact (proj1 (proj1 started_schema)).
  eexists. split; [exact Hid|].
  split; [left; reflexivity|]. split; [reflexivity|].
  apply (admin_rows_are_protected sample_hash sample_compare
           (DELETE_admin_agreements 1) started);
    [exact Hid|left; reflexivity|reflexivity].
Defined.


Lemma restart_restores_the_admin_login_witness :
  initializeDatabase sample_hash "2026-01-07 00:00:00"
    (admin_pending, seeded_catalogue) = Some started
  /\ sample_compare "Qc@242526" (sample_hash "Qc@242526") = true
  /\ exists row,
       In row (shareholders (fst started))
       /\ sh_username row = "admin"
       /\ post_auth_login sample_compare
            (mkLoginBody (Some "admin") (Some "Qc@242526")) (fst started)
          = res_json (SuccessUser (sh_id row) (sh_full_name row)
                        (if String.eqb (sh_business_role row) "ADMIN"
                         then "ADMIN" else "SHAREHOLDER")
                        "admin").
Proof.
  assert (initializeDatabase sample_hash "2026-01-07 00:00:00"
            (admin_pending, seeded_catalogue) = Some started) as E
    by (vm_compute; reflexivity).
  split; [exact E|]. split; [reflexivity|].
  apply (restart_restores_the_admin_login sample_hash sample_compare
           "2026-01-07 00:00:00" (admin_pending, seeded_catalogue) started E).
  reflexivity.
Defined.

Lemma initializeDatabase_is_idempotent_witness :
  initializeDatabase sample_hash "2026-01-01 00:00:00"
    (empty_database, empty_catalogue) = Some started
  /\ initializeDatabase sample_hash "2026-01-07 00:00:00" started = Some started.
Proof.
  assert (initializeDatabase sample_hash "2026-01-01 00:00:00"
            (empty_database, empty_catalogue) = Some started) as E
    by reflexivity.
  split; [exact E|].
  exact (proj2 (initializeDatabase_is_idempotent sample_hash sample_hash
                  "2026-01-01 00:00:00" "2026-01-07 00:00:00"
                  (empty_database, empty_catalogue) started E) eq_refl).
Defined.

Lemma initializeDatabase_keeps_the_data_witness :
  let st := (with_pending, seeded_catalogue) in
  initializeDatabase sample_hash "2026-01-07 00:00:00" st = Some st
  /\ forall r, In r (shareholders with_pending) -> sh_username r <> "admin" ->
               In r (shareholders with_pending).
Proof.
  cbv zeta.
  assert (initializeDatabase sample_hash "2026-01-07 00:00:00"
            (with_pending, seeded_catalogue)
          = Some (with_pending, seeded_catalogue)) as E
    by (vm_compute; reflexivity).
  split; [exact E|].
  exact (proj2 (proj2 (proj2 (proj2
           (initializeDatabase_keeps_the_data sample_hash
              "2026-01-07 00:00:00" _ _ E))))).
Defined.


Lemma registration_with_admin_role_witness :
  schema_holds seeded
  /\ json (snd (post_agreements sample_hash "2026-01-05T10:00:00.000Z"
                  admin_registration seeded))
     = SuccessId "Agreement submitted successfully" 2
  /\ exists fullName username,
       post_auth_login sample_compare
         (mkLoginBody (Some "bina") (Some "secret"))
         (fst (post_agreements sample_hash "2026-01-05T10:00:00.000Z"
                 admin_registration seeded))
       = res_json (SuccessUser 2 fullName "ADMIN" username).
Proof.
  assert (json (snd (post_agreements sample_hash "2026-01-05T10:00:00.000Z"
                       admin_registration seeded))
          = SuccessId "Agreement submitted successfully" 2) as E
    by reflexivity.
  split; [exact (proj1 started_schema)|]. split; [exact E|].
  destruct (registration_with_admin_role sample_hash sample_compare
              sample_compare_hash "2026-01-05T10:00:00.000Z"
              admin_registration seeded _ _ (proj1 started_schema) E eq_refl)
    as ((fn & u & _ & _ & Hok) & _).
  exists fn, u. exact Hok.
Defined.

Lemma put_admin_credentials_partial_update_witness :
  json (snd (put_admin_credentials sample_hash 2 new_credentials with_pending))
  = Success "Credentials updated successfully"
  /\ List.length
       (shareholders
          (fst (put_admin_credentials sample_hash 2 new_credentials with_pending)))
     = List.length (shareholders with_pending).
Proof.
  assert (json (snd (put_admin_credentials sample_hash 2 new_credentials
                       with_pending))
          = Success "Credentials updated successfully") as E
    by reflexivity.
  split; [exact E|].
  exact (proj1 (put_admin_credentials_partial_update sample_hash 2
                  new_credentials with_pending _ E)).
Defined.

Lemma credentials_then_login_witness :
  schema_holds with_pending
  /\ json (snd (put_admin_credentials sample_hash 2 new_credentials with_pending))
     = Success "Credentials updated successfully"
  /\ str_or_null (cr_password new_credentials) = Some "changed"
  /\ exists sh,
       In sh (shareholders with_pending) /\ Z.pos (sh_id sh) = 2
       /\ forall username,
            supplied (str_or_null (cr_username new_credentials)) (sh_username sh)
            = username ->
            username <> "" ->
            post_auth_login sample_compare
              (mkLoginBody (Some username) (Some "changed"))
              (fst (put_admin_credentials sample_hash 2 new_credentials
                      with_pending))
            = if String.eqb (sh_status sh) "APPROVED"
              then res_json (SuccessUser (sh_id sh) (sh_full_name sh)
                               "SHAREHOLDER" username)
              else res_json (Failure
                     "Account pending approval. Please wait for admin to approve.").
Proof.
  assert (json (snd (put_admin_credentials sample_hash 2 new_credentials
                       with_pending))
          = Success "Credentials updated successfully") as E
    by reflexivity.
  split; [exact with_pending_schema|]. split; [exact E|].
  split; [reflexivity|].
  exact (credentials_then_login sample_hash sample_compare sample_compare_hash
           2 new_credentials with_pending _ "changed" with_pending_schema E
           eq_refl).
Defined.

Lemma deleted_account_is_gone_witness :
  schema_holds with_pending
  /\ json (snd (delete_admin_agreement 2 with_pending))
     = Success "Agreement for Asha Rai deleted"
  /\ delete_admin_agreement 2 (fst (delete_admin_agreement 2 with_pending))
     = (fst (delete_admin_agreement 2 with_pending),
        res_status_json 404 (Failure "Shareholder not found")).
Proof.
  assert (json (snd (delete_admin_agreement 2 with_pending))
          = Success "Agreement for Asha Rai deleted") as E
    by reflexivity.
  split; [exact with_pending_schema|]. split; [exact E|].
  exact (proj1 (deleted_account_is_gone sample_compare 2 with_pending _
                  with_pending_schema E)).
Defined.

Lemma update_of_unknown_key_succeeds_witness :
  (forall r, In r (shareholders seeded) -> Z.pos (sh_id r) <> 99)
  /\ put_admin_agreement "2026-01-06T08:00:00.000Z" 99 "APPROVED" seeded
     = (seeded, res_json (Success "Status updated to APPROVED")).
Proof.
  assert (forall r, In r (shareholders seeded) -> Z.pos (sh_id r) <> 99) as Hno.
  { intros r [<-|[]]. discriminate. }
  split; [exact Hno|].
  exact (proj1 update_of_unknown_key_succeeds "2026-01-06T08:00:00.000Z" 99
           "APPROVED" seeded Hno).
Defined.

Lemma post_admin_stages_appends_witness :
  json (snd (post_admin_stages fourth_stage seeded)) = SuccessId "Stage added" 4
  /\ 4%positive = next_stage_id seeded
  /\ getRunningStage (fst (post_admin_stages fourth_stage seeded))
     = getRunningStage seeded.
Proof.
  assert (json (snd (post_admin_stages fourth_stage seeded))
          = SuccessId "Stage added" 4) as E by reflexivity.
  split; [exact E|].
  destruct (post_admin_stages_appends fourth_stage seeded _ _ E)
    as (Hid & row & _ & _ & _ & _ & _ & _ & Hrun & _).
  split; [exact Hid|]. apply Hrun. discriminate.
Defined.

Lemma stage_price_feeds_registration_witness :
  exists r,
    getRunningStage seeded = StageRow r /\ Z.pos (st_id r) = 2
    /\ json (snd (post_agreements sample_hash "2026-01-05T10:00:00.000Z"
                    registration (fst (put_admin_stage 2 raise_price seeded))))
       = SuccessId "Agreement submitted successfully" 2
    /\ exists numShares row,
         num_given (ag_numShares registration) = Some numShares
         /\ shareholders
              (fst (post_agreements sample_hash "2026-01-05T10:00:00.000Z"
                      registration (fst (put_admin_stage 2 raise_price seeded))))
            = (shareholders seeded ++ [row])%list
         /\ sh_id row = 2%positive
         /\ sh_price_per_share row = B64.of_Z 1500
         /\ sh_stage row = st_stage r
         /\ sh_total_investment row = (numShares * B64.of_Z 1500)%js.
Proof.
  eexists. split; [reflexivity|]. split; [reflexivity|].
  assert (json (snd (post_agreements sample_hash "2026-01-05T10:00:00.000Z"
                       registration (fst (put_admin_stage 2 raise_price seeded))))
          = SuccessId "Agreement submitted successfully" 2) as E
    by reflexivity.
  split; [exact E|].
  exact (proj2 (proj2
           (stage_price_feeds_registration sample_hash 2 raise_price seeded _
              (B64.of_Z 1500) "2026-01-05T10:00:00.000Z" registration _ _
              eq_refl eq_refl eq_refl eq_refl E))).
Defined.

Section ExactWitnesses.

Import Exact.



End ExactWitnesses.

Lemma ensureSpace_makes_room_witness :
  let pageH := (84189 # 100)%Q in
  (Pdf.BODY_TOP + 110 <= Pdf.BODY_BOT pageH)%Q
  /\ (Pdf.cy (Pdf.ensureSpace pageH "2026" (fun _ => "00007")
                long_address_holder 110 near_bottom) + 110
      <= Pdf.BODY_BOT pageH)%Q.
Proof.
  cbv zeta.
  assert (Pdf.BODY_TOP + 110 <= Pdf.BODY_BOT (84189 # 100))%Q as Hroom
    by (unfold Qle; cbn; lia).
  split; [exact Hroom|].
  exact (proj1 (proj1 (ensureSpace_makes_room (84189 # 100) "2026"
                         (fun _ => "00007") long_address_holder 110
                         near_bottom) Hroom)).
Defined.

Lemma signature_panels_overrun_witness :
  let pageH := (84189 # 100)%Q in
  let signatures :=
    Pdf.signatures pageH (fun _ => true) (fun _ => true) "2026"
      (fun _ => "00007") long_address_holder in
  (Pdf.BODY_TOP + 110 <= Pdf.BODY_BOT pageH)%Q
  /\ exists y,
       In (Pdf.Block "authority panel" y 90) (Pdf.page (signatures near_bottom))
       /\ (pageH - Pdf.FOOTER_H < y + 90)%Q.
Proof.
  cbv zeta.
  assert (Pdf.BODY_TOP + 110 <= Pdf.BODY_BOT (84189 # 100))%Q as Hroom
    by (unfold Qle; cbn; lia).
  split; [exact Hroom|].
  destruct (signature_panels_overrun (84189 # 100) (fun _ => true)
              (fun _ => true) "2026" (fun _ => "00007") long_address_holder
              near_bottom Hroom)
    as (y & _ & Hin & _ & _ & _ & Hover).
  exists y. split; [exact Hin|]. apply Hover.
  - unfold Qle. cbn. lia.
  - unfold Qlt. cbn. lia.
Defined.

(** ** Status updates and ids *)

Section StatusFacts.

Context {num : Type} `{JsNumber num}.
Variable bcrypt_hash : string -> string.
Variable bcrypt_compare : string -> string -> bool.

(** X23: status updates compose as writes to one cell.  Two status
    updates of the same id leave the tables as the second one alone does,
    whatever the first one set (so an update applied twice is the update
    applied once, and a rejection after an approval clears
    [approved_at]); two status updates of different ids give the same
    tables in either order. *)
Theorem status_updates_compose :
  (forall (now1 now2 : string) (id : Z) (s1 s2 : string) (db : @database num),
     fst (put_admin_agreement now2 id s2 (fst (put_admin_agreement now1 id s1 db)))
     = fst (put_admin_agreement now2 id s2 db))
  /\ (forall (now1 now2 : string) (id1 id2 : Z) (s1 s2 : string)
             (db : @database num),
        id1 <> id2 ->
        fst (put_admin_agreement now2 id2 s2
               (fst (put_admin_agreement now1 id1 s1 db)))
        = fst (put_admin_agreement now1 id1 s1
                 (fst (put_admin_agreement now2 id2 s2 db)))).
Proof.
  split.
  - intros now1 now2 id s1 s2 db.
    unfold put_admin_agreement, with_shareholders.
    cbn [fst shareholders dividend_history investment_stages
         next_shareholder_id next_dividend_id next_stage_id].
    f_equal. rewrite map_map. apply map_ext. intro r.
    destruct (id_is id (sh_id r)) eqn:E; cbn [set_status sh_id]; rewrite E;
      reflexivity.
  - intros now1 now2 id1 id2 s1 s2 db Hne.
    unfold put_admin_agreement, with_shareholders.
    cbn [fst shareholders dividend_history investment_stages
         next_shareholder_id next_dividend_id next_stage_id].
    f_equal. rewrite !map_map. apply map_ext. intro r.
    destruct (id_is id1 (sh_id r)) eqn:E1;
      destruct (id_is id2 (sh_id r)) eqn:E2;
      cbn [set_status sh_id]; rewrite ?E1, ?E2; try reflexivity.
    apply id_is_true in E1, E2. congruence.
Qed.

Lemma pay_share_loop_counter (now month pm : string) (T S gst : num) :
  forall (shs : list shareholder) (db : @database num),
    next_shareholder_id (fold_left (pay_share now month T S gst pm) shs db)
    = next_shareholder_id db.
Proof.
  induction shs as [|sh shs IH]; intro db; cbn [fold_left];
    [reflexivity|].
  rewrite IH. reflexivity.
Qed.

(** What a request does to the rows and the counter of [shareholders]:
    every row of the new table has the id of a row of the old one or the
    old value of the counter, and the counter does not go down. *)
Lemma serve_shareholder_ids (rq : request) (st : @database num * catalogue) :
  let db := fst st in
  let db' := fst (fst (serve bcrypt_hash bcrypt_compare rq st)) in
  (next_shareholder_id db <= next_shareholder_id db')%positive
  /\ forall r', In r' (shareholders db') ->
       (exists r, In r (shareholders db) /\ sh_id r = sh_id r')
       \/ sh_id r' = next_shareholder_id db.
Proof.
  destruct st as [db cat]. cbv zeta. cbn [fst].
  assert (forall db1 : @database num,
            shareholders db1 = shareholders db ->
            next_shareholder_id db1 = next_shareholder_id db ->
            (next_shareholder_id db <= next_shareholder_id db1)%positive
            /\ forall r', In r' (shareholders db1) ->
                 (exists r, In r (shareholders db) /\ sh_id r = sh_id r')
                 \/ sh_id r' = next_shareholder_id db) as Hsame.
  { intros db1 Es En. rewrite Es, En. split; [lia|].
    intros r' Hr'. left. exists r'. split; [exact Hr'|reflexivity]. }
  assert (forall (p : shareholder -> bool) (g : shareholder -> shareholder),
            (forall r, sh_id (g r) = sh_id r) ->
            forall r', In r' (map (fun r => if p r then g r else r)
                                  (shareholders db)) ->
              (exists r, In r (shareholders db) /\ sh_id r = sh_id r')
              \/ sh_id r' = next_shareholder_id db) as Hmap.
  { intros p g Hg r' Hr'. apply in_map_iff in Hr'.
    destruct Hr' as [r [<- Hr]]. left. exists r. split; [exact Hr|].
    destruct (p r); [symmetry; apply Hg|reflexivity]. }
  destruct rq; cbn [serve fst snd]; try (apply Hsame; reflexivity).
  - destruct (post_agreements_cases bcrypt_hash now body db)
      as [[msg ->]|(fn & u & p & e & row & _ & _ & _ & _ & _ & _ & -> & Hrow)];
      [apply Hsame; reflexivity|].
    cbn [fst insert_shareholder shareholders next_shareholder_id].
    split; [lia|]. intros r' Hr'. apply in_app_or in Hr'.
    destruct Hr' as [Hr'|[<-|[]]].
    + left. exists r'. split; [exact Hr'|reflexivity].
    + right. apply (Hrow (next_shareholder_id db)).
  - unfold put_admin_agreement.
    cbn [fst with_shareholders shareholders next_shareholder_id].
    split; [lia|]. apply Hmap. reflexivity.
  - unfold delete_admin_agreement.
    destruct (filter _ (shareholders db)) as [|sh rest];
      [apply Hsame; reflexivity|].
    destruct (String.eqb (sh_business_role sh) "ADMIN");
      [apply Hsame; reflexivity|].
    cbn [fst delete_shareholder delete_dividends_of with_shareholders
         shareholders next_shareholder_id].
    split; [lia|]. intros r' Hr'. apply filter_In in Hr'.
    left. exists r'. split; [tauto|reflexivity].
  - destruct (put_admin_credentials_cases bcrypt_hash id body db)
      as [(c & m & ->)|(sh & rest & _ & _ & _ & _ & ->)];
      [apply Hsame; reflexivity|].
    cbn [fst with_shareholders shareholders next_shareholder_id].
    split; [lia|]. apply Hmap. intro r.
    apply (assign_credential_keeps _ r).
  - unfold put_admin_stage.
    destruct (List.length (stage_fields body) =? 0)%nat;
      apply Hsame; reflexivity.
  - unfold post_admin_stages.
    destruct (num_given (sc_stage body)); [|apply Hsame; reflexivity].
    destruct (str_or_null (sc_name body)); [|apply Hsame; reflexivity].
    destruct (num_given (sc_price_per_share body)); apply Hsame; reflexivity.
  - apply Hsame; [apply post_admin_dividends_shareholders|].
    unfold post_admin_dividends.
    destruct (id_given (dq_shareholderId body)); [|reflexivity].
    destruct (str_or_null (dq_month body)); [|reflexivity].
    destruct (amount_given (dq_amount body)); [|reflexivity].
    destruct (filter _ (shareholders db)); reflexivity.
  - apply Hsame; [apply post_admin_dividends_all_shareholders|].
    unfold post_admin_dividends_all.
    destruct (str_or_null (dq_month body)); [|reflexivity].
    destruct (amount_given (dq_amount body)); [|reflexivity].
    destruct (List.length (approved_shareholders db) =? 0)%nat; [reflexivity|].
    cbn [fst]. apply pay_share_loop_counter.
Qed.

(** X24: the id of a shareholder is never given out again.  Under every
    request the AUTOINCREMENT counter of [shareholders] does not go down,
    a row of the new table has the id of a row of the old table or the
    old value of the counter, and so an id below the counter that no row
    has (the id of a deleted shareholder) is the id of no row afterwards. *)
Theorem shareholder_ids_are_never_reused :
  forall (rq : request) (st : @database num * catalogue),
    let db := fst st in
    let db' := fst (fst (serve bcrypt_hash bcrypt_compare rq st)) in
    (next_shareholder_id db <= next_shareholder_id db')%positive
    /\ (forall r', In r' (shareholders db') ->
          (exists r, In r (shareholders db) /\ sh_id r = sh_id r')
          \/ sh_id r' = next_shareholder_id db)
    /\ (forall id,
          (id < next_shareholder_id db)%positive ->
          ~ In id (map sh_id (shareholders db)) ->
          ~ In id (map sh_id (shareholders db'))).
Proof.
  intros rq st db db'.
  destruct (serve_shareholder_ids rq st) as [Hn Hrows].
  fold db db' in Hn, Hrows. split; [exact Hn|]. split; [exact Hrows|].
  intros id Hlt Hfree Hin. apply in_map_iff in Hin.
  destruct Hin as [r' [<- Hr']].
  destruct (Hrows r' Hr') as [[r [Hr E]]|E].
  - apply Hfree. rewrite <- E. apply in_map. exact Hr.
  - rewrite E in Hlt. lia.
Qed.

End StatusFacts.

Lemma status_updates_compose_witness :
  (1 <> 2)
  /\ fst (put_admin_agreement "2026-01-07T08:00:00.000Z" 2 "APPROVED"
            (fst (put_admin_agreement "2026-01-06T08:00:00.000Z" 1 "PENDING"
                    with_pending)))
     = fst (put_admin_agreement "2026-01-06T08:00:00.000Z" 1 "PENDING"
              (fst (put_admin_agreement "2026-01-07T08:00:00.000Z" 2 "APPROVED"
                      with_pending))).
Proof.
  assert (1 <> 2) as Hne by discriminate.
  split; [exact Hne|].
  exact (proj2 status_updates_compose "2026-01-06T08:00:00.000Z"
           "2026-01-07T08:00:00.000Z" 1 2 "PENDING" "APPROVED" with_pending Hne).
Defined.

Lemma shareholder_ids_are_never_reused_witness :
  let gone := fst (delete_admin_agreement 2 with_pending) in
  let rq := POST_agreements "2026-01-08T10:00:00.000Z" registration in
  (2 < next_shareholder_id gone)%positive
  /\ ~ In 2%positive (map sh_id (shareholders gone))
  /\ ~ In 2%positive
         (map sh_id
            (shareholders
               (fst (fst (serve sample_hash sample_compare rq
                            (gone, seeded_catalogue)))))).
Proof.
  cbv zeta.
  assert (2 < next_shareholder_id (fst (delete_admin_agreement 2 with_pending)))%positive
    as Hlt by (vm_compute; reflexivity).
  assert (~ In 2%positive
            (map sh_id (shareholders (fst (delete_admin_agreement 2 with_pending)))))
    as Hfree.
  { intros [E|[]]. discriminate E. }
  split; [exact Hlt|]. split; [exact Hfree|].
  exact (proj2 (proj2
           (shareholder_ids_are_never_reused sample_hash sample_compare
              (POST_agreements "2026-01-08T10:00:00.000Z" registration)
              (fst (delete_admin_agreement 2 with_pending), seeded_catalogue)))
           2%positive Hlt Hfree).
Defined.

(** ** What the routes do not check *)

Section UncheckedFacts.

Context {num : Type} `{JsNumber num}.
Variable bcrypt_hash : string -> string.

(** X25: a second RUNNING stage behind the first is ignored.  The stage
    route does not close the running stage when it sets another one to
    RUNNING: when the update goes to a stage that comes after the first
    RUNNING stage in the table (and to no stage before it),
    [getRunningStage] returns the same stage as before, whatever the
    update sets, so registrations keep the old price. *)
Theorem later_running_stage_is_ignored :
  forall (id : Z) (body : stage_update_body) (db : @database num)
         (before after : list investment_stage) (r1 : investment_stage),
    investment_stages db = (before ++ r1 :: after)%list ->
    st_status r1 = "RUNNING" ->
    (forall r, In r before -> st_status r <> "RUNNING" /\ Z.pos (st_id r) <> id) ->
    Z.pos (st_id r1) <> id ->
    getRunningStage db = StageRow r1
    /\ getRunningStage (fst (put_admin_stage id body db)) = StageRow r1.
Proof.
  intros id body db before after r1 Hrows Hrun Hbefore Hid.
  assert (filter (fun r : @investment_stage num => String.eqb (st_status r) "RUNNING")
                 before = []) as Hnone.
  { apply filter_none. intros r Hr. apply String.eqb_neq.
    exact (proj1 (Hbefore r Hr)). }
  split.
  - unfold getRunningStage, running_rows. rewrite Hrows, filter_app, Hnone.
    cbn [app filter]. apply String.eqb_eq in Hrun. rewrite Hrun. reflexivity.
  - unfold put_admin_stage.
    destruct (List.length (stage_fields body) =? 0)%nat; cbn [fst].
    + unfold getRunningStage, running_rows. rewrite Hrows, filter_app, Hnone.
      cbn [app filter]. apply String.eqb_eq in Hrun. rewrite Hrun. reflexivity.
    + unfold getRunningStage, running_rows, update_stage.
      cbn [with_stages investment_stages]. rewrite Hrows, map_app.
      rewrite map_update_none
        by (intros r Hr; apply id_is_false; exact (proj2 (Hbefore r Hr))).
      rewrite filter_app, Hnone. cbn [map app filter].
      apply id_is_false in Hid. rewrite Hid.
      apply String.eqb_eq in Hrun. rewrite Hrun. reflexivity.
Qed.


(** X27: a single payout is not idempotent.  The route keeps no record
    of what has been paid for a month: when a payout has been accepted,
    the same request sent again is accepted with the same answer and
    adds a second row for the same shareholder and month with the same
    amounts and another id. *)
Theorem repeated_payout_pays_twice :
  forall (now now' : string) (body : dividend_body) (db : @database num)
         (msg : string) (net gross gstAmt : num),
    json (snd (post_admin_dividends now body db))
    = SuccessDividend msg net gross gstAmt ->
    let db1 := fst (post_admin_dividends now body db) in
    snd (post_admin_dividends now' body db1)
    = snd (post_admin_dividends now body db)
    /\ exists d1 d2,
         dividend_history (fst (post_admin_dividends now' body db1))
         = (dividend_history db ++ [d1; d2])%list
         /\ dv_shareholder_id d2 = dv_shareholder_id d1
         /\ dv_month d2 = dv_month d1
         /\ dv_gross_amount d2 = dv_gross_amount d1
         /\ dv_gst_rate d2 = dv_gst_rate d1
         /\ dv_amount d2 = dv_amount d1 /\ dv_amount d1 = net
         /\ dv_id d2 = Pos.succ (dv_id d1).
Proof.
  intros now now' body db msg net gross gstAmt Hok db1. subst db1. revert Hok.
  unfold post_admin_dividends.
  destruct (id_given (dq_shareholderId body)) as [shareholderId|];
    [|discriminate].
  destruct (str_or_null (dq_month body)) as [month|]; [|discriminate].
  destruct (amount_given (dq_amount body)) as [amount|]; [|discriminate].
  destruct (filter _ (shareholders db)) as [|sh rest] eqn:Ef; [discriminate|].
  cbn [fst snd json res_json insert_dividend shareholders]. rewrite Ef.
  intro E. injection E as _ <- _ _.
  split; [reflexivity|].
  cbn [fst insert_dividend dividend_history next_dividend_id].
  eexists. eexists. split.
  - rewrite <- app_assoc. reflexivity.
  - cbn. repeat split.
Qed.

End UncheckedFacts.

Lemma later_running_stage_is_ignored_witness :
  exists before after r1,
    investment_stages seeded = (before ++ r1 :: after)%list
    /\ st_status r1 = "RUNNING"
    /\ (forall r, In r before -> st_status r <> "RUNNING" /\ Z.pos (st_id r) <> 3)
    /\ Z.pos (st_id r1) <> 3
    /\ getRunningStage
         (fst (put_admin_stage 3
                 (mkStageUpdateBody (Some "RUNNING") None None None) seeded))
       = StageRow r1.
Proof.
  exists [mkStage 1 (B64.of_Z 1) "Base Price" (B64.of_Z 1000)
            (B64.of_Z 0) (B64.of_Z 1500) "SOLD_OUT" (B64.of_Z 0)],
         [mkStage 3 (B64.of_Z 3) "Next Price" (B64.of_Z 1440)
            (B64.of_Z 5001) (B64.of_Z 15000) "UPCOMING" (B64.of_Z 100)],
         (mkStage 2 (B64.of_Z 2) "Current Price" (B64.of_Z 1200)
            (B64.of_Z 1501) (B64.of_Z 5000) "RUNNING" (B64.of_Z 100)).
  assert (forall r : @investment_stage spec_float,
            In r [mkStage 1 (B64.of_Z 1) "Base Price" (B64.of_Z 1000)
                    (B64.of_Z 0) (B64.of_Z 1500) "SOLD_OUT" (B64.of_Z 0)] ->
            st_status r <> "RUNNING" /\ Z.pos (st_id r) <> 3) as Hbefore.
  { intros r [<-|[]]. split; discriminate. }
  assert (2 <> 3) as Hne by discriminate.
  split; [reflexivity|]. split; [reflexivity|]. split; [exact Hbefore|].
  split; [exact Hne|].
  apply (later_running_stage_is_ignored 3
           (mkStageUpdateBody (Some "RUNNING") None None None) seeded
           [mkStage 1 (B64.of_Z 1) "Base Price" (B64.of_Z 1000)
              (B64.of_Z 0) (B64.of_Z 1500) "SOLD_OUT" (B64.of_Z 0)]
           [mkStage 3 (B64.of_Z 3) "Next Price" (B64.of_Z 1440)
              (B64.of_Z 5001) (B64.of_Z 15000) "UPCOMING" (B64.of_Z 100)]);
    [reflexivity|reflexivity|exact Hbefore|exact Hne].
Defined.

Lemma repeated_payout_pays_twice_witness :
  exists msg net gross gstAmt,
    json (snd (post_admin_dividends "2026-02-01 09:00:00"
                 (payout (Some 2) (B64.of_Z 50) None)
                 (three_holders sample_hash 1 3 6)))
    = SuccessDividend msg net gross gstAmt
    /\ snd (post_admin_dividends "2026-02-02 09:00:00"
              (payout (Some 2) (B64.of_Z 50) None) paid_once)
       = snd (post_admin_dividends "2026-02-01 09:00:00"
                (payout (Some 2) (B64.of_Z 50) None)
                (three_holders sample_hash 1 3 6)).
Proof.
  do 4 eexists.
  assert (json (snd (post_admin_dividends "2026-02-01 09:00:00"
                       (payout (Some 2) (B64.of_Z 50) None)
                       (three_holders sample_hash 1 3 6)))
          = SuccessDividend "Dividend recorded successfully"
              (B64.of_Z 50) (B64.of_Z 50) (B64.of_Z 0)) as E
    by (vm_compute; reflexivity).
  split; [exact E|].
  exact (proj1 (repeated_payout_pays_twice "2026-02-01 09:00:00"
                  "2026-02-02 09:00:00" (payout (Some 2) (B64.of_Z 50) None)
                  (three_holders sample_hash 1 3 6) _ _ _ _ E)).
Defined.
